(** * PredictiveMaintenance: the decode-and-diagnose pipeline

    A shallow embedding of the Python sources of the harness monitor:

    - [Replay]  : [Phase 6 - Data Storage & Replay/replay_decode.py]
                  (manual 16-bit little-endian decode);
    - [Phase7]  : [Phase 7 - Predictive Maintenance Logic/main.py]
                  (sliding window, EWMA, threshold and drift checks);
    - [Phase8]  : [Phase 8 - Event Handling & Alerts/main.py]
                  (rule events, drift state, throttled Google-Sheets push).

    Python [float] is IEEE-754 binary64; it is modelled by Rocq's primitive
    [float], so every arithmetic expression below rounds as the program's does.
    Module-level globals become fields of an explicit [State] record that is
    threaded through a small state/output/exception monad [Py].  What comes
    from outside the repository (the cantools database built from
    [harness_demo.dbc], the wall clock, the HTTP exchange) is a parameter.
    The periodic loops ([loop], [user_loop]) run on the globals of the
    callback extended with [last_stats_time] ([Phase7Loop], [Phase8Loop]).
    The CSV replay ([parse_int], [replay]) is in [ReplayCsv], with the
    builtins [str.strip] and [int] that it calls; of the Phase 6 logger
    only the header row and the format of the hexadecimal fields are
    modelled ([Phase6Log]). *)

From Stdlib Require Import ZArith QArith Floats Lia Bool.
From stdpp Require Import gmap strings list.

Set Warnings "-inexact-float".
Set Default Proof Using "Type".

Local Open Scope Z_scope.

(* ===================================================================== *)
(** * Python prelude                                                      *)
(* ===================================================================== *)

(** Python comparison operators on floats, in the source's orientation. *)
Notation "x >? y" := (PrimFloat.ltb y x)
  (at level 70, no associativity, only parsing) : float_scope.
Notation "x >=? y" := (PrimFloat.leb y x)
  (at level 70, no associativity, only parsing) : float_scope.

(** [float(n)] / the implicit conversion of an [int] operand in mixed
    arithmetic: the integer rounded to the nearest binary64 (ties to even).
    (An integer beyond the binary64 range would raise [OverflowError] in
    Python; timestamps and raw signal values are far below it.) *)
Definition float_of_int (z : Z) : float :=
  SF2Prim (binary_normalize prec emax z 0 false).

(** The blend [smoothed = alpha * new + (1 - alpha) * smoothed] over the
    rationals: the exact value that the binary64 expression of the program
    rounds. *)
Definition ewma_blend_exact (alpha new smoothed : Q) : Q :=
  (alpha * new + (1 - alpha) * smoothed)%Q.

(** The exceptions the modelled code can raise. *)
Inductive PyExc : Type :=
| ValueError   (* bytes([..]) with an element outside range(256) *)
| KeyError     (* decoded[name] with the signal missing *)
| TypeError    (* arithmetic, float() or formatting applied to None *)
| OtherError.  (* an exception raised while an except clause is running *)

Inductive Result (A : Type) : Type :=
| Ok (a : A)
| Raise (e : PyExc).
Arguments Ok {A} a.
Arguments Raise {A} e.

(** A computation over the module globals [S] that prints lines of type [O]
    and either returns a value or raises.  Mutations and output that happen
    before a [raise] persist, as they do for Python globals and [print]. *)
Definition Py (S O A : Type) : Type := S -> S * list O * Result A.

Definition ret {S O A} (a : A) : Py S O A :=
  fun s => (s, [], Ok a).

Definition bind {S O A B} (m : Py S O A) (k : A -> Py S O B) : Py S O B :=
  fun s =>
    match m s with
    | (s1, o1, Ok a) =>
        match k a s1 with
        | (s2, o2, r) => (s2, o1 ++ o2, r)
        end
    | (s1, o1, Raise e) => (s1, o1, Raise e)
    end.

Definition get {S O} : Py S O S := fun s => (s, [], Ok s).
Definition modify {S O} (f : S -> S) : Py S O unit := fun s => (f s, [], Ok tt).
Definition print {S O} (o : O) : Py S O unit := fun s => (s, [o], Ok tt).
Definition raise {S O A} (e : PyExc) : Py S O A := fun s => (s, [], Raise e).

Notation "x <- m ;; k" := (bind m (fun x => k))
  (at level 100, m at next level, k at level 200, right associativity,
   format "'[v' x  <-  m  ;;  '/' k ']'").
Notation "m ;; k" := (bind m (fun _ => k))
  (at level 100, k at level 200, right associativity).

(** Projections of a run. *)
Definition final_state {S O A} (r : S * list O * Result A) : S := r.1.1.
Definition output {S O A} (r : S * list O * Result A) : list O := r.1.2.
Definition result {S O A} (r : S * list O * Result A) : Result A := r.2.

(** [m] leaves the globals as it found them. *)
Definition reads_only {S O A} (m : Py S O A) : Prop :=
  forall s, final_state (m s) = s.

(** Every line [m] prints satisfies [P]. *)
Definition prints_only {S O A} (P : O -> Prop) (m : Py S O A) : Prop :=
  forall s, Forall P (output (m s)).

(** [bytes([b0, .., b7])]: raises [ValueError] unless every element is in
    [range(0, 256)]. *)
Definition py_bytes {S O} (l : list Z) : Py S O (list Z) :=
  if forallb (fun b => (0 <=? b) && (b <? 256)) l then ret l else raise ValueError.

(** An operand that must not be [None] (arithmetic on it, [float(..)] of it or
    formatting it with [:.2f] raises [TypeError] otherwise). *)
Definition not_none {S O} (v : option float) : Py S O float :=
  match v with
  | Some x => ret x
  | None => raise TypeError
  end.

(** [window.popleft()] repeated while the head satisfies [p]. *)
Fixpoint popleft_while {A} (p : A -> bool) (l : list A) : list A :=
  match l with
  | [] => []
  | x :: l' => if p x then popleft_while p l' else l
  end.

(* ===================================================================== *)
(** * The cantools database (external)                                    *)
(* ===================================================================== *)

(** The message objects of the database loaded from [harness_demo.dbc] at
    start-up.  The file and the cantools library are not part of the sources;
    the loaded database is a parameter.  [decode] is [msg.decode(data)]:
    [None] stands for any exception it raises, [Some d] for the dictionary
    signal name -> physical value it returns. *)
Class Dbc : Type := {
  Message : Type;
  Message_is :: EqDecision Message;          (* object identity, [msg is msg_a] *)
  frame_id : Message -> Z;                   (* [msg.frame_id] *)
  messages : list Message;                   (* [dbc.messages] *)
  msg_ecu_a : Message;                       (* get_message_by_name("ECU_A_STATUS") *)
  msg_ecu_b : Message;                       (* get_message_by_name("ECU_B_STATUS") *)
  msg_dcdc : Message;                        (* get_message_by_name("DCDC_STATUS") *)
  decode : Message -> list Z -> option (gmap string float)
}.

(** One call of the Bridge callback [can_frame_v0(version, ts_mcu_ms, can_id,
    dlc, b0, .., b7, flags)]. *)
Record Frame : Type := {
  version : Z;
  ts_mcu_ms : Z;
  can_id : Z;
  dlc : Z;
  b0 : Z; b1 : Z; b2 : Z; b3 : Z; b4 : Z; b5 : Z; b6 : Z; b7 : Z;
  flags : Z
}.

(** Clock readings in arrival order, each no earlier than the one before. *)
Fixpoint nondecreasing (ts : list float) : bool :=
  match ts with
  | x :: (y :: _) as rest => (x <=? y)%float && nondecreasing rest
  | _ => true
  end.

(** The eight payload slots, and what makes them bytes. *)
Definition payload (f : Frame) : list Z :=
  [b0 f; b1 f; b2 f; b3 f; b4 f; b5 f; b6 f; b7 f].

Definition payload_ok (f : Frame) : Prop :=
  Forall (fun b => 0 <= b < 256) (payload f).

(* ===================================================================== *)
(** * Phase 6: replay_decode.py                                           *)
(* ===================================================================== *)

Module Replay.

Local Open Scope float_scope.

(** [MESSAGES]: CAN id -> (message name, signal name). *)
Definition MESSAGES : gmap Z (string * string) :=
  {[ 0x111%Z := ("ECU_A_STATUS", "ECUA_Supply_Voltage");
     0x112%Z := ("ECU_B_STATUS", "ECUB_Supply_Voltage");
     0x113%Z := ("DCDC_STATUS", "DCDC_Output_Voltage") ]}.

(** [raw = (b1 << 8) | b0; return raw * 0.1] *)
Definition decode_voltage_from_bytes (b0 b1 : Z) : float :=
  let raw := Z.lor (Z.shiftl b1 8) b0 in
  float_of_int raw * 0.1.

End Replay.

(* ===================================================================== *)
(** * Phase 7: live rules + statistics                                    *)
(* ===================================================================== *)

Module Phase7.

Local Open Scope float_scope.

(** ** Configuration constants *)

Definition WINDOW_SECONDS : float := 60.0.
Definition EWMA_ALPHA : float := 0.1.
Definition DCDC_NOMINAL_V : float := 14.0.
Definition DCDC_TOLERANCE : float := 0.5.
Definition DELTA_ALERT_V : float := 1.0.
Definition DRIFT_MIN_V : float := 0.3.
Definition TREND_MIN_VPS : float := 0.002.

(** ** Module globals *)

(** An entry of [window]: [(timestamp_s, deltaA, deltaB, v_dcdc)]. *)
Definition Sample : Type := float * float * float * float.

Record State : Type := mkState {
  V_A : option float;
  V_B : option float;
  V_D : option float;
  frames_seen : Z;
  frames_decoded : Z;
  window : list Sample;            (* collections.deque *)
  ewma_deltaA : option float;
  ewma_deltaB : option float
}.

(** The state when the module has just been loaded. *)
Definition initial : State :=
  mkState None None None 0 0 [] None None.

Definition set_V_A (v : option float) (s : State) : State :=
  mkState v (V_B s) (V_D s) (frames_seen s) (frames_decoded s) (window s)
          (ewma_deltaA s) (ewma_deltaB s).
Definition set_V_B (v : option float) (s : State) : State :=
  mkState (V_A s) v (V_D s) (frames_seen s) (frames_decoded s) (window s)
          (ewma_deltaA s) (ewma_deltaB s).
Definition set_V_D (v : option float) (s : State) : State :=
  mkState (V_A s) (V_B s) v (frames_seen s) (frames_decoded s) (window s)
          (ewma_deltaA s) (ewma_deltaB s).
Definition set_frames_seen (n : Z) (s : State) : State :=
  mkState (V_A s) (V_B s) (V_D s) n (frames_decoded s) (window s)
          (ewma_deltaA s) (ewma_deltaB s).
Definition set_frames_decoded (n : Z) (s : State) : State :=
  mkState (V_A s) (V_B s) (V_D s) (frames_seen s) n (window s)
          (ewma_deltaA s) (ewma_deltaB s).
Definition set_window (w : list Sample) (s : State) : State :=
  mkState (V_A s) (V_B s) (V_D s) (frames_seen s) (frames_decoded s) w
          (ewma_deltaA s) (ewma_deltaB s).
Definition set_ewma_deltaA (e : option float) (s : State) : State :=
  mkState (V_A s) (V_B s) (V_D s) (frames_seen s) (frames_decoded s) (window s)
          e (ewma_deltaB s).
Definition set_ewma_deltaB (e : option float) (s : State) : State :=
  mkState (V_A s) (V_B s) (V_D s) (frames_seen s) (frames_decoded s) (window s)
          (ewma_deltaA s) e.

(** ** Console output

    Each constructor is one [print] of the source and carries the values its
    f-string formats (the rendering of a float as text is not modelled). *)
Inductive Line : Type :=
| DECODE_ERROR (can_id : Z)
    (* [DECODE][ERROR] id=0x.. *)
| ALERT (harness : string) (v_a v_b v_d deltaA deltaB : float)
    (* [ALERT][HARNESS_x] ECU_A= ECU_B= DCDC= | .. (dA, dB, DCDC) *)
| EARLY_A (v_a v_b v_d ewmaA trendA ewmaB : float)
    (* [EARLY][HARNESS_A_DRIFT] .. dA_ewma, trendA, dB_ewma *)
| EARLY_B (v_a v_b v_d ewmaB trendB ewmaA : float)
    (* [EARLY][HARNESS_B_DRIFT] .. dB_ewma, trendB, dA_ewma *)
| EARLY_C (v_a v_b v_d ewmaA trendA ewmaB trendB : float).
    (* [EARLY][HARNESS_C_DRIFT] .. dA_ewma, trendA; dB_ewma, trendB *)

(** The lines that report an event of the rule engine. *)
Definition is_alert (l : Line) : bool :=
  match l with ALERT _ _ _ _ _ _ => true | _ => false end.
Definition is_early (l : Line) : bool :=
  match l with
  | EARLY_A _ _ _ _ _ _ | EARLY_B _ _ _ _ _ _ | EARLY_C _ _ _ _ _ _ _ => true
  | _ => false
  end.
Definition is_event (l : Line) : bool := is_alert l || is_early l.

(** ** run_rule_based_harness_checks *)

Definition run_rule_based_harness_checks (deltaA deltaB : float)
  : Py State Line unit :=
  st <- get ;;
  v_d <- not_none (V_D st) ;;
  let dcdc_ok := abs (v_d - DCDC_NOMINAL_V) <=? DCDC_TOLERANCE in
  if negb dcdc_ok then ret tt
  else
    let low_A := deltaA >=? DELTA_ALERT_V in
    let low_B := deltaB >=? DELTA_ALERT_V in
    if low_A && negb low_B then
      v_a <- not_none (V_A st) ;;
      v_b <- not_none (V_B st) ;;
      print (ALERT "HARNESS_A" v_a v_b v_d deltaA deltaB)
    else if low_B && negb low_A then
      v_a <- not_none (V_A st) ;;
      v_b <- not_none (V_B st) ;;
      print (ALERT "HARNESS_B" v_a v_b v_d deltaA deltaB)
    else if low_A && low_B then
      v_a <- not_none (V_A st) ;;
      v_b <- not_none (V_B st) ;;
      print (ALERT "HARNESS_C" v_a v_b v_d deltaA deltaB)
    else ret tt.

(** ** run_statistical_checks *)

Definition run_statistical_checks (deltaA deltaB : float)
  : Py State Line unit :=
  st <- get ;;
  if (length (window st) <? 2)%nat then ret tt
  else
    match head (window st), last (window st) with
    | Some (t_first, dA_first, dB_first, vD_first),
      Some (t_last, dA_last, dB_last, vD_last) =>
        let dt := t_last - t_first in
        if dt <=? 0 then ret tt
        else
          let trendA := (dA_last - dA_first) / dt in
          let trendB := (dB_last - dB_first) / dt in
          let dcdc_stable :=
            abs (vD_last - DCDC_NOMINAL_V) <=? DCDC_TOLERANCE in
          (* Harness A drift *)
          match ewma_deltaA st with
          | Some eA =>
              if dcdc_stable then
                if (eA >? DRIFT_MIN_V) && (trendA >? TREND_MIN_VPS)
                   && (abs trendB <? TREND_MIN_VPS * 0.5)
                then
                  v_a <- not_none (V_A st) ;;
                  v_b <- not_none (V_B st) ;;
                  v_d <- not_none (V_D st) ;;
                  eB <- not_none (ewma_deltaB st) ;;
                  print (EARLY_A v_a v_b v_d eA trendA eB)
                else ret tt
              else ret tt
          | None => ret tt
          end ;;
          (* Harness B drift *)
          match ewma_deltaB st with
          | Some eB =>
              if dcdc_stable then
                if (eB >? DRIFT_MIN_V) && (trendB >? TREND_MIN_VPS)
                   && (abs trendA <? TREND_MIN_VPS * 0.5)
                then
                  v_a <- not_none (V_A st) ;;
                  v_b <- not_none (V_B st) ;;
                  v_d <- not_none (V_D st) ;;
                  eA <- not_none (ewma_deltaA st) ;;
                  print (EARLY_B v_a v_b v_d eB trendB eA)
                else ret tt
              else ret tt
          | None => ret tt
          end ;;
          (* Harness C drift *)
          match ewma_deltaA st, ewma_deltaB st with
          | Some eA, Some eB =>
              if dcdc_stable then
                if (eA >? DRIFT_MIN_V) && (eB >? DRIFT_MIN_V)
                   && (trendA >? TREND_MIN_VPS) && (trendB >? TREND_MIN_VPS)
                then
                  v_a <- not_none (V_A st) ;;
                  v_b <- not_none (V_B st) ;;
                  v_d <- not_none (V_D st) ;;
                  print (EARLY_C v_a v_b v_d eA trendA eB trendB)
                else ret tt
              else ret tt
          | _, _ => ret tt
          end
    | _, _ => ret tt   (* not reached: the deque holds two entries or more *)
    end.

(** ** update_stats_and_rules

    [t] is the reading [now_s()] returns in this call. *)
Definition update_stats_and_rules (t : float) : Py State Line unit :=
  st <- get ;;
  v_d <- not_none (V_D st) ;;
  v_a <- not_none (V_A st) ;;
  v_b <- not_none (V_B st) ;;
  let deltaA := v_d - v_a in
  let deltaB := v_d - v_b in
  (* Maintain sliding window *)
  modify (fun s => set_window (window s ++ [(t, deltaA, deltaB, v_d)]) s) ;;
  (* Drop old entries *)
  let cutoff := t - WINDOW_SECONDS in
  modify (fun s =>
    set_window (popleft_while (fun e : Sample => e.1.1.1 <? cutoff) (window s)) s) ;;
  (* Update EWMA *)
  match ewma_deltaA st with
  | None =>
      modify (set_ewma_deltaA (Some deltaA)) ;;
      modify (set_ewma_deltaB (Some deltaB))
  | Some eA =>
      modify (set_ewma_deltaA
                (Some (EWMA_ALPHA * deltaA + (1.0 - EWMA_ALPHA) * eA))) ;;
      eB <- not_none (ewma_deltaB st) ;;
      modify (set_ewma_deltaB
                (Some (EWMA_ALPHA * deltaB + (1.0 - EWMA_ALPHA) * eB)))
  end ;;
  run_rule_based_harness_checks deltaA deltaB ;;
  run_statistical_checks deltaA deltaB.

(** ** Derived views of [update_stats_and_rules]

    The globals in which [update_stats_and_rules] runs its two checks: the
    sample appended and the deque trimmed, both EWMAs updated.  Lemma
    [p7_update_final_state] proves that [updated] is the state the function
    leaves. *)
Definition updated (t v_d v_a v_b : float) (st : State) : State :=
  let deltaA := v_d - v_a in
  let deltaB := v_d - v_b in
  let w := popleft_while (fun e : Sample => e.1.1.1 <? t - WINDOW_SECONDS)
             (window st ++ [(t, deltaA, deltaB, v_d)]) in
  let eA := match ewma_deltaA st with
            | None => deltaA
            | Some e => EWMA_ALPHA * deltaA + (1.0 - EWMA_ALPHA) * e
            end in
  let eB := match ewma_deltaA st, ewma_deltaB st with
            | None, _ => Some deltaB
            | Some _, Some e => Some (EWMA_ALPHA * deltaB + (1.0 - EWMA_ALPHA) * e)
            | Some _, None => None
            end in
  mkState (V_A st) (V_B st) (V_D st) (frames_seen st) (frames_decoded st)
          w (Some eA) eB.

(** The trend a drift line reports for metric A / metric B, if it does. *)
Definition reported_trendA (l : Line) : option float :=
  match l with
  | EARLY_A _ _ _ _ tA _ | EARLY_C _ _ _ _ tA _ _ => Some tA
  | _ => None
  end.
Definition reported_trendB (l : Line) : option float :=
  match l with
  | EARLY_B _ _ _ _ tB _ | EARLY_C _ _ _ _ _ _ tB => Some tB
  | _ => None
  end.

(** [l] reports the endpoint slopes of the window [w]: [w] holds two samples
    or more, the elapsed time between its oldest and newest sample passed the
    [dt <= 0] guard, and each trend [l] shows is (newest - oldest) / elapsed. *)
Definition endpoint_slopes (w : list Sample) (l : Line) : Prop :=
  exists e0 e1,
    (2 <= length w)%nat /\ head w = Some e0 /\ last w = Some e1 /\
    (e1.1.1.1 - e0.1.1.1 <=? 0) = false /\
    (forall x, reported_trendA l = Some x ->
               x = (e1.1.1.2 - e0.1.1.2) / (e1.1.1.1 - e0.1.1.1)) /\
    (forall x, reported_trendB l = Some x ->
               x = (e1.1.2 - e0.1.2) / (e1.1.1.1 - e0.1.1.1)).

(** The window has fewer than two samples, or its oldest and newest sample
    are no time apart. *)
Definition no_slope (w : list Sample) : Prop :=
  (length w < 2)%nat \/
  exists e0 e1, head w = Some e0 /\ last w = Some e1 /\
                (e1.1.1.1 - e0.1.1.1 =? 0) = true.

(** The timestamps of [w] are in arrival order and its newest sample was
    taken at [tprev] or before. *)
Definition in_order (tprev : float) (w : list Sample) : Prop :=
  nondecreasing (map (fun e : Sample => e.1.1.1) w) = true /\
  forall e, last w = Some e -> e.1.1.1 = tprev \/ (e.1.1.1 <=? tprev) = true.

(** No sample of [w] is older than [now - WINDOW_SECONDS]. *)
Definition fresh (now : float) (w : list Sample) : Prop :=
  Forall (fun e : Sample => (e.1.1.1 <? now - WINDOW_SECONDS) = false) w.

Section Handler.
Context `{Dbc}.

(** [MESSAGE_BY_ID = {msg.frame_id: msg for msg in dbc.messages}]
    (a later message with the same id replaces an earlier one). *)
Definition MESSAGE_BY_ID : gmap Z Message :=
  foldl (fun m msg => <[frame_id msg := msg]> m) ∅ messages.

Definition ID_ECU_A : Z := frame_id msg_ecu_a.
Definition ID_ECU_B : Z := frame_id msg_ecu_b.
Definition ID_DCDC : Z := frame_id msg_dcdc.

(** ** can_frame_v0

    [now] is what [now_s()] returns if this frame reaches
    [update_stats_and_rules]. *)
Definition can_frame_v0 (f : Frame) (now : float) : Py State Line unit :=
  modify (fun s => set_frames_seen (frames_seen s + 1)%Z s) ;;
  let ext := negb (Z.land (flags f) 0x01 =? 0)%Z in
  data <- py_bytes [b0 f; b1 f; b2 f; b3 f; b4 f; b5 f; b6 f; b7 f] ;;
  match MESSAGE_BY_ID !! can_id f with
  | None => ret tt                       (* ignore unknown frames *)
  | Some msg =>
      match decode msg data with
      | None => print (DECODE_ERROR (can_id f))
      | Some decoded =>
          modify (fun s => set_frames_decoded (frames_decoded s + 1)%Z s) ;;
          (if (frame_id msg =? ID_ECU_A)%Z then
             v <- not_none (decoded !! "ECUA_Supply_Voltage") ;;
             modify (set_V_A (Some v))
           else if (frame_id msg =? ID_ECU_B)%Z then
             v <- not_none (decoded !! "ECUB_Supply_Voltage") ;;
             modify (set_V_B (Some v))
           else if (frame_id msg =? ID_DCDC)%Z then
             v <- not_none (decoded !! "DCDC_Output_Voltage") ;;
             modify (set_V_D (Some v))
           else ret tt) ;;
          st <- get ;;
          match V_A st, V_B st, V_D st with
          | Some _, Some _, Some _ => update_stats_and_rules now
          | _, _, _ => ret tt
          end
      end
  end.

(** A frame the handler drops: its identifier is not in the catalog, or
    decoding its payload raises. *)
Definition dropped (f : Frame) : Prop :=
  MESSAGE_BY_ID !! can_id f = None \/
  exists msg, MESSAGE_BY_ID !! can_id f = Some msg /\
              decode msg (payload f) = None.

(** The Bridge delivers frames one at a time; the globals persist from one
    call to the next whether the callback returned or raised.  [run] feeds
    a list of (frame, clock reading) to the callback and collects the
    output. *)
Fixpoint run (inputs : list (Frame * float)) (st : State)
  : State * list Line :=
  match inputs with
  | [] => (st, [])
  | (f, now) :: rest =>
      let '(st1, out1, _) := can_frame_v0 f now st in
      let '(st2, out2) := run rest st1 in
      (st2, out1 ++ out2)
  end.

End Handler.

End Phase7.

(* ===================================================================== *)
(** * Phase 8: live rules + Google Sheets alerts                          *)
(* ===================================================================== *)

Module Phase8.

Local Open Scope float_scope.

(** ** Configuration constants *)

Definition GSHEETS_WEBHOOK_URL : string := "gsheetURLgoeshere".
Definition SHEET_MIN_INTERVAL_SEC : float := 10.0.
Definition DELTA_ALERT_V : float := 0.8.
Definition DCDC_OK_MIN_V : float := 13.5.
Definition DCDC_OK_MAX_V : float := 14.7.
Definition EWMA_ALPHA : float := 0.2.
Definition DRIFT_WINDOW_SEC : float := 20.0.
Definition EARLY_DRIFT_DV_MIN : float := 0.3.
Definition EARLY_DRIFT_TREND_MIN : float := 0.01.

Definition SIG_NAME_A : string := "ECUA_Supply_Voltage".
Definition SIG_NAME_B : string := "ECUB_Supply_Voltage".
Definition SIG_NAME_DCDC : string := "DCDC_Output_Voltage".

(** ** RuleEvent *)

(** The [message] of an event: which f-string built it and the values it
    formats (the rendering of a float as text is not modelled). *)
Inductive MessageText : Type :=
| ECU_A_low (dA dB d : float)      (* "ECU_A low vs DCDC (dA=.., dB=.., DCDC~..)" *)
| ECU_B_low (dA dB d : float)      (* "ECU_B low vs DCDC (..)" *)
| Both_low (dA dB d : float)       (* "Both ECUs low vs DCDC (..)" *)
| Drift_A (ewma trend : float).    (* "dA_ewma=.. V, trendA=.. V/s, dB_ewma=0.00 V" *)

Record RuleEvent : Type := mkRuleEvent {
  level : string;       (* "ALERT" or "EARLY" *)
  harness : string;     (* "HARNESS_A" / "HARNESS_B" / "HARNESS_C" *)
  rule_name : string;
  message : MessageText;
  ecu_a_v : float;
  ecu_b_v : float;
  dcdc_v : float
}.

(** Threshold events carry level "ALERT", drift events level "EARLY". *)
Definition is_alert (ev : RuleEvent) : bool := String.eqb (level ev) "ALERT".
Definition is_early (ev : RuleEvent) : bool := String.eqb (level ev) "EARLY".

(** ** Module globals *)

(** [latest_voltages]: a dict whose key set is fixed to "ECU_A", "ECU_B",
    "DCDC" for the life of the process; one field per key. *)
Record Voltages : Type := mkVoltages {
  ECU_A : option float;
  ECU_B : option float;
  DCDC : option float
}.

(** The throttle key [(event.level, event.harness, event.rule_name)]. *)
Definition Key : Type := string * string * string.

Record State : Type := mkState {
  latest_voltages : Voltages;
  frames_seen_window : Z;
  frames_decoded_window : Z;
  ewma_delta_a : option float;
  drift_history : list (float * float);       (* (t_sec, delta_a) *)
  last_sheet_send : gmap Key float
}.

Definition initial : State :=
  mkState (mkVoltages None None None) 0 0 None [] ∅.

Definition set_latest_voltages (v : Voltages) (s : State) : State :=
  mkState v (frames_seen_window s) (frames_decoded_window s)
          (ewma_delta_a s) (drift_history s) (last_sheet_send s).
Definition set_frames_seen_window (n : Z) (s : State) : State :=
  mkState (latest_voltages s) n (frames_decoded_window s)
          (ewma_delta_a s) (drift_history s) (last_sheet_send s).
Definition set_frames_decoded_window (n : Z) (s : State) : State :=
  mkState (latest_voltages s) (frames_seen_window s) n
          (ewma_delta_a s) (drift_history s) (last_sheet_send s).
Definition set_ewma_delta_a (e : option float) (s : State) : State :=
  mkState (latest_voltages s) (frames_seen_window s) (frames_decoded_window s)
          e (drift_history s) (last_sheet_send s).
Definition set_drift_history (h : list (float * float)) (s : State) : State :=
  mkState (latest_voltages s) (frames_seen_window s) (frames_decoded_window s)
          (ewma_delta_a s) h (last_sheet_send s).
Definition set_last_sheet_send (m : gmap Key float) (s : State) : State :=
  mkState (latest_voltages s) (frames_seen_window s) (frames_decoded_window s)
          (ewma_delta_a s) (drift_history s) m.

(** ** Console output *)
Inductive Line : Type :=
| EVENT (ev : RuleEvent)
    (* "[level][harness] ECU_A=.. ECU_B=.. DCDC=.. | message" *)
| GSHEETS_LOGGED (level harness rule_name : string)
    (* "[GSHEETS] Logged .. to sheet" *)
| GSHEETS_NON_200 (status : Z)
| GSHEETS_HTTP_ERROR (code : Z)
| GSHEETS_ERROR.

(** ** The HTTP exchange (external)

    What happens inside the [try] block of [send_event_to_sheets] once the
    request is built and sent. *)
Inductive Exchange : Type :=
| Responds (status : Z)
    (* urlopen returns a response; resp.getcode() = status (and, when the
       status is not 200, its body can be read).  urllib returns 2xx
       responses only: any other final status raises HTTPError. *)
| HTTPError (code : Z)
    (* urlerror.HTTPError is raised (status 4xx, 5xx, ..) and e.read(200)
       succeeds *)
| HTTPErrorUnreadable
    (* urlerror.HTTPError is raised and e.read(200) raises in the handler *)
| OtherException.
    (* any other Exception inside the try block: timeout, URLError,
       ValueError for the URL, a failing body read, .. *)

(** ** update_drift *)

Definition update_drift (ts_mcu_ms : Z) (ecu_a_v dcdc_v : float)
  : Py State Line (option float * option float) :=
  let t_sec := float_of_int ts_mcu_ms / 1000.0 in
  let delta_a := dcdc_v - ecu_a_v in
  (* Update EWMA *)
  modify (fun s =>
    match ewma_delta_a s with
    | None => set_ewma_delta_a (Some delta_a) s
    | Some e =>
        set_ewma_delta_a
          (Some (EWMA_ALPHA * delta_a + (1.0 - EWMA_ALPHA) * e)) s
    end) ;;
  (* Update history for trend *)
  modify (fun s => set_drift_history (drift_history s ++ [(t_sec, delta_a)]) s) ;;
  (* Drop old points *)
  let cutoff := t_sec - DRIFT_WINDOW_SEC in
  modify (fun s =>
    set_drift_history
      (List.filter (fun p : float * float => p.1 >=? cutoff) (drift_history s)) s) ;;
  s <- get ;;
  let trend :=
    if (2 <=? length (drift_history s))%nat then
      match head (drift_history s), last (drift_history s) with
      | Some (t0, d0), Some (t1, d1) =>
          let dt := t1 - t0 in
          if dt >? 0 then Some ((d1 - d0) / dt) else None
      | _, _ => None   (* not reached: the list holds two entries or more *)
      end
    else None in
  ret (ewma_delta_a s, trend).

(** ** evaluate_rules *)

Definition evaluate_rules (ts_mcu_ms : Z) : Py State Line (list RuleEvent) :=
  st <- get ;;
  match ECU_A (latest_voltages st), ECU_B (latest_voltages st),
        DCDC (latest_voltages st) with
  | Some a, Some b, Some d =>
      let events : list RuleEvent := [] in
      let dA := d - a in
      let dB := d - b in
      (* 1) Absolute delta rules vs DCDC *)
      let events :=
        if (DCDC_OK_MIN_V <=? d) && (d <=? DCDC_OK_MAX_V) then
          let events :=
            if (dA >? DELTA_ALERT_V) && (dB <=? DELTA_ALERT_V) then
              events ++ [mkRuleEvent "ALERT" "HARNESS_A" "HARNESS_A_LOW_VS_DCDC"
                                     (ECU_A_low dA dB d) a b d]
            else events in
          let events :=
            if (dB >? DELTA_ALERT_V) && (dA <=? DELTA_ALERT_V) then
              events ++ [mkRuleEvent "ALERT" "HARNESS_B" "HARNESS_B_LOW_VS_DCDC"
                                     (ECU_B_low dA dB d) a b d]
            else events in
          let events :=
            if (dA >? DELTA_ALERT_V) && (dB >? DELTA_ALERT_V) then
              events ++ [mkRuleEvent "ALERT" "HARNESS_C" "HARNESS_C_BOTH_LOW_VS_DCDC"
                                     (Both_low dA dB d) a b d]
            else events in
          events
        else events in
      (* 2) Early drift rule for HARNESS_A *)
      r <- update_drift ts_mcu_ms a d ;;
      let events :=
        match r with
        | (Some ewma, Some trend) =>
            if (ewma >=? EARLY_DRIFT_DV_MIN) && (trend >=? EARLY_DRIFT_TREND_MIN)
            then
              events ++ [mkRuleEvent "EARLY" "HARNESS_A" "HARNESS_A_DRIFT"
                                     (Drift_A ewma trend) a b d]
            else events
        | _ => events
        end in
      ret events
  | _, _, _ => ret []
  end.

(** ** send_event_to_sheets

    [now] is the reading of [time.time()] and [x] the outcome of the HTTP
    exchange, should the call get that far. *)
Definition send_event_to_sheets (event : RuleEvent) (now : float) (x : Exchange)
  : Py State Line unit :=
  if String.eqb GSHEETS_WEBHOOK_URL "" then ret tt
  else
    (* Throttle on key *)
    let key : Key := (level event, harness event, rule_name event) in
    st <- get ;;
    let last := default 0.0 (last_sheet_send st !! key) in
    if now - last <? SHEET_MIN_INTERVAL_SEC then ret tt
    else
      match x with
      | Responds status =>
          if (status =? 200)%Z then
            print (GSHEETS_LOGGED (level event) (harness event) (rule_name event)) ;;
            modify (fun s => set_last_sheet_send (<[key := now]> (last_sheet_send s)) s)
          else print (GSHEETS_NON_200 status)
      | HTTPError code => print (GSHEETS_HTTP_ERROR code)
      | HTTPErrorUnreadable => raise OtherError
      | OtherException => print GSHEETS_ERROR
      end.

(** [for ev in events: print(..); send_event_to_sheets(ev)].  [world i] is
    the clock reading and the HTTP outcome met by the [i]-th event. *)
Fixpoint push_events (i : nat) (events : list RuleEvent)
         (world : nat -> float * Exchange) : Py State Line unit :=
  match events with
  | [] => ret tt
  | ev :: rest =>
      print (EVENT ev) ;;
      send_event_to_sheets ev (world i).1 (world i).2 ;;
      push_events (S i) rest world
  end.

(** [decoded[name]] *)
Definition subscript {S O} (decoded : gmap string float) (name : string)
  : Py S O float :=
  match decoded !! name with
  | Some v => ret v
  | None => raise KeyError
  end.

(** ** Derived views of [update_drift] and [evaluate_rules]

    [drift_updated] is the state [update_drift] leaves and [endpoint_trend]
    the trend it returns (lemma [p8_update_drift_run]); [threshold_events] and
    [drift_events] are the two parts of the list [evaluate_rules] returns
    (lemma [p8_evaluate_rules_run]). *)
Definition drift_updated (ts_mcu_ms : Z) (ecu_a_v dcdc_v : float) (st : State)
  : State :=
  let t_sec := float_of_int ts_mcu_ms / 1000.0 in
  let delta_a := dcdc_v - ecu_a_v in
  mkState (latest_voltages st) (frames_seen_window st) (frames_decoded_window st)
    (Some match ewma_delta_a st with
          | None => delta_a
          | Some e => EWMA_ALPHA * delta_a + (1.0 - EWMA_ALPHA) * e
          end)
    (List.filter (fun p : float * float => p.1 >=? t_sec - DRIFT_WINDOW_SEC)
       (drift_history st ++ [(t_sec, delta_a)]))
    (last_sheet_send st).

Definition endpoint_trend (h : list (float * float)) : option float :=
  if (2 <=? length h)%nat then
    match head h, last h with
    | Some (t0, d0), Some (t1, d1) =>
        if t1 - t0 >? 0 then Some ((d1 - d0) / (t1 - t0)) else None
    | _, _ => None
    end
  else None.

Definition threshold_events (a b d : float) : list RuleEvent :=
  let dA := d - a in
  let dB := d - b in
  if (DCDC_OK_MIN_V <=? d) && (d <=? DCDC_OK_MAX_V) then
    (if (dA >? DELTA_ALERT_V) && (dB <=? DELTA_ALERT_V) then
       [mkRuleEvent "ALERT" "HARNESS_A" "HARNESS_A_LOW_VS_DCDC"
                    (ECU_A_low dA dB d) a b d]
     else [])
    ++ (if (dB >? DELTA_ALERT_V) && (dA <=? DELTA_ALERT_V) then
          [mkRuleEvent "ALERT" "HARNESS_B" "HARNESS_B_LOW_VS_DCDC"
                       (ECU_B_low dA dB d) a b d]
        else [])
    ++ (if (dA >? DELTA_ALERT_V) && (dB >? DELTA_ALERT_V) then
          [mkRuleEvent "ALERT" "HARNESS_C" "HARNESS_C_BOTH_LOW_VS_DCDC"
                       (Both_low dA dB d) a b d]
        else [])
  else [].

Definition drift_events (r : option float * option float) (a b d : float)
  : list RuleEvent :=
  match r with
  | (Some ewma, Some trend) =>
      if (ewma >=? EARLY_DRIFT_DV_MIN) && (trend >=? EARLY_DRIFT_TREND_MIN)
      then [mkRuleEvent "EARLY" "HARNESS_A" "HARNESS_A_DRIFT"
                        (Drift_A ewma trend) a b d]
      else []
  | _ => []
  end.

(** The history has fewer than two points, or its oldest and newest point
    are no time apart. *)
Definition no_slope (h : list (float * float)) : Prop :=
  (length h < 2)%nat \/
  exists t0 d0 t1 d1, head h = Some (t0, d0) /\ last h = Some (t1, d1) /\
                      (t1 - t0 =? 0) = true.

(** No point of [h] is older than [t_sec - DRIFT_WINDOW_SEC], for the
    timestamp [ts_mcu_ms] of the frame just handled. *)
Definition fresh (ts_mcu_ms : Z) (h : list (float * float)) : Prop :=
  Forall (fun p : float * float =>
            (p.1 >=? float_of_int ts_mcu_ms / 1000.0 - DRIFT_WINDOW_SEC) = true) h.

(** [st'] differs from [st] in the throttle map at most. *)
Definition same_but_throttle (st st' : State) : Prop :=
  latest_voltages st' = latest_voltages st /\
  frames_seen_window st' = frames_seen_window st /\
  frames_decoded_window st' = frames_decoded_window st /\
  ewma_delta_a st' = ewma_delta_a st /\
  drift_history st' = drift_history st.

(** The throttle key of an event. *)
Definition key_of (event : RuleEvent) : Key :=
  (level event, harness event, rule_name event).

Section Handler.
Context `{Dbc}.

Definition msg_a : Message := msg_ecu_a.
Definition msg_b : Message := msg_ecu_b.

(** [id_to_msg = {msg_a.frame_id: msg_a, msg_b.frame_id: msg_b,
                  msg_dcdc.frame_id: msg_dcdc}] *)
Definition id_to_msg : gmap Z Message :=
  <[frame_id msg_dcdc := msg_dcdc]>
    (<[frame_id msg_b := msg_b]> {[ frame_id msg_a := msg_a ]}).

(** ** can_frame_v0 *)
Definition can_frame_v0 (f : Frame) (world : nat -> float * Exchange)
  : Py State Line unit :=
  modify (fun s => set_frames_seen_window (frames_seen_window s + 1)%Z s) ;;
  data_bytes <- py_bytes [b0 f; b1 f; b2 f; b3 f; b4 f; b5 f; b6 f; b7 f] ;;
  match id_to_msg !! can_id f with
  | None => ret tt                     (* Unknown CAN ID (not in DBC) *)
  | Some msg =>
      match decode msg data_bytes with
      | None => ret tt                 (* Decoding failed, ignore this frame *)
      | Some decoded =>
          modify (fun s =>
            set_frames_decoded_window (frames_decoded_window s + 1)%Z s) ;;
          let evaluate_and_push :=
            events <- evaluate_rules (ts_mcu_ms f) ;;
            push_events 0 events world in
          if decide (msg = msg_a) then
            v <- subscript decoded SIG_NAME_A ;;
            modify (fun s =>
              let lv := latest_voltages s in
              set_latest_voltages (mkVoltages (Some v) (ECU_B lv) (DCDC lv)) s) ;;
            evaluate_and_push
          else if decide (msg = msg_b) then
            v <- subscript decoded SIG_NAME_B ;;
            modify (fun s =>
              let lv := latest_voltages s in
              set_latest_voltages (mkVoltages (ECU_A lv) (Some v) (DCDC lv)) s) ;;
            evaluate_and_push
          else if decide (msg = msg_dcdc) then
            v <- subscript decoded SIG_NAME_DCDC ;;
            modify (fun s =>
              let lv := latest_voltages s in
              set_latest_voltages (mkVoltages (ECU_A lv) (ECU_B lv) (Some v)) s) ;;
            evaluate_and_push
          else ret tt                  (* Shouldn't happen, but safe-guard *)
      end
  end.

(** A frame the handler drops: its identifier is not in the catalog, or
    decoding its payload raises. *)
Definition dropped (f : Frame) : Prop :=
  id_to_msg !! can_id f = None \/
  exists msg, id_to_msg !! can_id f = Some msg /\
              decode msg (payload f) = None.

(** Frames are handled one at a time and the globals persist whether the
    callback returned or raised. *)
Fixpoint run (inputs : list (Frame * (nat -> float * Exchange))) (st : State)
  : State * list Line :=
  match inputs with
  | [] => (st, [])
  | (f, world) :: rest =>
      let '(st1, out1, _) := can_frame_v0 f world st in
      let '(st2, out2) := run rest st1 in
      (st2, out1 ++ out2)
  end.

End Handler.

End Phase8.

(* ===================================================================== *)
(** * A concrete database                                                 *)
(* ===================================================================== *)

(** The three messages of the demo harness as [replay_decode.py] spells them
    out ([MESSAGES] and [decode_voltage_from_bytes]): one 16-bit
    little-endian signal in bytes 0 and 1, factor 0.1.  It instantiates
    [Dbc] wherever a statement is exercised on concrete frames. *)
Module Demo.

Inductive DemoMessage : Type := ECU_A_STATUS | ECU_B_STATUS | DCDC_STATUS.

#[export] Instance DemoMessage_eq_dec : EqDecision DemoMessage.
Proof. solve_decision. Defined.

Definition demo_frame_id (m : DemoMessage) : Z :=
  match m with
  | ECU_A_STATUS => 0x111
  | ECU_B_STATUS => 0x112
  | DCDC_STATUS => 0x113
  end.

Definition demo_signal_name (m : DemoMessage) : string :=
  match m with
  | ECU_A_STATUS => "ECUA_Supply_Voltage"
  | ECU_B_STATUS => "ECUB_Supply_Voltage"
  | DCDC_STATUS => "DCDC_Output_Voltage"
  end.

Definition demo_decode (m : DemoMessage) (data : list Z)
  : option (gmap string float) :=
  match data with
  | b0 :: b1 :: _ =>
      Some {[ demo_signal_name m := Replay.decode_voltage_from_bytes b0 b1 ]}
  | _ => None
  end.

Definition demo_dbc : Dbc :=
  {| Message := DemoMessage;
     frame_id := demo_frame_id;
     messages := [ECU_A_STATUS; ECU_B_STATUS; DCDC_STATUS];
     msg_ecu_a := ECU_A_STATUS;
     msg_ecu_b := ECU_B_STATUS;
     msg_dcdc := DCDC_STATUS;
     decode := demo_decode |}.

(** The same catalog with a decoder that rejects every payload. *)
Definition failing_dbc : Dbc :=
  {| Message := DemoMessage;
     frame_id := demo_frame_id;
     messages := [ECU_A_STATUS; ECU_B_STATUS; DCDC_STATUS];
     msg_ecu_a := ECU_A_STATUS;
     msg_ecu_b := ECU_B_STATUS;
     msg_dcdc := DCDC_STATUS;
     decode := fun _ _ => None |}.

(** A frame carrying [raw] (16 bits, little-endian) in bytes 0 and 1. *)
Definition frame (ts id raw : Z) : Frame :=
  {| version := 0; ts_mcu_ms := ts; can_id := id; dlc := 8;
     b0 := raw mod 256; b1 := raw / 256;
     b2 := 0; b3 := 0; b4 := 0; b5 := 0; b6 := 0; b7 := 0;
     flags := 0 |}.

(** A threshold event as [evaluate_rules] builds it (DCDC 14.0 V, ECU A
    13.0 V, ECU B 13.9 V). *)
Definition alert_a : Phase8.RuleEvent :=
  Phase8.mkRuleEvent "ALERT" "HARNESS_A" "HARNESS_A_LOW_VS_DCDC"
    (Phase8.ECU_A_low (14.0 - 13.0) (14.0 - 13.9) 14.0) 13.0 13.9 14.0.

(** A world in which every push is answered at [now] with [x]. *)
Definition always (now : float) (x : Phase8.Exchange)
  : nat -> float * Phase8.Exchange :=
  fun _ => (now, x).

End Demo.

(** What [m] prints and returns is the same in every state. *)
Definition stateless {S O A} (m : Py S O A) : Prop :=
  forall s s', output (m s) = output (m s') /\ result (m s) = result (m s').

(** The demo catalog with a decoder that returns an empty dictionary. *)
Definition signalless_dbc : Dbc :=
  {| Message := Demo.DemoMessage;
     Message_is := Demo.DemoMessage_eq_dec;
     frame_id := Demo.demo_frame_id;
     messages := [Demo.ECU_A_STATUS; Demo.ECU_B_STATUS; Demo.DCDC_STATUS];
     msg_ecu_a := Demo.ECU_A_STATUS;
     msg_ecu_b := Demo.ECU_B_STATUS;
     msg_dcdc := Demo.DCDC_STATUS;
     decode := fun _ _ => Some ∅ |}.

(* ===================================================================== *)
(** * Views of the Phase 8 handler                                        *)
(* ===================================================================== *)

(** The steps of [Phase8.can_frame_v0] named one by one, so that a frame can
    be followed through the handler (lemma [p8_frame_cases]). *)
Module Phase8Views.
Import Phase8.

(** The globals once the frame is counted, and once it is counted as
    decoded too. *)
Definition seen (st : State) : State :=
  set_frames_seen_window (frames_seen_window st + 1) st.
Definition counted (st : State) : State :=
  set_frames_decoded_window (frames_decoded_window (seen st) + 1) (seen st).

(** [events = evaluate_rules(ts_mcu_ms); for ev in events: ..] *)
Definition evaluate_and_push (ts_mcu_ms : Z) (world : nat -> float * Exchange)
  : Py State Line unit :=
  events <- evaluate_rules ts_mcu_ms ;;
  push_events 0 events world.

(** The four throttle keys the rules can produce. *)
Definition rule_keys : list Key :=
  [ ("ALERT", "HARNESS_A", "HARNESS_A_LOW_VS_DCDC");
    ("ALERT", "HARNESS_B", "HARNESS_B_LOW_VS_DCDC");
    ("ALERT", "HARNESS_C", "HARNESS_C_BOTH_LOW_VS_DCDC");
    ("EARLY", "HARNESS_A", "HARNESS_A_DRIFT") ].

Definition is_EVENT (l : Line) : bool :=
  match l with EVENT _ => true | _ => false end.

(** [st] and [st'] differ in the two counters at most. *)
Definition same_but_counters (st st' : State) : Prop :=
  latest_voltages st' = latest_voltages st /\
  ewma_delta_a st' = ewma_delta_a st /\
  drift_history st' = drift_history st /\
  last_sheet_send st' = last_sheet_send st.

Section Views.
Context `{Dbc}.

(** The signal the [if msg is .. elif ..] chain reads from a decoded
    message, if any. *)
Definition signal_of (msg : Message) : option string :=
  if decide (msg = msg_a) then Some SIG_NAME_A
  else if decide (msg = msg_b) then Some SIG_NAME_B
  else if decide (msg = msg_dcdc) then Some SIG_NAME_DCDC
  else None.

(** ... and the entry of [latest_voltages] it assigns. *)
Definition stored (msg : Message) (v : float) (st : State) : State :=
  let lv := latest_voltages st in
  if decide (msg = msg_a) then
    set_latest_voltages (mkVoltages (Some v) (ECU_B lv) (DCDC lv)) st
  else if decide (msg = msg_b) then
    set_latest_voltages (mkVoltages (ECU_A lv) (Some v) (DCDC lv)) st
  else if decide (msg = msg_dcdc) then
    set_latest_voltages (mkVoltages (ECU_A lv) (ECU_B lv) (Some v)) st
  else st.

(** Whatever [msg.decode] returns for this frame holds the signal the
    handler subscripts. *)
Definition carries_signal (f : Frame) : Prop :=
  forall msg decoded name,
    id_to_msg !! can_id f = Some msg ->
    decode msg (payload f) = Some decoded ->
    signal_of msg = Some name ->
    is_Some (decoded !! name).

(** The frame passes [bytes(..)], the lookup and [msg.decode]. *)
Definition decodes (f : Frame) : Prop :=
  payload_ok f /\
  exists msg decoded, id_to_msg !! can_id f = Some msg /\
                      decode msg (payload f) = Some decoded.

End Views.

End Phase8Views.

(* ===================================================================== *)
(** * Views of the Phase 7 handler                                        *)
(* ===================================================================== *)

(** The steps of [Phase7.can_frame_v0] named one by one (lemma
    [p7_frame_cases]). *)
Module Phase7Views.
Import Phase7.

Definition seen (st : State) : State :=
  set_frames_seen (frames_seen st + 1) st.
Definition counted (st : State) : State :=
  set_frames_decoded (frames_decoded (seen st) + 1) (seen st).

(** [if V_A is not None and V_B is not None and V_D is not None:
        update_stats_and_rules()] *)
Definition maybe_update (now : float) : Py State Line unit :=
  st <- get ;;
  match V_A st, V_B st, V_D st with
  | Some _, Some _, Some _ => update_stats_and_rules now
  | _, _, _ => ret tt
  end.

(** The two smoothed deltas are set together. *)
Definition paired (st : State) : Prop :=
  is_Some (ewma_deltaA st) <-> is_Some (ewma_deltaB st).

(** [st] and [st'] differ in the two counters at most. *)
Definition same_but_counters (st st' : State) : Prop :=
  V_A st' = V_A st /\ V_B st' = V_B st /\ V_D st' = V_D st /\
  window st' = window st /\
  ewma_deltaA st' = ewma_deltaA st /\ ewma_deltaB st' = ewma_deltaB st.

(** The trends of the two metrics over a window, in the words of the
    specification: with two samples or more and a positive elapsed time
    between the oldest and the newest sample, (newest - oldest value) /
    elapsed time for each metric; no trend otherwise. *)
Definition trends (w : list Sample) : option (float * float) :=
  if (2 <=? length w)%nat then
    match head w, last w with
    | Some e0, Some e1 =>
        let dt := (e1.1.1.1 - e0.1.1.1)%float in
        if (0 <? dt)%float
        then Some ((e1.1.1.2 - e0.1.1.2) / dt, (e1.1.2 - e0.1.2) / dt)%float
        else None
    | _, _ => None
    end
  else None.

(** The drift lines an evaluation owes in the globals [st]: none without a
    trend; otherwise, with the reference of the newest sample in band, the
    lines of the three drift rules read with the trends of the window. *)
Definition drift_lines (st : State) : list Line :=
  match trends (window st), last (window st),
        V_A st, V_B st, V_D st, ewma_deltaA st, ewma_deltaB st with
  | Some (trendA, trendB), Some e1,
    Some v_a, Some v_b, Some v_d, Some eA, Some eB =>
      if (abs (e1.2 - DCDC_NOMINAL_V) <=? DCDC_TOLERANCE)%float then
        (if ((eA >? DRIFT_MIN_V) && (trendA >? TREND_MIN_VPS)
             && (abs trendB <? TREND_MIN_VPS * 0.5))%float
         then [EARLY_A v_a v_b v_d eA trendA eB] else [])
        ++ (if ((eB >? DRIFT_MIN_V) && (trendB >? TREND_MIN_VPS)
                && (abs trendA <? TREND_MIN_VPS * 0.5))%float
            then [EARLY_B v_a v_b v_d eB trendB eA] else [])
        ++ (if ((eA >? DRIFT_MIN_V) && (eB >? DRIFT_MIN_V)
                && (trendA >? TREND_MIN_VPS) && (trendB >? TREND_MIN_VPS))%float
            then [EARLY_C v_a v_b v_d eA trendA eB trendB] else [])
      else []
  | _, _, _, _, _, _, _ => []
  end.

Section Views.
Context `{Dbc}.

(** The signal the [if msg.frame_id == .. elif ..] chain reads from a
    decoded message, if any. *)
Definition signal_of (msg : Message) : option string :=
  if (frame_id msg =? ID_ECU_A)%Z then Some "ECUA_Supply_Voltage"
  else if (frame_id msg =? ID_ECU_B)%Z then Some "ECUB_Supply_Voltage"
  else if (frame_id msg =? ID_DCDC)%Z then Some "DCDC_Output_Voltage"
  else None.

(** ... and the global it assigns. *)
Definition stored (msg : Message) (v : float) (st : State) : State :=
  if (frame_id msg =? ID_ECU_A)%Z then set_V_A (Some v) st
  else if (frame_id msg =? ID_ECU_B)%Z then set_V_B (Some v) st
  else if (frame_id msg =? ID_DCDC)%Z then set_V_D (Some v) st
  else st.

(** Whatever [msg.decode] returns for this frame holds the signal the
    handler reads with [decoded.get]. *)
Definition carries_signal (f : Frame) : Prop :=
  forall msg decoded name,
    MESSAGE_BY_ID !! can_id f = Some msg ->
    decode msg (payload f) = Some decoded ->
    signal_of msg = Some name ->
    is_Some (decoded !! name).

(** The frame passes [bytes(..)], the lookup and [msg.decode]. *)
Definition decodes (f : Frame) : Prop :=
  payload_ok f /\
  exists msg decoded, MESSAGE_BY_ID !! can_id f = Some msg /\
                      decode msg (payload f) = Some decoded.

End Views.

End Phase7Views.

(* ===================================================================== *)
(** * The periodic loops                                                  *)
(* ===================================================================== *)

(** [App.run(user_loop=..)] calls the loop function again and again while
    the Bridge delivers frames to the callback.  The two share the counters;
    the loop owns [last_stats_time].  The calls are taken one at a time, in
    the order of a list of [Call]s: a call of the callback and a call of the
    loop do not overlap.  [time.sleep(0.05)] at the end of each loop has no
    effect on the globals and is left out. *)

Definition sumZ (l : list Z) : Z := foldr Z.add 0%Z l.

Module Phase8Loop.
Import Phase8.
Local Open Scope float_scope.

Definition STATS_INTERVAL_SEC : float := 1.0.

(** The module globals: those of the callback and [last_stats_time]. *)
Record Globals : Type := mkGlobals {
  rules : State;
  last_stats_time : float
}.

(** The console: the lines of the callback and the [STATS] line with the
    values it formats ([fmt_v] renders a missing voltage as "nan"). *)
Inductive Console : Type :=
| HANDLER (l : Line)
| STATS (frames_seen decoded : Z) (ecu_a ecu_b dcdc : option float).

(** ** user_loop

    [now] is the reading of [time.time()]. *)
Definition user_loop (now : float) : Py Globals Console unit :=
  g <- get ;;
  if now - last_stats_time g >=? STATS_INTERVAL_SEC then
    print (STATS (frames_seen_window (rules g)) (frames_decoded_window (rules g))
                 (ECU_A (latest_voltages (rules g)))
                 (ECU_B (latest_voltages (rules g)))
                 (DCDC (latest_voltages (rules g)))) ;;
    modify (fun g => mkGlobals (set_frames_seen_window 0%Z (rules g))
                               (last_stats_time g)) ;;
    modify (fun g => mkGlobals (set_frames_decoded_window 0%Z (rules g))
                               (last_stats_time g)) ;;
    modify (fun g => mkGlobals (rules g) now)
  else ret tt.

(** The frames seen / decoded that a console line reports. *)
Definition reported_seen (l : Console) : Z :=
  match l with STATS n _ _ _ _ => n | HANDLER _ => 0%Z end.
Definition reported_decoded (l : Console) : Z :=
  match l with STATS _ n _ _ _ => n | HANDLER _ => 0%Z end.

(** The lines of the callback among those of the console. *)
Definition handler_lines (out : list Console) : list Line :=
  omap (fun l => match l with HANDLER l => Some l | STATS _ _ _ _ _ => None end) out.

Section App.
Context `{Dbc}.

(** The callback, run on the module globals. *)
Definition callback (f : Frame) (world : nat -> float * Exchange)
  : Py Globals Console unit :=
  fun g =>
    let '(st, out, r) := can_frame_v0 f world (rules g) in
    (mkGlobals st (last_stats_time g), map HANDLER out, r).

Inductive Call : Type :=
| Frame_arrives (f : Frame) (world : nat -> float * Exchange)
| Loop_runs (now : float).

(** The globals persist from call to call, whether the callback returned
    or raised. *)
Fixpoint App_run (calls : list Call) (g : Globals) : Globals * list Console :=
  match calls with
  | [] => (g, [])
  | c :: rest =>
      let '(g1, out1, _) :=
        match c with
        | Frame_arrives f world => callback f world g
        | Loop_runs now => user_loop now g
        end in
      let '(g2, out2) := App_run rest g1 in
      (g2, out1 ++ out2)
  end.

(** The frames among the calls, with the worlds they meet. *)
Definition frames_of (calls : list Call)
  : list (Frame * (nat -> float * Exchange)) :=
  omap (fun c => match c with
                 | Frame_arrives f world => Some (f, world)
                 | Loop_runs _ => None
                 end) calls.

(** [decodes], as a test. *)
Definition decodesb (f : Frame) : bool :=
  forallb (fun b => (0 <=? b)%Z && (b <? 256)%Z) (payload f) &&
  match id_to_msg !! can_id f with
  | Some msg => match decode msg (payload f) with
                | Some _ => true
                | None => false
                end
  | None => false
  end.

End App.

End Phase8Loop.

Module Phase7Loop.
Import Phase7.
Local Open Scope float_scope.

Definition STATS_PERIOD : float := 1.0.

Record Globals : Type := mkGlobals {
  rules : State;
  last_stats_time : float
}.

(** The [STATS] line prints "N/A" for a missing voltage. *)
Inductive Console : Type :=
| HANDLER (l : Line)
| STATS (frames_seen decoded : Z) (v_a v_b v_d : option float).

(** ** loop *)
Definition loop (now : float) : Py Globals Console unit :=
  g <- get ;;
  if now - last_stats_time g >=? STATS_PERIOD then
    modify (fun g => mkGlobals (rules g) now) ;;
    g <- get ;;
    print (STATS (frames_seen (rules g)) (frames_decoded (rules g))
                 (V_A (rules g)) (V_B (rules g)) (V_D (rules g))) ;;
    modify (fun g => mkGlobals (set_frames_seen 0%Z (rules g))
                               (last_stats_time g)) ;;
    modify (fun g => mkGlobals (set_frames_decoded 0%Z (rules g))
                               (last_stats_time g))
  else ret tt.

Definition reported_seen (l : Console) : Z :=
  match l with STATS n _ _ _ _ => n | HANDLER _ => 0%Z end.
Definition reported_decoded (l : Console) : Z :=
  match l with STATS _ n _ _ _ => n | HANDLER _ => 0%Z end.

Definition handler_lines (out : list Console) : list Line :=
  omap (fun l => match l with HANDLER l => Some l | STATS _ _ _ _ _ => None end) out.

Section App.
Context `{Dbc}.

Definition callback (f : Frame) (now : float) : Py Globals Console unit :=
  fun g =>
    let '(st, out, r) := can_frame_v0 f now (rules g) in
    (mkGlobals st (last_stats_time g), map HANDLER out, r).

Inductive Call : Type :=
| Frame_arrives (f : Frame) (now : float)
| Loop_runs (now : float).

Fixpoint App_run (calls : list Call) (g : Globals) : Globals * list Console :=
  match calls with
  | [] => (g, [])
  | c :: rest =>
      let '(g1, out1, _) :=
        match c with
        | Frame_arrives f now => callback f now g
        | Loop_runs now => loop now g
        end in
      let '(g2, out2) := App_run rest g1 in
      (g2, out1 ++ out2)
  end.

Definition frames_of (calls : list Call) : list (Frame * float) :=
  omap (fun c => match c with
                 | Frame_arrives f now => Some (f, now)
                 | Loop_runs _ => None
                 end) calls.

Definition decodesb (f : Frame) : bool :=
  forallb (fun b => (0 <=? b)%Z && (b <? 256)%Z) (payload f) &&
  match MESSAGE_BY_ID !! can_id f with
  | Some msg => match decode msg (payload f) with
                | Some _ => true
                | None => false
                end
  | None => false
  end.

End App.

End Phase7Loop.

(* ===================================================================== *)
(** * Phase 6: the voltages of the 16-bit raw values                      *)
(* ===================================================================== *)

(** [raw * 0.1], the voltage [decode_voltage_from_bytes] returns for the
    raw value [raw]. *)
Definition voltage_of_raw (raw : Z) : float := (float_of_int raw * 0.1)%float.

(** Each of the [p] raw values from [lo] on decodes below its successor
    (the range is halved at each step). *)
Fixpoint steps_increase (p : positive) (lo : Z) : bool :=
  let step k := (voltage_of_raw k <? voltage_of_raw (k + 1))%float in
  match p with
  | xH => step lo
  | xO p' => steps_increase p' lo && steps_increase p' (lo + Zpos p')
  | xI p' => steps_increase p' lo && steps_increase p' (lo + Zpos p')
             && step (lo + Zpos p' + Zpos p')
  end.

(* ===================================================================== *)
(** * Phase 6: replay_decode.py, the CSV replay                           *)
(* ===================================================================== *)

(** [parse_int] and [replay].  A CSV field is a Python [str]; it is modelled
    by a [string] whose characters are the code points 0..255.  The builtins
    [str.strip], [str.startswith] and [int(s, base)] follow CPython:
    [strip] removes the characters for which [str.isspace] holds, [int]
    skips the narrower set of C white space after mapping the non-ASCII
    spaces to a blank, accepts a sign, the [0x] prefix in base 16 and single
    underscores between digits, and refuses more than
    [sys.get_int_max_str_digits()] digits in base 10. *)
Module ReplayCsv.
Import Stdlib.Strings.Ascii.

(** What can end a replay. *)
Inductive Exc : Type :=
| E_Value        (* ValueError: int() of a malformed literal *)
| E_Key          (* KeyError: the row has no such column *)
| E_Type         (* TypeError: int(None), the row is shorter than the header *)
| E_Attribute    (* AttributeError: None.strip() *)
| E_Overflow     (* OverflowError: int too large to convert to float *)
| E_Timestamp.   (* datetime.fromtimestamp refuses the value *)

Definition code (c : ascii) : Z := Z.of_N (Ascii.N_of_ascii c).

(** [str.isspace] on the code points below 256. *)
Definition isspace (c : ascii) : bool :=
  bool_decide (code c ∈ [9; 10; 11; 12; 13; 28; 29; 30; 31; 32; 133; 160]).

(** [Py_ISSPACE], the white space [int] skips. *)
Definition Py_ISSPACE (c : ascii) : bool :=
  bool_decide (code c ∈ [9; 10; 11; 12; 13; 32]).

(** The loop that steps over white space at either end of the literal. *)
Fixpoint skip_space (l : list ascii) : list ascii :=
  match l with
  | c :: l' => if Py_ISSPACE c then skip_space l' else l
  | [] => []
  end.

Fixpoint lstrip (l : list ascii) : list ascii :=
  match l with
  | c :: l' => if isspace c then lstrip l' else l
  | [] => []
  end.

Fixpoint rstrip (l : list ascii) : list ascii :=
  match l with
  | c :: l' =>
      match rstrip l' with
      | [] => if isspace c then [] else [c]
      | r => c :: r
      end
  | [] => []
  end.

(** [field.strip()] *)
Definition strip (l : list ascii) : list ascii := rstrip (lstrip l).

(** [field.startswith(p)] *)
Fixpoint startswith (p l : list ascii) : bool :=
  match p, l with
  | [], _ => true
  | a :: p', b :: l' => bool_decide (a = b) && startswith p' l'
  | _ :: _, [] => false
  end.

(** [_PyLong_DigitValue]: 0..35 for a digit or a letter, 37 otherwise. *)
Definition digit_value (c : ascii) : Z :=
  let n := code c in
  if (48 <=? n) && (n <=? 57) then n - 48
  else if (97 <=? n) && (n <=? 122) then n - 87
  else if (65 <=? n) && (n <=? 90) then n - 55
  else 37.

Definition underscore : ascii := "_"%char.

(** The scan of the digits: the value read so far, the number of digits
    and whether the last character was an underscore.  [None]: two
    underscores in a row, or one at the end. *)
Fixpoint scan_digits (base acc : Z) (digits : nat) (prev_underscore : bool)
    (l : list ascii) : option (Z * nat * list ascii) :=
  match l with
  | c :: l' =>
      if bool_decide (c = underscore) then
        if prev_underscore then None
        else scan_digits base acc digits true l'
      else if digit_value c <? base then
        scan_digits base (acc * base + digit_value c) (S digits) false l'
      else if prev_underscore then None
      else Some (acc, digits, l)
  | [] => if prev_underscore then None else Some (acc, digits, [])
  end.

(** The non-ASCII white space becomes a blank before the literal is read. *)
Definition to_blank (c : ascii) : ascii :=
  if (127 <=? code c) && isspace c then " "%char else c.

Section Int.

(** [sys.get_int_max_str_digits()]; 0 switches the limit off. *)
Variable int_max_str_digits : N.

(** [int(s, base)] for [base] 10 or 16. *)
Definition int (l : list ascii) (base : Z) : Exc + Z :=
  let l := skip_space (map to_blank l) in
  let '(sign, l) :=
    match l with
    | c :: l' =>
        if bool_decide (c = "+"%char) then (1, l')
        else if bool_decide (c = "-"%char) then (-1, l')
        else (1, l)
    | [] => (1, l)
    end in
  let l :=
    match l with
    | c :: x :: l' =>
        if bool_decide (c = "0"%char) && (base =? 16)
           && (bool_decide (x = "x"%char) || bool_decide (x = "X"%char))
        then match l' with
             | u :: l'' => if bool_decide (u = underscore) then l'' else l'
             | [] => l'
             end
        else l
    | _ => l
    end in
  if startswith [underscore] l then inl E_Value
  else
    match scan_digits base 0 0 false l with
    | None => inl E_Value
    | Some (v, digits, rest) =>
        if (digits =? 0)%nat then inl E_Value
        else if (base =? 10) && (0 <? int_max_str_digits)%N
                && (int_max_str_digits <? N.of_nat digits)%N
        then inl E_Value
        else
          match skip_space rest with
          | [] => inr (sign * v)
          | _ :: _ => inl E_Value
          end
    end.

(** ** parse_int *)
Definition parse_int (field : string) : Exc + Z :=
  let field := strip (String.list_ascii_of_string field) in
  if startswith (String.list_ascii_of_string "0x") field
     || startswith (String.list_ascii_of_string "0X") field
  then int field 16
  else
    match int field 10 with
    | inl E_Value => int field 16
    | r => r
    end.

(** ** replay *)

(** The clock conversion [datetime.fromtimestamp] (external): [None] when it
    raises. *)
Variable DateTime : Type.
Variable fromtimestamp : float -> option DateTime.

(** A row as [csv.DictReader] yields it: column name -> field, [None] for
    a column the record is too short to fill. *)
Definition Row : Type := gmap string (option string).

Inductive Line : Type :=
| OPENING (csv_path : string)
    (* "[REPLAY] Opening CSV: .." *)
| DECODE (ts : DateTime) (can_id : Z) (msg_name sig_name : string)
         (voltage : float)
    (* "[REPLAY][DECODE] t=.. id=0x.. name signal = .. V" *)
| BLANK
| DONE (total_rows decoded_rows : Z).
    (* "[REPLAY] Done. total_rows=.., decoded_rows=.." *)

(** [row[key]] *)
Definition column (row : Row) (key : string) : Exc + option string :=
  match row !! key with
  | Some v => inr v
  | None => inl E_Key
  end.

(** The conversion of an [int] operand of [/] or [*] to [float]. *)
Definition to_float (n : Z) : Exc + float :=
  if is_infinity (float_of_int n) then inl E_Overflow else inr (float_of_int n).

(** [parse_int(row[key])] *)
Definition parse_column (row : Row) (key : string) : Exc + Z :=
  match column row key with
  | inl e => inl e
  | inr None => inl E_Attribute
  | inr (Some field) => parse_int field
  end.

(** The body of the [for row in reader] loop below [total_rows += 1]:
    [inr None] is [continue]. *)
Definition replay_row (row : Row) : Exc + option Line :=
  match column row "ts_host_ms" with
  | inl e => inl e
  | inr None => inl E_Type
  | inr (Some field) =>
      match int (String.list_ascii_of_string field) 10 with
      | inl e => inl e
      | inr ts_host_ms =>
          match to_float ts_host_ms with
          | inl e => inl e
          | inr x =>
              match fromtimestamp (x / 1000.0)%float with
              | None => inl E_Timestamp
              | Some ts =>
                  match parse_column row "can_id" with
                  | inl e => inl e
                  | inr can_id =>
                      match Replay.MESSAGES !! can_id with
                      | None => inr None
                      | Some (msg_name, sig_name) =>
                          match parse_column row "b0" with
                          | inl e => inl e
                          | inr b0 =>
                              match parse_column row "b1" with
                              | inl e => inl e
                              | inr b1 =>
                                  match to_float (Z.lor (Z.shiftl b1 8) b0) with
                                  | inl e => inl e
                                  | inr _ =>
                                      inr (Some (DECODE ts can_id msg_name sig_name
                                             (Replay.decode_voltage_from_bytes b0 b1)))
                                  end
                              end
                          end
                      end
                  end
              end
          end
      end
  end.

(** The loop: the lines printed and, unless a row raised, the two
    counters. *)
Fixpoint replay_rows (rows : list Row) (total_rows decoded_rows : Z)
  : list Line * (Exc + Z * Z) :=
  match rows with
  | [] => ([], inr (total_rows, decoded_rows))
  | row :: rest =>
      let total_rows := total_rows + 1 in
      match replay_row row with
      | inl e => ([], inl e)
      | inr None => replay_rows rest total_rows decoded_rows
      | inr (Some line) =>
          let '(out, r) := replay_rows rest total_rows (decoded_rows + 1) in
          (line :: out, r)
      end
  end.

(** [replay(csv_path)], given the rows the reader yields for the file. *)
Definition replay (csv_path : string) (rows : list Row)
  : list Line * (Exc + unit) :=
  let '(out, r) := replay_rows rows 0 0 in
  match r with
  | inl e => (OPENING csv_path :: out, inl e)
  | inr (total_rows, decoded_rows) =>
      (OPENING csv_path :: out ++ [BLANK; DONE total_rows decoded_rows], inr tt)
  end.

Definition is_DECODE (l : Line) : bool :=
  match l with DECODE _ _ _ _ _ => true | _ => false end.

(** The lines the rows print, one for each row that is decoded. *)
Definition lines_of (rows : list Row) : list Line :=
  omap (fun row => match replay_row row with
                   | inr (Some line) => Some line
                   | _ => None
                   end) rows.

(** The row raises nothing. *)
Definition row_ok (row : Row) : Prop := forall e, replay_row row <> inl e.

(** What a row holds, said without [replay_row].  The two columns every
    row is asked for can be read: [ts_host_ms] is a decimal integer that
    [datetime.fromtimestamp] accepts as [ts], and [can_id] parses as
    [can_id]. *)
Definition reads_id (row : Row) (ts : DateTime) (can_id : Z) : Prop :=
  exists field ts_host_ms x,
    row !! "ts_host_ms"%string = Some (Some field) /\
    int (String.list_ascii_of_string field) 10 = inr ts_host_ms /\
    to_float ts_host_ms = inr x /\
    fromtimestamp (x / 1000.0)%float = Some ts /\
    parse_column row "can_id" = inr can_id.

(** A row of a message of [MESSAGES], whose columns [b0] and [b1] can be
    read and whose raw value converts to a float; or a row with another id,
    of which nothing more is asked. *)
Inductive Reading : Type :=
| Known (ts : DateTime) (can_id : Z) (msg_name sig_name : string) (b0 b1 : Z)
| Other (ts : DateTime) (can_id : Z).

Definition reads (row : Row) (r : Reading) : Prop :=
  match r with
  | Known ts can_id msg_name sig_name b0 b1 =>
      reads_id row ts can_id /\
      Replay.MESSAGES !! can_id = Some (msg_name, sig_name) /\
      parse_column row "b0" = inr b0 /\
      parse_column row "b1" = inr b1 /\
      is_infinity (float_of_int (Z.lor (Z.shiftl b1 8) b0)) = false
  | Other ts can_id =>
      reads_id row ts can_id /\ Replay.MESSAGES !! can_id = None
  end.

(** The line the replay owes for a reading. *)
Definition line_of (r : Reading) : option Line :=
  match r with
  | Known ts can_id msg_name sig_name b0 b1 =>
      Some (DECODE ts can_id msg_name sig_name
                   (Replay.decode_voltage_from_bytes b0 b1))
  | Other _ _ => None
  end.

End Int.

(** The number a string of digits denotes in base [base]. *)
Definition value (base : Z) (l : list ascii) : Z :=
  fold_left (fun acc c => acc * base + digit_value c) l 0.

(** [csv.DictReader] over the records of the file: the first record is the
    header; an empty record is skipped; a record shorter than the header
    leaves the remaining columns at [None]; a later column of the same name
    replaces an earlier one.  (The fields beyond the header go under the key
    [None], which no subscript of [replay] reaches.) *)
Definition dict_of (fieldnames record : list string) : Row :=
  foldl (fun (d : Row) kv => <[kv.1 := kv.2]> d) (∅ : Row)
        (zip fieldnames
             (map Some record
              ++ replicate (length fieldnames - length record) None)).

Definition DictReader (records : list (list string)) : list Row :=
  match records with
  | [] => []
  | fieldnames :: rest =>
      map (dict_of fieldnames)
          (List.filter (fun r => negb (bool_decide (r = []))) rest)
  end.

End ReplayCsv.

(* ===================================================================== *)
(** * Phase 6: main.py, what the logger writes                            *)
(* ===================================================================== *)

Module Phase6Log.
Import Stdlib.Strings.Ascii.

(** The header row written when the log file is opened. *)
Definition HEADER : list string :=
  [ "ts_iso"; "ts_mcu_ms"; "can_id"; "is_extended"; "dlc";
    "b0"; "b1"; "b2"; "b3"; "b4"; "b5"; "b6"; "b7";
    "msg_name"; "ECUA_Supply_Voltage"; "ECUB_Supply_Voltage";
    "DCDC_Output_Voltage"; "alert_code" ]%string.

Definition hex_digit (d : Z) : ascii :=
  nth (Z.to_nat d) (String.list_ascii_of_string "0123456789ABCDEF") "?"%char.

(** The hexadecimal digits of [n >= 0], most significant first. *)
Fixpoint hex_digits (fuel : nat) (n : Z) : list ascii :=
  match fuel with
  | O => []
  | S fuel' =>
      if n <? 16 then [hex_digit n]
      else hex_digits fuel' (n / 16) ++ [hex_digit (n mod 16)]
  end.

(** [format(n, "0<width>X")]: upper-case digits, zero padded to [width]
    (the sign counts). *)
Definition format_X (width : nat) (n : Z) : list ascii :=
  let digits := hex_digits (S (Z.to_nat (Z.log2 (Z.abs n)))) (Z.abs n) in
  if n <? 0 then
    "-"%char :: replicate (width - 1 - length digits) "0"%char ++ digits
  else replicate (width - length digits) "0"%char ++ digits.

(** [f"0x{n:0<width>X}"] *)
Definition hex_field (width : nat) (n : Z) : string :=
  String.string_of_list_ascii
    (String.list_ascii_of_string "0x" ++ format_X width n).

(** [f"0x{can_id:X}"] and [f"0x{b0:02X}"], the fields of a logged frame. *)
Definition can_id_field (can_id : Z) : string := hex_field 0 can_id.
Definition byte_field (b : Z) : string := hex_field 2 b.

End Phase6Log.

(* ===================================================================== *)
(** * Order facts about binary64 comparisons                              *)
(* ===================================================================== *)

Module FloatOrder.

Ltac cmp_cases :=
  repeat match goal with
  | H : context [(?a ?= ?b)%Z] |- _ =>
      destruct (Z.compare_spec a b); simpl in H
  | |- context [(?a ?= ?b)%Z] =>
      destruct (Z.compare_spec a b); simpl
  | H : context [Pos.compare_cont Eq ?a ?b] |- _ =>
      change (Pos.compare_cont Eq a b) with (Pos.compare a b) in H;
      destruct (Pos.compare_spec a b); simpl in H
  | |- context [Pos.compare_cont Eq ?a ?b] =>
      change (Pos.compare_cont Eq a b) with (Pos.compare a b);
      destruct (Pos.compare_spec a b); simpl
  end.

Ltac by_spec_cases :=
  simpl; try discriminate; try (intros; reflexivity);
  intros; cmp_cases; try discriminate; try reflexivity; try (exfalso; lia).

(** Comparing the other way round gives the opposite answer. *)
Lemma SFcompare_swap x y :
  SFcompare y x = option_map CompOpp (SFcompare x y).
Proof.
  destruct x as [sx|sx| |sx mx ex], y as [sy|sy| |sy my ey]; simpl;
    try reflexivity;
    try (destruct sx; reflexivity); try (destruct sy; reflexivity);
    try (destruct sx, sy; reflexivity).
  destruct sx, sy; by_spec_cases.
Qed.

Lemma SFleb_ltb_trans a b c :
  SFleb a b = true -> SFltb b c = true -> SFltb a c = true.
Proof.
  unfold SFleb, SFltb.
  destruct a as [sa|sa| |sa ma ea], b as [sb|sb| |sb mb eb],
           c as [sc|sc| |sc mc ec];
    simpl; try discriminate; try (intros; reflexivity);
    try (destruct sa; try discriminate); try (destruct sb; try discriminate);
    try (destruct sc; try discriminate); by_spec_cases.
Qed.

Lemma SFleb_trans a b c :
  SFleb a b = true -> SFleb b c = true -> SFleb a c = true.
Proof.
  unfold SFleb.
  destruct a as [sa|sa| |sa ma ea], b as [sb|sb| |sb mb eb],
           c as [sc|sc| |sc mc ec];
    simpl; try discriminate; try (intros; reflexivity);
    try (destruct sa; try discriminate); try (destruct sb; try discriminate);
    try (destruct sc; try discriminate); by_spec_cases.
Qed.

Local Open Scope float_scope.

(** [x < y] and [y <= x] never hold together (NaN makes both false). *)
Lemma ltb_leb_excl (x y : float) :
  (x <? y) = true -> (y <=? x) = true -> False.
Proof.
  rewrite FloatAxioms.ltb_spec, FloatAxioms.leb_spec. unfold SFltb, SFleb.
  rewrite (SFcompare_swap (Prim2SF x) (Prim2SF y)).
  destruct (SFcompare (Prim2SF x) (Prim2SF y)) as [[]|]; simpl; discriminate.
Qed.

Lemma leb_ltb_trans (a b c : float) :
  (a <=? b) = true -> (b <? c) = true -> (a <? c) = true.
Proof. rewrite !FloatAxioms.ltb_spec, !FloatAxioms.leb_spec. apply SFleb_ltb_trans. Qed.

Lemma leb_trans (a b c : float) :
  (a <=? b) = true -> (b <=? c) = true -> (a <=? c) = true.
Proof. rewrite !FloatAxioms.leb_spec. apply SFleb_trans. Qed.

(** A float that compares equal to [y] is neither above nor below it. *)
Lemma eqb_not_gtb (x y : float) :
  (x =? y) = true -> (x >? y) = false.
Proof.
  rewrite FloatAxioms.eqb_spec, FloatAxioms.ltb_spec. unfold SFeqb, SFltb.
  rewrite (SFcompare_swap (Prim2SF x) (Prim2SF y)).
  destruct (SFcompare (Prim2SF x) (Prim2SF y)) as [[]|]; simpl;
    try discriminate; reflexivity.
Qed.

Lemma eqb_leb (x y : float) :
  (x =? y) = true -> (x <=? y) = true.
Proof.
  rewrite FloatAxioms.eqb_spec, FloatAxioms.leb_spec. unfold SFeqb, SFleb.
  destruct (SFcompare (Prim2SF x) (Prim2SF y)) as [[]|]; simpl;
    try discriminate; reflexivity.
Qed.

End FloatOrder.

(* ===================================================================== *)
(** * Reasoning about [Py] computations                                   *)
(* ===================================================================== *)

Section PyLaws.
Context {S O : Type}.

Lemma bind_get {B} (k : S -> Py S O B) (s : S) : bind get k s = k s s.
Proof. unfold bind, get. destruct (k s s) as [[s2 o2] r]. reflexivity. Qed.

Lemma bind_ret {A B} (a : A) (k : A -> Py S O B) (s : S) :
  bind (ret a) k s = k a s.
Proof. unfold bind, ret. destruct (k a s) as [[s2 o2] r]. reflexivity. Qed.

Lemma bind_modify {B} (f : S -> S) (k : unit -> Py S O B) (s : S) :
  bind (modify f) k s = k tt (f s).
Proof. unfold bind, modify. destruct (k tt (f s)) as [[s2 o2] r]. reflexivity. Qed.

Lemma bind_raise {A B} (e : PyExc) (k : A -> Py S O B) (s : S) :
  bind (raise e) k s = (s, [], Raise e).
Proof. reflexivity. Qed.

Lemma bind_print {B} (o : O) (k : unit -> Py S O B) (s : S) :
  bind (print o) k s =
  (final_state (k tt s), o :: output (k tt s), result (k tt s)).
Proof. unfold bind, print. destruct (k tt s) as [[s2 o2] r]. reflexivity. Qed.

Lemma bind_not_none_some {B} (x : float) (k : float -> Py S O B) (s : S) :
  bind (not_none (Some x)) k s = k x s.
Proof. apply bind_ret. Qed.

Lemma bind_not_none_none {B} (k : float -> Py S O B) (s : S) :
  bind (not_none None) k s = (s, [], Raise TypeError).
Proof. reflexivity. Qed.

Lemma bind_returns {A B} (m : Py S O A) (k : A -> Py S O B) (s s1 : S) (a : A) :
  m s = (s1, [], Ok a) -> bind m k s = k a s1.
Proof.
  intros Hm. unfold bind. rewrite Hm.
  destruct (k a s1) as [[s2 o2] r]. reflexivity.
Qed.

Lemma bind_assoc {A B C} (m : Py S O A) (k1 : A -> Py S O B)
      (k2 : B -> Py S O C) (s : S) :
  bind (bind m k1) k2 s = bind m (fun a => bind (k1 a) k2) s.
Proof.
  unfold bind.
  destruct (m s) as [[s1 o1] [a|e]]; [|reflexivity].
  destruct (k1 a s1) as [[s2 o2] [b|e]]; [|reflexivity].
  destruct (k2 b s2) as [[s3 o3] r]. rewrite app_assoc. reflexivity.
Qed.

(** The projections of a sequence. *)
Lemma output_bind {A B} (m : Py S O A) (k : A -> Py S O B) (s : S) :
  output (bind m k s) =
  output (m s) ++
  match result (m s) with
  | Ok a => output (k a (final_state (m s)))
  | Raise _ => []
  end.
Proof.
  unfold output, result, final_state, bind.
  destruct (m s) as [[s1 o1] [a|e]]; simpl.
  - destruct (k a s1) as [[s2 o2] r]. reflexivity.
  - symmetry. apply app_nil_r.
Qed.

Lemma final_state_bind {A B} (m : Py S O A) (k : A -> Py S O B) (s : S) :
  final_state (bind m k s) =
  match result (m s) with
  | Ok a => final_state (k a (final_state (m s)))
  | Raise _ => final_state (m s)
  end.
Proof.
  unfold result, final_state, bind.
  destruct (m s) as [[s1 o1] [a|e]]; simpl; [|reflexivity].
  destruct (k a s1) as [[s2 o2] r]. reflexivity.
Qed.

Lemma result_bind {A B} (m : Py S O A) (k : A -> Py S O B) (s : S) :
  result (bind m k s) =
  match result (m s) with
  | Ok a => result (k a (final_state (m s)))
  | Raise e => Raise e
  end.
Proof.
  unfold result, final_state, bind.
  destruct (m s) as [[s1 o1] [a|e]]; simpl; [|reflexivity].
  destruct (k a s1) as [[s2 o2] r]. reflexivity.
Qed.

(** ** Computations that only read the globals *)

Lemma reads_only_ret {A} (a : A) : reads_only (ret a : Py S O A).
Proof. intros s. reflexivity. Qed.

Lemma reads_only_raise {A} (e : PyExc) : reads_only (raise e : Py S O A).
Proof. intros s. reflexivity. Qed.

Lemma reads_only_print (o : O) : reads_only (print o : Py S O unit).
Proof. intros s. reflexivity. Qed.

Lemma reads_only_get : reads_only (get : Py S O S).
Proof. intros s. reflexivity. Qed.

Lemma reads_only_not_none (v : option float) :
  reads_only (not_none v : Py S O float).
Proof. intros s. destruct v; reflexivity. Qed.

Lemma reads_only_bind {A B} (m : Py S O A) (k : A -> Py S O B) :
  reads_only m -> (forall a, reads_only (k a)) -> reads_only (bind m k).
Proof.
  intros Hm Hk s. rewrite final_state_bind.
  destruct (result (m s)); rewrite Hm; [apply Hk | reflexivity].
Qed.

(** ** Computations all of whose output satisfies a predicate *)

Lemma prints_only_ret {A} (P : O -> Prop) (a : A) :
  prints_only P (ret a : Py S O A).
Proof. intros s. constructor. Qed.

Lemma prints_only_raise {A} (P : O -> Prop) (e : PyExc) :
  prints_only P (raise e : Py S O A).
Proof. intros s. constructor. Qed.

Lemma prints_only_get (P : O -> Prop) : prints_only P (get : Py S O S).
Proof. intros s. constructor. Qed.

Lemma prints_only_modify (P : O -> Prop) (f : S -> S) :
  prints_only P (modify f : Py S O unit).
Proof. intros s. constructor. Qed.

Lemma prints_only_not_none (P : O -> Prop) (v : option float) :
  prints_only P (not_none v : Py S O float).
Proof. intros s. destruct v; constructor. Qed.

Lemma prints_only_print (P : O -> Prop) (o : O) :
  P o -> prints_only P (print o : Py S O unit).
Proof. intros Ho s. repeat constructor. exact Ho. Qed.

Lemma prints_only_bind {A B} (P : O -> Prop)
      (m : Py S O A) (k : A -> Py S O B) :
  prints_only P m -> (forall a, prints_only P (k a)) ->
  prints_only P (bind m k).
Proof.
  intros Hm Hk s. rewrite output_bind. apply Forall_app. split; [apply Hm|].
  destruct (result (m s)); [apply Hk | constructor].
Qed.

End PyLaws.

Create HintDb py.
#[global] Hint Resolve reads_only_ret reads_only_raise reads_only_print
  reads_only_get reads_only_not_none : py.
#[global] Hint Resolve prints_only_ret prints_only_raise prints_only_get
  prints_only_modify prints_only_not_none : py.

(** Walk down a computation, splitting sequences and branching on the
    conditions it tests. *)
Ltac py_walk :=
  repeat first
    [ progress intros
    | apply reads_only_bind
    | apply prints_only_bind
    | solve [auto with py]
    | match goal with
      | |- reads_only (if ?b then _ else _) => destruct b
      | |- prints_only _ (if ?b then _ else _) => destruct b
      | |- reads_only (match ?x with _ => _ end) => destruct x
      | |- prints_only _ (match ?x with _ => _ end) => destruct x
      end ].

(** Run the leading primitive of a sequence. *)
Ltac py_run :=
  repeat first
    [ rewrite bind_assoc
    | rewrite bind_get | rewrite bind_ret | rewrite bind_modify
    | rewrite bind_raise | rewrite bind_print
    | rewrite bind_not_none_some | rewrite bind_not_none_none ].

(** ** Lists *)

(** What survives [popleft_while] is a suffix of the list. *)
Lemma popleft_while_suffix {A} (p : A -> bool) (l : list A) :
  exists dropped, l = dropped ++ popleft_while p l.
Proof.
  induction l as [|x l IH]; simpl.
  - exists []. reflexivity.
  - destruct (p x).
    + destruct IH as [d Hd]. exists (x :: d). simpl. congruence.
    + exists []. reflexivity.
Qed.

(** The head that stops the loop does not satisfy the test. *)
Lemma popleft_while_head {A} (p : A -> bool) (l : list A) (x : A) :
  head (popleft_while p l) = Some x -> p x = false.
Proof.
  induction l as [|y l IH]; simpl; [discriminate|].
  destruct (p y) eqn:Hy; [exact IH|].
  simpl. intros [= ->]. exact Hy.
Qed.

(** A non-empty suffix of [l ++ [x]] still ends with [x]. *)
Lemma popleft_while_last {A} (p : A -> bool) (l : list A) (x : A) :
  popleft_while p (l ++ [x]) = [] \/
  last (popleft_while p (l ++ [x])) = Some x.
Proof.
  destruct (popleft_while_suffix p (l ++ [x])) as [d Hd].
  destruct (popleft_while p (l ++ [x])) as [|y r] eqn:E; [left; reflexivity|].
  right.
  assert (Hl : last (d ++ y :: r) = Some x) by (rewrite <- Hd; apply last_snoc).
  rewrite last_app in Hl. rewrite last_cons in Hl |- *.
  destruct (last r); simpl in *; congruence.
Qed.

(* ===================================================================== *)
(** * Replay: decode round trip                                           *)
(* ===================================================================== *)

(** The two payload bytes of a 16-bit value put back together. *)
Lemma raw_of_bytes (raw : Z) :
  0 <= raw < 65536 ->
  Z.lor (Z.shiftl (raw / 256) 8) (raw mod 256) = raw.
Proof.
  intros Hraw.
  change 256 with (2 ^ 8).
  rewrite <- Z.shiftr_div_pow2 by lia.
  rewrite <- Z.land_ones by lia.
  rewrite <- Z.ldiff_ones_r by lia.
  apply Z.lor_ldiff_and.
Qed.

(** C9. Decode round trip for the catalog's signal shape: for every raw
    unsigned 16-bit integer, the payload bytes [b0 = raw mod 256] and
    [b1 = raw div 256] decode to [raw * 0.1], the product being the very
    binary64 multiplication the implementation performs. *)
Theorem decode_round_trip (raw : Z) :
  0 <= raw < 65536 ->
  Replay.decode_voltage_from_bytes (raw mod 256) (raw / 256)
  = (float_of_int raw * 0.1)%float.
Proof.
  intros Hraw. unfold Replay.decode_voltage_from_bytes.
  rewrite (raw_of_bytes raw Hraw). reflexivity.
Qed.

Lemma decode_round_trip_witness :
  Replay.decode_voltage_from_bytes (0x1234 mod 256) (0x1234 / 256)
  = (float_of_int 0x1234 * 0.1)%float.
Proof. apply (decode_round_trip 0x1234). lia. Defined.

(* ===================================================================== *)
(** * Phase 7: facts about the model                                      *)
(* ===================================================================== *)

Section Phase7Facts.
Import Phase7.
Local Open Scope float_scope.

Lemma p7_rule_checks_reads_only dA dB :
  reads_only (run_rule_based_harness_checks dA dB).
Proof. unfold run_rule_based_harness_checks. py_walk. Qed.

Lemma p7_stat_checks_reads_only dA dB :
  reads_only (run_statistical_checks dA dB).
Proof. unfold run_statistical_checks. py_walk. Qed.

Lemma p7_checks_reads_only dA dB :
  reads_only (run_rule_based_harness_checks dA dB ;;
              run_statistical_checks dA dB).
Proof.
  apply reads_only_bind; [apply p7_rule_checks_reads_only|].
  intros _. apply p7_stat_checks_reads_only.
Qed.

Lemma p7_rule_checks_print_alerts dA dB :
  prints_only (fun l => is_alert l = true)
              (run_rule_based_harness_checks dA dB).
Proof.
  unfold run_rule_based_harness_checks.
  py_walk; apply prints_only_print; reflexivity.
Qed.

Lemma p7_stat_checks_print_early dA dB :
  prints_only (fun l => is_early l = true) (run_statistical_checks dA dB).
Proof.
  unfold run_statistical_checks.
  py_walk; apply prints_only_print; reflexivity.
Qed.

(** The if/elif chain prints one line at most. *)
Lemma p7_rule_checks_one_line dA dB st :
  (length (output (run_rule_based_harness_checks dA dB st)) <= 1)%nat.
Proof.
  unfold run_rule_based_harness_checks. rewrite bind_get.
  destruct (V_D st) as [v_d|]; py_run; [|simpl; lia].
  destruct (negb _); [simpl; lia|].
  destruct (V_A st) as [v_a|], (V_B st) as [v_b|];
    repeat match goal with |- context [if ?b then _ else _] => destruct b end;
    py_run; simpl; lia.
Qed.

(** With the reference out of band the localisation is skipped. *)
Lemma p7_rule_checks_gated dA dB st v_d :
  V_D st = Some v_d ->
  (abs (v_d - DCDC_NOMINAL_V) <=? DCDC_TOLERANCE) = false ->
  output (run_rule_based_harness_checks dA dB st) = [].
Proof.
  intros HD Hband. unfold run_rule_based_harness_checks.
  rewrite bind_get, HD. py_run. rewrite Hband. reflexivity.
Qed.

(** No drift line when the newest sample's reference is out of band. *)
Lemma p7_stat_checks_gated dA dB s :
  (forall e, last (window s) = Some e ->
             (abs (e.2 - DCDC_NOMINAL_V) <=? DCDC_TOLERANCE) = false) ->
  output (run_statistical_checks dA dB s) = [].
Proof.
  intros Hband. unfold run_statistical_checks. rewrite bind_get.
  destruct (length (window s) <? 2)%nat; [reflexivity|].
  destruct (head (window s)) as [[[[t0 a0] b0] v0]|]; [|reflexivity].
  destruct (last (window s)) as [[[[t1 a1] b1] v1]|]; [|reflexivity].
  specialize (Hband _ eq_refl). simpl in Hband.
  destruct (t1 - t0 <=? 0); [reflexivity|].
  cbv zeta. rewrite Hband.
  destruct (ewma_deltaA s), (ewma_deltaB s); py_run; reflexivity.
Qed.

(** No drift line with fewer than two samples or no elapsed time. *)
Lemma p7_stat_checks_silent dA dB s :
  no_slope (window s) -> output (run_statistical_checks dA dB s) = [].
Proof.
  intros Hw. unfold run_statistical_checks. rewrite bind_get.
  destruct (length (window s) <? 2)%nat eqn:Hlen; [reflexivity|].
  destruct Hw as [Hw | (e0 & e1 & -> & -> & Hdt)].
  - apply Nat.ltb_ge in Hlen. lia.
  - destruct e0 as [[[t0 a0] b0] v0], e1 as [[[t1 a1] b1] v1]. simpl in Hdt.
    rewrite (FloatOrder.eqb_leb _ _ Hdt). reflexivity.
Qed.

(** Every drift line reports the endpoint slopes of the window. *)
Lemma p7_stat_checks_slopes dA dB s :
  Forall (endpoint_slopes (window s)) (output (run_statistical_checks dA dB s)).
Proof.
  unfold run_statistical_checks. rewrite bind_get.
  destruct (length (window s) <? 2)%nat eqn:Hlen; [constructor|].
  apply Nat.ltb_ge in Hlen.
  destruct (head (window s)) as [[[[t0 a0] b0] v0]|] eqn:Hh; [|constructor].
  destruct (last (window s)) as [[[[t1 a1] b1] v1]|] eqn:Hl; [|constructor].
  destruct (t1 - t0 <=? 0) eqn:Hdt; [constructor|].
  cbv zeta.
  assert (Hgood : forall l,
            (forall x, reported_trendA l = Some x -> x = (a1 - a0) / (t1 - t0)) ->
            (forall x, reported_trendB l = Some x -> x = (b1 - b0) / (t1 - t0)) ->
            endpoint_slopes (window s) l).
  { intros l HA HB. exists (t0, a0, b0, v0), (t1, a1, b1, v1).
    repeat split; simpl; auto. }
  match goal with |- Forall ?P (output (?m ?s0)) =>
    apply (fun H : prints_only P m => H s0)
  end.
  py_walk; apply prints_only_print, Hgood; simpl; intros x [= <-];
    try reflexivity; try discriminate.
Qed.

(** ** update_stats_and_rules *)

Lemma p7_update_cases t st v_d v_a v_b :
  V_D st = Some v_d -> V_A st = Some v_a -> V_B st = Some v_b ->
  update_stats_and_rules t st = (updated t v_d v_a v_b st, [], Raise TypeError)
  \/ update_stats_and_rules t st =
     (run_rule_based_harness_checks (v_d - v_a) (v_d - v_b) ;;
      run_statistical_checks (v_d - v_a) (v_d - v_b)) (updated t v_d v_a v_b st).
Proof.
  intros HD HA HB. unfold update_stats_and_rules, updated.
  rewrite bind_get, HD, HA, HB. py_run.
  destruct (ewma_deltaA st) as [eA|] eqn:EA; py_run.
  - destruct (ewma_deltaB st) as [eB|] eqn:EB; py_run; [right|left];
      unfold set_ewma_deltaB, set_ewma_deltaA, set_window; simpl;
      rewrite ?HD, ?HA, ?HB, ?EB; reflexivity.
  - right. unfold set_ewma_deltaB, set_ewma_deltaA, set_window; simpl.
    rewrite ?HD, ?HA, ?HB. reflexivity.
Qed.

Lemma p7_update_final_state t st v_d v_a v_b :
  V_D st = Some v_d -> V_A st = Some v_a -> V_B st = Some v_b ->
  final_state (update_stats_and_rules t st) = updated t v_d v_a v_b st.
Proof.
  intros HD HA HB.
  destruct (p7_update_cases t st v_d v_a v_b HD HA HB) as [-> | ->];
    [reflexivity | apply p7_checks_reads_only].
Qed.

Lemma p7_update_missing t st :
  V_D st = None \/ V_A st = None \/ V_B st = None ->
  update_stats_and_rules t st = (st, [], Raise TypeError).
Proof.
  intros Hm. unfold update_stats_and_rules. rewrite bind_get.
  destruct (V_D st); py_run; [|reflexivity].
  destruct (V_A st); py_run; [|reflexivity].
  destruct (V_B st); py_run; [|reflexivity].
  destruct Hm as [Hm|[Hm|Hm]]; discriminate.
Qed.

End Phase7Facts.

Section Phase7Update.
Import Phase7.
Local Open Scope float_scope.

Lemma filter_length_le {A} (p : A -> bool) (l : list A) :
  (length (List.filter p l) <= length l)%nat.
Proof. induction l as [|x l IH]; simpl; [lia|]. destruct (p x); simpl; lia. Qed.

Lemma filter_nil_of_Forall {A} (p : A -> bool) (l : list A) :
  Forall (fun x => p x = false) l -> List.filter p l = [].
Proof.
  induction 1 as [|x l Hx _ IH]; [reflexivity|]. simpl. rewrite Hx. exact IH.
Qed.

Lemma p7_early_not_alert (l : Line) : is_early l = true -> is_alert l = false.
Proof. destruct l; simpl; congruence. Qed.

Lemma p7_alert_not_early (l : Line) : is_alert l = true -> is_early l = false.
Proof. destruct l; simpl; congruence. Qed.

(** Of the two checks, only the statistical one prints drift lines. *)
Lemma p7_checks_early_lines dA dB s l :
  In l (output ((run_rule_based_harness_checks dA dB ;;
                 run_statistical_checks dA dB) s)) ->
  is_early l = true ->
  In l (output (run_statistical_checks dA dB s)).
Proof.
  rewrite output_bind. intros Hin Hearly.
  apply in_app_or in Hin as [Hin | Hin].
  - pose proof (p7_rule_checks_print_alerts dA dB s) as Hal.
    rewrite Forall_forall in Hal. apply list_elem_of_In in Hin.
    specialize (Hal _ Hin). simpl in Hal.
    rewrite (p7_alert_not_early _ Hal) in Hearly. discriminate.
  - destruct (result _); [|destruct Hin].
    rewrite (p7_rule_checks_reads_only dA dB s) in Hin. exact Hin.
Qed.

(** Every drift line of an evaluation comes from the statistical check run
    on the state the evaluation leaves. *)
Lemma p7_update_early_lines t st l :
  In l (output (update_stats_and_rules t st)) ->
  is_early l = true ->
  exists dA dB,
    In l (output (run_statistical_checks dA dB
                    (final_state (update_stats_and_rules t st)))).
Proof.
  intros Hin Hearly.
  destruct (V_D st) as [v_d|] eqn:HD;
    [|rewrite p7_update_missing in Hin by auto; destruct Hin].
  destruct (V_A st) as [v_a|] eqn:HA;
    [|rewrite p7_update_missing in Hin by auto; destruct Hin].
  destruct (V_B st) as [v_b|] eqn:HB;
    [|rewrite p7_update_missing in Hin by auto; destruct Hin].
  rewrite (p7_update_final_state t st v_d v_a v_b HD HA HB).
  destruct (p7_update_cases t st v_d v_a v_b HD HA HB) as [E | E];
    rewrite E in Hin; [destruct Hin|].
  exists (v_d - v_a), (v_d - v_b).
  apply p7_checks_early_lines; assumption.
Qed.

(** One evaluation prints one ALERT line at most. *)
Lemma p7_checks_alerts dA dB st :
  (length (List.filter is_alert
     (output ((run_rule_based_harness_checks dA dB ;;
               run_statistical_checks dA dB) st))) <= 1)%nat.
Proof.
  rewrite output_bind, List.filter_app, length_app.
  pose proof (p7_rule_checks_one_line dA dB st) as H1.
  pose proof (filter_length_le is_alert
                (output (run_rule_based_harness_checks dA dB st))) as H2.
  destruct (result _); [|simpl; lia].
  rewrite (filter_nil_of_Forall is_alert
             (output (run_statistical_checks dA dB _))); [simpl; lia|].
  eapply Forall_impl; [apply p7_stat_checks_print_early|].
  intros l Hl. apply p7_early_not_alert, Hl.
Qed.

Lemma p7_update_alerts t st :
  (length (List.filter is_alert (output (update_stats_and_rules t st))) <= 1)%nat.
Proof.
  destruct (V_D st) as [v_d|] eqn:HD;
    [|rewrite p7_update_missing by auto; simpl; lia].
  destruct (V_A st) as [v_a|] eqn:HA;
    [|rewrite p7_update_missing by auto; simpl; lia].
  destruct (V_B st) as [v_b|] eqn:HB;
    [|rewrite p7_update_missing by auto; simpl; lia].
  destruct (p7_update_cases t st v_d v_a v_b HD HA HB) as [-> | ->];
    [simpl; lia | apply p7_checks_alerts].
Qed.

(** The newest sample of the trimmed window is the one just appended. *)
Lemma p7_updated_last t v_d v_a v_b st e :
  last (window (updated t v_d v_a v_b st)) = Some e -> e.1.1.1 = t /\ e.2 = v_d.
Proof.
  unfold updated. cbv zeta. cbn [window]. intros Hl.
  destruct (popleft_while_last
              (fun e : Sample => e.1.1.1 <? t - WINDOW_SECONDS)
              (window st) (t, v_d - v_a, v_d - v_b, v_d)) as [E | E];
    unfold Sample in *; rewrite E in Hl; [discriminate|].
  injection Hl as <-. split; reflexivity.
Qed.

(** With the reference out of band an evaluation prints nothing. *)
Lemma p7_update_gated t st v_d :
  V_D st = Some v_d ->
  (abs (v_d - DCDC_NOMINAL_V) <=? DCDC_TOLERANCE) = false ->
  output (update_stats_and_rules t st) = [].
Proof.
  intros HD Hband.
  destruct (V_A st) as [v_a|] eqn:HA;
    [|rewrite p7_update_missing by auto; reflexivity].
  destruct (V_B st) as [v_b|] eqn:HB;
    [|rewrite p7_update_missing by auto; reflexivity].
  destruct (p7_update_cases t st v_d v_a v_b HD HA HB) as [-> | ->];
    [reflexivity|].
  rewrite output_bind.
  rewrite (p7_rule_checks_gated _ _ _ v_d) by (try assumption; exact HD).
  destruct (result _); [|reflexivity].
  rewrite (p7_rule_checks_reads_only _ _ (updated t v_d v_a v_b st)).
  apply p7_stat_checks_gated. intros e He.
  apply p7_updated_last in He as [_ ->]. exact Hband.
Qed.

End Phase7Update.

(* ===================================================================== *)
(** * Phase 7: the sliding window along a run                             *)
(* ===================================================================== *)

Section Chains.
Local Open Scope float_scope.

Lemma nondecreasing_tail x l :
  nondecreasing (x :: l) = true -> nondecreasing l = true.
Proof.
  destruct l as [|y l]; [reflexivity|]. simpl.
  intros Hc. apply andb_true_iff in Hc as [_ Hc]. exact Hc.
Qed.

Lemma nondecreasing_suffix d l :
  nondecreasing (d ++ l) = true -> nondecreasing l = true.
Proof.
  induction d as [|x d IH]; [trivial|].
  intros Hc. apply IH. exact (nondecreasing_tail _ _ Hc).
Qed.

Lemma nondecreasing_snoc l y :
  nondecreasing l = true ->
  (forall x, last l = Some x -> (x <=? y) = true) ->
  nondecreasing (l ++ [y]) = true.
Proof.
  induction l as [|x l IH]; [reflexivity|].
  intros Hc Hlast. destruct l as [|x' l].
  - simpl. rewrite (Hlast x eq_refl). reflexivity.
  - change (((x <=? x') && nondecreasing ((x' :: l) ++ [y])) = true).
    simpl in Hc. apply andb_true_iff in Hc as [Hxx' Hc].
    rewrite Hxx'. simpl. apply IH; [exact Hc|].
    intros z Hz. apply Hlast. exact Hz.
Qed.

Lemma nondecreasing_snoc_inv l y :
  nondecreasing (l ++ [y]) = true ->
  nondecreasing l = true /\ (forall x, last l = Some x -> (x <=? y) = true).
Proof.
  induction l as [|x l IH]; [split; [reflexivity | discriminate]|].
  intros Hc. destruct l as [|x' l].
  - simpl in Hc. apply andb_true_iff in Hc as [Hxy _].
    split; [reflexivity|]. intros z [= <-]. exact Hxy.
  - change (((x <=? x') && nondecreasing ((x' :: l) ++ [y])) = true) in Hc.
    apply andb_true_iff in Hc as [Hxx' Hc].
    destruct (IH Hc) as [Hl Hlast]. split.
    + simpl. rewrite Hxx'. exact Hl.
    + intros z Hz. apply Hlast. exact Hz.
Qed.

(** In a chain whose head is not below [c], nothing is below [c]. *)
Lemma nondecreasing_not_below c l :
  nondecreasing l = true ->
  (forall h, head l = Some h -> (h <? c) = false) ->
  Forall (fun x => (x <? c) = false) l.
Proof.
  induction l as [|x l IH]; [constructor|].
  intros Hc Hh. constructor; [apply Hh; reflexivity|].
  apply IH; [exact (nondecreasing_tail _ _ Hc)|].
  intros y Hy. destruct l as [|y' l]; [discriminate|].
  injection Hy as ->. simpl in Hc. apply andb_true_iff in Hc as [Hxy _].
  destruct (y <? c) eqn:Hyc; [|reflexivity].
  rewrite <- (Hh x eq_refl). symmetry.
  exact (FloatOrder.leb_ltb_trans _ _ _ Hxy Hyc).
Qed.

End Chains.

Section Phase7Window.
Import Phase7.
Local Open Scope float_scope.

Lemma map_last {A B} (g : A -> B) (l : list A) :
  last (map g l) = option_map g (last l).
Proof.
  induction l as [|x [|y l] IH]; try reflexivity. exact IH.
Qed.

Lemma map_head {A B} (g : A -> B) (l : list A) :
  head (map g l) = option_map g (head l).
Proof. destruct l; reflexivity. Qed.

(** Appending a sample taken at [now] to an ordered window and trimming it
    leaves an ordered window without stale samples. *)
Lemma p7_append_trim tprev now (w : list Sample) (s : Sample) :
  in_order tprev w ->
  w = [] \/ (tprev <=? now) = true ->
  s.1.1.1 = now ->
  let w' := popleft_while (fun e : Sample => e.1.1.1 <? now - WINDOW_SECONDS)
              (w ++ [s]) in
  in_order now w' /\ fresh now w'.
Proof.
  intros [Hchain Hlast] Hprev Hs w'.
  assert (Hsnoc : nondecreasing (map (fun e : Sample => e.1.1.1) (w ++ [s])) = true).
  { rewrite map_app. simpl. apply nondecreasing_snoc; [exact Hchain|].
    intros x Hx. rewrite map_last in Hx.
    destruct (last w) as [e|] eqn:He; [|discriminate].
    injection Hx as <-. rewrite Hs.
    destruct Hprev as [-> | Hprev]; [discriminate|].
    destruct (Hlast e eq_refl) as [-> | Hle]; [exact Hprev|].
    exact (FloatOrder.leb_trans _ _ _ Hle Hprev). }
  destruct (popleft_while_suffix
              (fun e : Sample => e.1.1.1 <? now - WINDOW_SECONDS) (w ++ [s]))
    as [d Hd].
  fold w' in Hd.
  assert (Hchain' : nondecreasing (map (fun e : Sample => e.1.1.1) w') = true).
  { rewrite Hd, map_app in Hsnoc. exact (nondecreasing_suffix _ _ Hsnoc). }
  split; [split|].
  - exact Hchain'.
  - intros e He. left.
    destruct (popleft_while_last
                (fun e : Sample => e.1.1.1 <? now - WINDOW_SECONDS) w s)
      as [E | E]; fold w' in E; rewrite E in He; [discriminate|].
    injection He as <-. exact Hs.
  - unfold fresh.
    apply (Forall_map (fun e : Sample => e.1.1.1)
                      (fun x => (x <? now - WINDOW_SECONDS) = false)).
    apply nondecreasing_not_below; [exact Hchain'|].
    intros h Hh. rewrite map_head in Hh.
    destruct (head w') as [e|] eqn:He; [|discriminate].
    injection Hh as <-.
    exact (popleft_while_head _ _ _ He).
Qed.

(** A window left alone stays ordered when the clock moves on. *)
Lemma p7_in_order_later tprev now (w : list Sample) :
  in_order tprev w -> w = [] \/ (tprev <=? now) = true -> in_order now w.
Proof.
  intros [Hchain Hlast] Hprev. split; [exact Hchain|].
  intros e He. right.
  destruct Hprev as [-> | Hprev]; [discriminate|].
  destruct (Hlast e He) as [-> | Hle]; [exact Hprev|].
  exact (FloatOrder.leb_trans _ _ _ Hle Hprev).
Qed.

End Phase7Window.

Section Phase7Frames.
Context `{Dbc}.
Import Phase7.
Local Open Scope float_scope.

Lemma py_bytes_ok {S O} (f : Frame) :
  payload_ok f ->
  (py_bytes [b0 f; b1 f; b2 f; b3 f; b4 f; b5 f; b6 f; b7 f] : Py S O (list Z))
  = ret (payload f).
Proof.
  intros Hp. unfold py_bytes.
  replace (forallb _ _) with true; [reflexivity|].
  symmetry. apply forallb_forall. intros b Hb.
  unfold payload_ok in Hp. rewrite Forall_forall in Hp.
  apply list_elem_of_In in Hb. specialize (Hp b Hb).
  apply andb_true_iff. split; [apply Z.leb_le | apply Z.ltb_lt]; lia.
Qed.

(** A frame leaves the window alone or appends one sample stamped [now] and
    trims. *)
Lemma p7_frame_window f now st :
  let st' := final_state (can_frame_v0 f now st) in
  window st' = window st \/
  exists s : Sample,
    s.1.1.1 = now /\
    window st' =
      popleft_while (fun e : Sample => e.1.1.1 <? now - WINDOW_SECONDS)
                    (window st ++ [s]).
Proof.
  unfold can_frame_v0. py_run. unfold py_bytes.
  destruct (forallb _ _); py_run; [|left; reflexivity].
  destruct (MESSAGE_BY_ID !! can_id f) as [msg|]; [|left; reflexivity].
  destruct (decode msg _) as [decoded|]; [|left; reflexivity].
  py_run.
  set (st1 := set_frames_decoded _ _).
  assert (Hw1 : window st1 = window st) by reflexivity.
  assert (Hgo : forall st2,
            window st2 = window st ->
            let st' := final_state
                         (match V_A st2, V_B st2, V_D st2 with
                          | Some _, Some _, Some _ => update_stats_and_rules now
                          | _, _, _ => ret tt
                          end st2) in
            window st' = window st \/
            exists s : Sample,
              s.1.1.1 = now /\
              window st' =
                popleft_while (fun e : Sample => e.1.1.1 <? now - WINDOW_SECONDS)
                              (window st ++ [s])).
  { intros st2 Hw2.
    destruct (V_A st2) as [v_a|] eqn:HA; [|left; exact Hw2].
    destruct (V_B st2) as [v_b|] eqn:HB; [|left; exact Hw2].
    destruct (V_D st2) as [v_d|] eqn:HD; [|left; exact Hw2].
    right. cbv zeta.
    rewrite (p7_update_final_state now st2 v_d v_a v_b HD HA HB).
    exists (now, v_d - v_a, v_d - v_b, v_d). split; [reflexivity|].
    unfold updated. cbv zeta. cbn [window]. rewrite Hw2. reflexivity. }
  destruct (frame_id msg =? ID_ECU_A)%Z;
    [|destruct (frame_id msg =? ID_ECU_B)%Z;
      [|destruct (frame_id msg =? ID_DCDC)%Z]];
    py_run;
    try (destruct (decoded !! _) as [v|]; py_run; [|left; reflexivity]);
    apply Hgo; reflexivity.
Qed.

Lemma p7_run_cons f now rest st :
  (run ((f, now) :: rest) st).1
  = (run rest (final_state (can_frame_v0 f now st))).1.
Proof.
  simpl. unfold final_state.
  destruct (can_frame_v0 f now st) as [[st1 out1] r]. simpl.
  destruct (run rest st1) as [st2 out2]. reflexivity.
Qed.

(** One frame keeps the window ordered. *)
Lemma p7_frame_in_order f now st tprev :
  in_order tprev (window st) ->
  window st = [] \/ (tprev <=? now) = true ->
  in_order now (window (final_state (can_frame_v0 f now st))).
Proof.
  intros Hord Hprev.
  destruct (p7_frame_window f now st) as [-> | (s & Hs & ->)].
  - exact (p7_in_order_later _ _ _ Hord Hprev).
  - exact (proj1 (p7_append_trim tprev now (window st) s Hord Hprev Hs)).
Qed.

(** Along a run with non-decreasing clock readings the window stays ordered. *)
Lemma p7_run_in_order inputs st tprev :
  in_order tprev (window st) ->
  nondecreasing (tprev :: map snd inputs) = true ->
  in_order (default tprev (last (map snd inputs))) (window (run inputs st).1).
Proof.
  revert st tprev. induction inputs as [|[f now] rest IH]; intros st tprev Hord Hc.
  - exact Hord.
  - rewrite p7_run_cons.
    change (map snd ((f, now) :: rest)) with (now :: map snd rest) in *.
    assert (Hstep : (tprev <=? now) = true).
    { simpl in Hc. apply andb_true_iff in Hc as [Hc _]. exact Hc. }
    specialize (IH (final_state (can_frame_v0 f now st)) now
                   (p7_frame_in_order f now st tprev Hord (or_intror Hstep))
                   (nondecreasing_tail _ _ Hc)).
    replace (default tprev (last (now :: map snd rest)))
      with (default now (last (map snd rest))); [exact IH|].
    rewrite last_cons. destruct (last (map snd rest)); reflexivity.
Qed.

Lemma p7_initial_in_order t : in_order t (window initial).
Proof. split; [reflexivity | discriminate]. Qed.

(** From the initial state: after any run with non-decreasing clock
    readings, the next frame either leaves the window alone, or appends a
    sample stamped [now], trims, and leaves no stale sample. *)
Lemma p7_window_fresh inputs f now :
  nondecreasing (map snd inputs ++ [now]) = true ->
  let st := (run inputs initial).1 in
  let st' := final_state (can_frame_v0 f now st) in
  window st' = window st \/
  (exists s : Sample,
      s.1.1.1 = now /\
      window st' =
        popleft_while (fun e : Sample => e.1.1.1 <? now - WINDOW_SECONDS)
                      (window st ++ [s])) /\
  fresh now (window st').
Proof.
  intros Hc st st'.
  destruct (p7_frame_window f now st) as [E | (s & Hs & E)]; [left; exact E|].
  right. fold st' in E. split; [exists s; split; assumption|]. rewrite E.
  destruct (nondecreasing_snoc_inv _ _ Hc) as [Hc' Hlast].
  destruct inputs as [|[f1 c1] rest].
  - apply (p7_append_trim now now (window initial) s
             (p7_initial_in_order now) (or_introl eq_refl) Hs).
  - set (tprev := default c1 (last (map snd rest))).
    assert (Hord : in_order tprev (window st)).
    { unfold st. rewrite p7_run_cons.
      apply p7_run_in_order; [|exact Hc'].
      apply (p7_frame_in_order f1 c1 initial c1 (p7_initial_in_order c1)).
      left. reflexivity. }
    assert (Hprev : (tprev <=? now) = true).
    { apply Hlast. change (map snd ((f1, c1) :: rest)) with (c1 :: map snd rest).
      rewrite last_cons. unfold tprev.
      destruct (last (map snd rest)); reflexivity. }
    apply (p7_append_trim tprev now (window st) s Hord (or_intror Hprev) Hs).
Qed.

End Phase7Frames.

(* ===================================================================== *)
(** * Phase 8: facts about the model                                      *)
(* ===================================================================== *)

Section Phase8Facts.
Import Phase8.
Local Open Scope float_scope.

Lemma p8_update_drift_run ts a d st :
  update_drift ts a d st =
  (drift_updated ts a d st, [],
   Ok (ewma_delta_a (drift_updated ts a d st),
       endpoint_trend (drift_history (drift_updated ts a d st)))).
Proof.
  unfold update_drift. py_run. unfold ret, drift_updated, endpoint_trend.
  destruct (ewma_delta_a st); reflexivity.
Qed.

Lemma p8_evaluate_rules_missing ts st :
  ECU_A (latest_voltages st) = None \/ ECU_B (latest_voltages st) = None \/
  DCDC (latest_voltages st) = None ->
  evaluate_rules ts st = (st, [], Ok []).
Proof.
  intros Hm. unfold evaluate_rules. rewrite bind_get.
  destruct (ECU_A _), (ECU_B _), (DCDC _); try reflexivity.
  destruct Hm as [?|[?|?]]; discriminate.
Qed.

Lemma p8_evaluate_rules_run ts st a b d :
  ECU_A (latest_voltages st) = Some a -> ECU_B (latest_voltages st) = Some b ->
  DCDC (latest_voltages st) = Some d ->
  evaluate_rules ts st =
    (drift_updated ts a d st, [],
     Ok (threshold_events a b d
         ++ drift_events
              (ewma_delta_a (drift_updated ts a d st),
               endpoint_trend (drift_history (drift_updated ts a d st)))
              a b d)).
Proof.
  intros HA HB HD. unfold evaluate_rules. rewrite bind_get, HA, HB, HD.
  rewrite (bind_returns _ _ _ _ _ (p8_update_drift_run ts a d st)). unfold ret.
  f_equal. f_equal. unfold drift_events, threshold_events. cbv zeta.
  generalize (endpoint_trend (drift_history (drift_updated ts a d st))).
  generalize (ewma_delta_a (drift_updated ts a d st)).
  intros [ewma|] [trend|];
    try destruct ((ewma >=? _) && (trend >=? _));
    destruct ((DCDC_OK_MIN_V <=? d) && (d <=? DCDC_OK_MAX_V));
    try reflexivity;
    destruct ((d - a >? DELTA_ALERT_V) && (d - b <=? DELTA_ALERT_V));
    destruct ((d - b >? DELTA_ALERT_V) && (d - a <=? DELTA_ALERT_V));
    destruct ((d - a >? DELTA_ALERT_V) && (d - b >? DELTA_ALERT_V));
    reflexivity.
Qed.

(** The three threshold guards are pairwise incompatible. *)
Lemma p8_threshold_events_exclusive a b d :
  (length (threshold_events a b d) <= 1)%nat.
Proof.
  unfold threshold_events. cbv zeta.
  destruct ((DCDC_OK_MIN_V <=? d) && (d <=? DCDC_OK_MAX_V)); [|simpl; lia].
  destruct (d - a >? DELTA_ALERT_V) eqn:HgA;
  destruct (d - b >? DELTA_ALERT_V) eqn:HgB;
  destruct (d - a <=? DELTA_ALERT_V) eqn:HlA;
  destruct (d - b <=? DELTA_ALERT_V) eqn:HlB;
  try (exfalso; exact (FloatOrder.ltb_leb_excl _ _ HgA HlA));
  try (exfalso; exact (FloatOrder.ltb_leb_excl _ _ HgB HlB));
  simpl; lia.
Qed.

Lemma p8_threshold_events_alerts a b d :
  Forall (fun ev => is_alert ev = true /\ is_early ev = false)
         (threshold_events a b d).
Proof.
  unfold threshold_events. cbv zeta.
  destruct ((DCDC_OK_MIN_V <=? d) && (d <=? DCDC_OK_MAX_V)); [|constructor].
  repeat match goal with |- context [if ?c then _ else _] => destruct c end;
    simpl; repeat constructor.
Qed.

Lemma p8_drift_events_early r a b d :
  Forall (fun ev => is_early ev = true /\ is_alert ev = false)
         (drift_events r a b d).
Proof.
  unfold drift_events. destruct r as [[ewma|] [trend|]]; try constructor.
  destruct (_ && _); repeat constructor.
Qed.

Lemma filter_id_of_Forall {A} (p : A -> bool) (l : list A) :
  Forall (fun x => p x = true) l -> List.filter p l = l.
Proof.
  induction 1 as [|x l Hx _ IH]; [reflexivity|]. simpl. rewrite Hx, IH.
  reflexivity.
Qed.

Lemma p8_filter_alert a b d r :
  List.filter is_alert (threshold_events a b d ++ drift_events r a b d)
  = threshold_events a b d.
Proof.
  rewrite List.filter_app.
  rewrite filter_id_of_Forall, filter_nil_of_Forall.
  - apply app_nil_r.
  - eapply Forall_impl; [apply p8_drift_events_early|]. intros ev [_ Hev]. exact Hev.
  - eapply Forall_impl; [apply p8_threshold_events_alerts|]. intros ev [Hev _]. exact Hev.
Qed.

Lemma p8_filter_early a b d r :
  List.filter is_early (threshold_events a b d ++ drift_events r a b d)
  = drift_events r a b d.
Proof.
  rewrite List.filter_app.
  rewrite filter_nil_of_Forall, filter_id_of_Forall.
  - reflexivity.
  - eapply Forall_impl; [apply p8_drift_events_early|]. intros ev [Hev _]. exact Hev.
  - eapply Forall_impl; [apply p8_threshold_events_alerts|]. intros ev [_ Hev]. exact Hev.
Qed.

(** ** send_event_to_sheets *)

Lemma p8_send_run event now x st :
  send_event_to_sheets event now x st =
  if now - default 0.0 (last_sheet_send st !! key_of event)
     <? SHEET_MIN_INTERVAL_SEC
  then (st, [], Ok tt)
  else
    match x with
    | Responds status =>
        if (status =? 200)%Z then
          (set_last_sheet_send (<[key_of event := now]> (last_sheet_send st)) st,
           [GSHEETS_LOGGED (level event) (harness event) (rule_name event)],
           Ok tt)
        else (st, [GSHEETS_NON_200 status], Ok tt)
    | HTTPError code => (st, [GSHEETS_HTTP_ERROR code], Ok tt)
    | HTTPErrorUnreadable => (st, [], Raise OtherError)
    | OtherException => (st, [GSHEETS_ERROR], Ok tt)
    end.
Proof.
  unfold send_event_to_sheets, key_of.
  change (String.eqb GSHEETS_WEBHOOK_URL "") with false. cbv iota.
  rewrite bind_get.
  destruct (_ <? SHEET_MIN_INTERVAL_SEC); [reflexivity|].
  destruct x as [status|code| |]; try reflexivity.
  destruct (status =? 200)%Z; [|reflexivity].
  rewrite bind_print. reflexivity.
Qed.

Lemma p8_send_frame event now x st :
  same_but_throttle st (final_state (send_event_to_sheets event now x st)).
Proof.
  rewrite p8_send_run. unfold same_but_throttle.
  destruct (_ <? _); [tauto|].
  destruct x as [status|code| |]; try tauto.
  destruct (status =? 200)%Z; simpl; tauto.
Qed.

Lemma p8_push_events_frame i events world st :
  same_but_throttle st (final_state (push_events i events world st)).
Proof.
  revert i st. induction events as [|ev rest IH]; intros i st.
  - repeat split.
  - simpl. rewrite bind_print. cbn [final_state fst].
    rewrite final_state_bind.
    pose proof (p8_send_frame ev (world i).1 (world i).2 st) as Hs.
    destruct (result _); [|exact Hs].
    specialize (IH (S i) (final_state
                     (send_event_to_sheets ev (world i).1 (world i).2 st))).
    unfold same_but_throttle in *.
    destruct Hs as (H1 & H2 & H3 & H4 & H5), IH as (I1 & I2 & I3 & I4 & I5).
    repeat split; congruence.
Qed.

End Phase8Facts.

Section Phase8Frames.
Context `{Dbc}.
Import Phase8.
Local Open Scope float_scope.

Lemma p8_drift_updated_fresh ts a d st :
  fresh ts (drift_history (drift_updated ts a d st)).
Proof.
  unfold fresh, drift_updated. cbv zeta. cbn [drift_history].
  apply Forall_forall. intros p Hp. apply list_elem_of_In in Hp.
  apply List.filter_In in Hp as [_ Hp]. exact Hp.
Qed.

(** Evaluating the rules and pushing the events leaves the history alone,
    or appends the point of this frame and drops the stale ones. *)
Lemma p8_evaluate_and_push_history ts world st :
  let st' := final_state
               ((events <- evaluate_rules ts ;; push_events 0 events world) st) in
  drift_history st' = drift_history st \/
  (exists delta_a,
      drift_history st' =
        List.filter
          (fun p : float * float =>
             p.1 >=? float_of_int ts / 1000.0 - DRIFT_WINDOW_SEC)
          (drift_history st ++ [(float_of_int ts / 1000.0, delta_a)])) /\
  fresh ts (drift_history st').
Proof.
  destruct (ECU_A (latest_voltages st)) as [a|] eqn:HA;
    [|left; rewrite (bind_returns _ _ _ _ _ (p8_evaluate_rules_missing ts st
                                                (or_introl HA))); reflexivity].
  destruct (ECU_B (latest_voltages st)) as [b|] eqn:HB;
    [|left; rewrite (bind_returns _ _ _ _ _ (p8_evaluate_rules_missing ts st
                                    (or_intror (or_introl HB)))); reflexivity].
  destruct (DCDC (latest_voltages st)) as [d|] eqn:HD;
    [|left; rewrite (bind_returns _ _ _ _ _ (p8_evaluate_rules_missing ts st
                                    (or_intror (or_intror HD)))); reflexivity].
  right. cbv zeta.
  rewrite (bind_returns _ _ _ _ _ (p8_evaluate_rules_run ts st a b d HA HB HD)).
  destruct (p8_push_events_frame 0
              (threshold_events a b d
               ++ drift_events
                    (ewma_delta_a (drift_updated ts a d st),
                     endpoint_trend (drift_history (drift_updated ts a d st)))
                    a b d)
              world (drift_updated ts a d st)) as (_ & _ & _ & _ & ->).
  split; [exists (d - a); reflexivity | apply p8_drift_updated_fresh].
Qed.

Lemma p8_frame_history f world st :
  let st' := final_state (can_frame_v0 f world st) in
  drift_history st' = drift_history st \/
  (exists delta_a,
      drift_history st' =
        List.filter
          (fun p : float * float =>
             p.1 >=? float_of_int (ts_mcu_ms f) / 1000.0 - DRIFT_WINDOW_SEC)
          (drift_history st
           ++ [(float_of_int (ts_mcu_ms f) / 1000.0, delta_a)])) /\
  fresh (ts_mcu_ms f) (drift_history st').
Proof.
  unfold can_frame_v0. py_run. unfold py_bytes.
  destruct (forallb _ _); py_run; [|left; reflexivity].
  destruct (id_to_msg !! can_id f) as [msg|]; [|left; reflexivity].
  destruct (decode msg _) as [decoded|]; [|left; reflexivity].
  py_run. cbv zeta.
  destruct (decide (msg = msg_a));
    [|destruct (decide (msg = msg_b)); [|destruct (decide (msg = msg_dcdc))]];
    unfold subscript;
    try (destruct (decoded !! _) as [v|]; py_run; [|left; reflexivity]);
    try (left; reflexivity);
    match goal with
    | |- context [(?m ?s)] =>
        match m with
        | bind (evaluate_rules _) _ =>
            destruct (p8_evaluate_and_push_history (ts_mcu_ms f) world s)
              as [E | E]; [left; rewrite E; reflexivity | right; exact E]
        end
    end.
Qed.

End Phase8Frames.

(* ===================================================================== *)
(** * Scenarios, run on the models                                        *)
(* ===================================================================== *)

Section Scenarios.
Local Open Scope float_scope.

(** Reference in band (14.0 V), ECU A 1.0 V below it, ECU B 0.1 V below it:
    one event, classified HARNESS_A, in both phases. *)
Example scenario_harness_a_phase8 :
  Phase8.evaluate_rules 0%Z
    (Phase8.mkState (Phase8.mkVoltages (Some 13.0) (Some 13.9) (Some 14.0))
                    3%Z 3%Z None [] ∅)
  = (Phase8.mkState (Phase8.mkVoltages (Some 13.0) (Some 13.9) (Some 14.0))
                    3%Z 3%Z (Some 1.0) [(0.0, 1.0)] ∅,
     [], Ok [Demo.alert_a]).
Proof. vm_compute. reflexivity. Qed.

Example scenario_harness_a_phase7 :
  output (Phase7.update_stats_and_rules 100.0
            (Phase7.mkState (Some 13.0) (Some 13.9) (Some 14.0) 3%Z 3%Z
                            [] None None))
  = [Phase7.ALERT "HARNESS_A" 13.0 13.9 14.0 (14.0 - 13.0) (14.0 - 13.9)].
Proof. vm_compute. reflexivity. Qed.

(** Reference out of band (10.0 V) with both ECUs 1.0 V below it: no
    threshold event. *)
Example scenario_reference_out_of_band_phase8 :
  result (Phase8.evaluate_rules 0%Z
            (Phase8.mkState (Phase8.mkVoltages (Some 9.0) (Some 9.0) (Some 10.0))
                            3%Z 3%Z None [] ∅))
  = Ok [].
Proof. vm_compute. reflexivity. Qed.

Example scenario_reference_out_of_band_phase7 :
  output (Phase7.update_stats_and_rules 100.0
            (Phase7.mkState (Some 9.0) (Some 9.0) (Some 10.0) 3%Z 3%Z
                            [] None None))
  = [].
Proof. vm_compute. reflexivity. Qed.

(** Metric A at 0.5 V and rising by 0.1 V in 10 s, metric B flat: the
    single-metric drift line of Phase 7, and not the combined one. *)
Example scenario_single_metric_drift_phase7 :
  match output (Phase7.update_stats_and_rules 110.0
                  (Phase7.mkState (Some 13.4) (Some 14.0) (Some 14.0) 4%Z 4%Z
                                  [(100.0, 0.5, 0.0, 14.0)]
                                  (Some 0.5) (Some 0.0))) with
  | [Phase7.EARLY_A _ _ _ _ _ _] => True
  | _ => False
  end.
Proof. vm_compute. exact I. Qed.

(** Phase 7 trims its deque from the left only: were the clock to step
    back (120 s, then 50 s), the sample taken at 50 s would survive the
    trimming at 170 s although it is older than 170 - 60. *)
Example scenario_clock_stepping_back_phase7 :
  Phase7.window
    (final_state
       (Phase7.update_stats_and_rules 170.0
          (Phase7.mkState (Some 14.0) (Some 14.0) (Some 14.0) 5%Z 5%Z
                          [(120.0, 0.0, 0.0, 14.0); (50.0, 0.0, 0.0, 14.0)]
                          (Some 0.0) (Some 0.0))))
  = [(120.0, 0.0, 0.0, 14.0); (50.0, 0.0, 0.0, 14.0); (170.0, 0.0, 0.0, 14.0)]
  /\ (50.0 <? 170.0 - Phase7.WINDOW_SECONDS) = true.
Proof. split; vm_compute; reflexivity. Qed.

End Scenarios.

(* ===================================================================== *)
(** * The dispatcher: throttling (C1, C8)                                 *)
(* ===================================================================== *)

Section Dispatcher.
Import Phase8.
Local Open Scope float_scope.

(** C1, as stated, fails: the same event submitted at the same time from the
    same state is marked as sent when the sink answers 200 and is left
    unmarked when it answers 204 (a non-200 response), when the request
    raises HTTPError (status 503) and when it raises anything else (a
    timeout, say). *)
Lemma failed_delivery_leaves_key_unmarked :
  let key := ("ALERT", "HARNESS_A", "HARNESS_A_LOW_VS_DCDC") in
  let after x :=
    last_sheet_send
      (final_state (send_event_to_sheets Demo.alert_a 1000.0 x initial)) !! key in
  after (Responds 200) = Some 1000.0 /\
  after (Responds 204) = None /\
  after (HTTPError 503) = None /\
  after OtherException = None.
Proof. cbv zeta. repeat split; vm_compute; reflexivity. Qed.

(** C1, amended. The throttle entry of the event's key is set to the
    submission time exactly when the submission passes the cooldown check
    and the sink answers with status 200; after a throttled submission or a
    failed delivery (non-200 answer, HTTPError, any other exception) the
    throttle map is what it was, and no other global changes either way. *)
Theorem throttle_marked_only_on_200
        (event : RuleEvent) (now : float) (x : Exchange) (st : State) :
  let st' := final_state (send_event_to_sheets event now x st) in
  let passes :=
    negb (now - default 0.0 (last_sheet_send st !! key_of event)
          <? SHEET_MIN_INTERVAL_SEC) in
  let logged :=
    match x with Responds status => (status =? 200)%Z | _ => false end in
  last_sheet_send st' =
    (if passes && logged then <[key_of event := now]> (last_sheet_send st)
     else last_sheet_send st)
  /\ same_but_throttle st st'.
Proof.
  cbv zeta. split; [|apply p8_send_frame].
  rewrite p8_send_run.
  destruct (_ <? SHEET_MIN_INTERVAL_SEC); [reflexivity|].
  destruct x as [status|code| |]; try reflexivity.
  destruct (status =? 200)%Z; reflexivity.
Qed.




End Dispatcher.

(* ===================================================================== *)
(** * The rule engine (C2, C3, C4)                                        *)
(* ===================================================================== *)

Section RuleEngine.
Local Open Scope float_scope.

(** C2. In one evaluation at most one of the three threshold
    classifications fires: the three guards of Phase 8 are pairwise
    incompatible, so [evaluate_rules] returns at most one ALERT event
    (HARNESS_A, HARNESS_B or HARNESS_C), and one call of Phase 7's
    [update_stats_and_rules] prints at most one ALERT line. *)
Theorem threshold_classifications_exclusive :
  (forall dA dB : float,
      let guard_A := (dA >? Phase8.DELTA_ALERT_V) && (dB <=? Phase8.DELTA_ALERT_V) in
      let guard_B := (dB >? Phase8.DELTA_ALERT_V) && (dA <=? Phase8.DELTA_ALERT_V) in
      let guard_C := (dA >? Phase8.DELTA_ALERT_V) && (dB >? Phase8.DELTA_ALERT_V) in
      guard_A && guard_B = false /\ guard_A && guard_C = false /\
      guard_B && guard_C = false) /\
  (forall ts st, exists events,
      result (Phase8.evaluate_rules ts st) = Ok events /\
      (length (List.filter Phase8.is_alert events) <= 1)%nat) /\
  (forall t st,
      (length (List.filter Phase7.is_alert
                 (output (Phase7.update_stats_and_rules t st))) <= 1)%nat).
Proof.
  split; [|split].
  - intros dA dB. cbv zeta.
    destruct (dA >? Phase8.DELTA_ALERT_V) eqn:HgA;
    destruct (dB >? Phase8.DELTA_ALERT_V) eqn:HgB;
    destruct (dA <=? Phase8.DELTA_ALERT_V) eqn:HlA;
    destruct (dB <=? Phase8.DELTA_ALERT_V) eqn:HlB;
    try (exfalso; exact (FloatOrder.ltb_leb_excl _ _ HgA HlA));
    try (exfalso; exact (FloatOrder.ltb_leb_excl _ _ HgB HlB));
    repeat split; reflexivity.
  - intros ts st.
    destruct (Phase8.ECU_A (Phase8.latest_voltages st)) as [a|] eqn:HA;
      [|rewrite p8_evaluate_rules_missing by auto; exists []; split;
        [reflexivity | simpl; lia]].
    destruct (Phase8.ECU_B (Phase8.latest_voltages st)) as [b|] eqn:HB;
      [|rewrite p8_evaluate_rules_missing by auto; exists []; split;
        [reflexivity | simpl; lia]].
    destruct (Phase8.DCDC (Phase8.latest_voltages st)) as [d|] eqn:HD;
      [|rewrite p8_evaluate_rules_missing by auto; exists []; split;
        [reflexivity | simpl; lia]].
    rewrite (p8_evaluate_rules_run ts st a b d HA HB HD).
    eexists. split; [reflexivity|].
    rewrite p8_filter_alert. apply p8_threshold_events_exclusive.
  - apply p7_update_alerts.
Qed.

(** C3, as stated, fails in Phase 8: with the reference at 15.0 V, outside
    the band [13.5, 14.7], the evaluation still returns the drift event
    HARNESS_A_DRIFT (EWMA 2.2 >= 0.3, trend 0.1 V/s >= 0.01). *)
Lemma drift_event_with_reference_out_of_band :
  let st := Phase8.mkState
              (Phase8.mkVoltages (Some 12.0) (Some 13.0) (Some 15.0))
              4%Z 4%Z (Some 2.0) [(0.0, 2.0)] ∅ in
  ((Phase8.DCDC_OK_MIN_V <=? 15.0) && (15.0 <=? Phase8.DCDC_OK_MAX_V)) = false /\
  result (Phase8.evaluate_rules 10000%Z st)
  = Ok [Phase8.mkRuleEvent "EARLY" "HARNESS_A" "HARNESS_A_DRIFT"
          (Phase8.Drift_A 2.2000000000000002 0.1) 12.0 13.0 15.0].
Proof. cbv zeta. split; vm_compute; reflexivity. Qed.

(** Four frames of the demo harness lead there (ECU A 13.0 V, ECU B 13.0 V
    and DCDC 15.0 V at 0 ms, then ECU A 12.0 V at 10 s): the fourth frame
    evaluates the rules in the state above and prints the drift event. *)
Lemma phase8_run_reaches_out_of_band_drift :
  let w := Demo.always 1000.0 (Phase8.HTTPError 500%Z) in
  Phase8.run (H := Demo.demo_dbc)
    [(Demo.frame 0%Z 0x111%Z 130%Z, w); (Demo.frame 0%Z 0x112%Z 130%Z, w);
     (Demo.frame 0%Z 0x113%Z 150%Z, w); (Demo.frame 10000%Z 0x111%Z 120%Z, w)]
    Phase8.initial
  = (Phase8.mkState
       (Phase8.mkVoltages (Some 12.0) (Some 13.0) (Some 15.0))
       4%Z 4%Z (Some 2.2000000000000002) [(0.0, 2.0); (10.0, 3.0)] ∅,
     [Phase8.EVENT
        (Phase8.mkRuleEvent "EARLY" "HARNESS_A" "HARNESS_A_DRIFT"
           (Phase8.Drift_A 2.2000000000000002 0.1) 12.0 13.0 15.0);
      Phase8.GSHEETS_HTTP_ERROR 500%Z]).
Proof. vm_compute. reflexivity. Qed.

(** C3, amended. In Phase 7 every drift classification is gated on the
    reference being in band, by the check the threshold rules use
    ([abs(V_D - DCDC_NOMINAL_V) <= DCDC_TOLERANCE]): an evaluation whose
    reference is out of band prints nothing, neither ALERT nor EARLY.
    Phase 8's drift rule is not gated on the band: the EARLY events
    [evaluate_rules] returns are those the EWMA and the trend returned by
    [update_drift] call for, whatever the reference. *)
Theorem drift_gate :
  (forall t st v_d,
      Phase7.V_D st = Some v_d ->
      (abs (v_d - Phase7.DCDC_NOMINAL_V) <=? Phase7.DCDC_TOLERANCE) = false ->
      output (Phase7.update_stats_and_rules t st) = []) /\
  (forall ts st a b d,
      Phase8.ECU_A (Phase8.latest_voltages st) = Some a ->
      Phase8.ECU_B (Phase8.latest_voltages st) = Some b ->
      Phase8.DCDC (Phase8.latest_voltages st) = Some d ->
      exists events r,
        result (Phase8.evaluate_rules ts st) = Ok events /\
        result (Phase8.update_drift ts a d st) = Ok r /\
        List.filter Phase8.is_early events =
          match r with
          | (Some ewma, Some trend) =>
              if (ewma >=? Phase8.EARLY_DRIFT_DV_MIN)
                 && (trend >=? Phase8.EARLY_DRIFT_TREND_MIN)
              then [Phase8.mkRuleEvent "EARLY" "HARNESS_A" "HARNESS_A_DRIFT"
                      (Phase8.Drift_A ewma trend) a b d]
              else []
          | _ => []
          end).
Proof.
  split.
  - apply p7_update_gated.
  - intros ts st a b d HA HB HD.
    rewrite (p8_evaluate_rules_run ts st a b d HA HB HD).
    rewrite p8_update_drift_run.
    eexists _, _. split; [reflexivity|]. split; [reflexivity|].
    apply p8_filter_early.
Qed.

Lemma drift_gate_witness :
  output (Phase7.update_stats_and_rules 110.0
            (Phase7.mkState (Some 12.0) (Some 13.0) (Some 15.0) 4%Z 4%Z
               [(100.0, 2.0, 2.0, 15.0)] (Some 2.0) (Some 2.0))) = [] /\
  exists events r,
    result (Phase8.evaluate_rules 10000%Z
              (Phase8.mkState
                 (Phase8.mkVoltages (Some 12.0) (Some 13.0) (Some 15.0))
                 4%Z 4%Z (Some 2.0) [(0.0, 2.0)] ∅)) = Ok events /\
    result (Phase8.update_drift 10000%Z 12.0 15.0
              (Phase8.mkState
                 (Phase8.mkVoltages (Some 12.0) (Some 13.0) (Some 15.0))
                 4%Z 4%Z (Some 2.0) [(0.0, 2.0)] ∅)) = Ok r /\
    List.filter Phase8.is_early events =
      match r with
      | (Some ewma, Some trend) =>
          if (ewma >=? Phase8.EARLY_DRIFT_DV_MIN)
             && (trend >=? Phase8.EARLY_DRIFT_TREND_MIN)
          then [Phase8.mkRuleEvent "EARLY" "HARNESS_A" "HARNESS_A_DRIFT"
                  (Phase8.Drift_A ewma trend) 12.0 13.0 15.0]
          else []
      | _ => []
      end.
Proof.
  split.
  - apply (proj1 drift_gate 110.0 _ 15.0); vm_compute; reflexivity.
  - apply (proj2 drift_gate 10000%Z _ 12.0 13.0 15.0); reflexivity.
Defined.

(** C4, as stated, fails: one call of [evaluate_rules] on a state whose
    EWMA is unset and whose history is empty leaves the EWMA set and a point
    in the history. *)
Lemma evaluate_rules_writes_statistics :
  let st := Phase8.mkState
              (Phase8.mkVoltages (Some 13.0) (Some 13.9) (Some 14.0))
              3%Z 3%Z None [] ∅ in
  let st' := final_state (Phase8.evaluate_rules 5000%Z st) in
  Phase8.ewma_delta_a st = None /\ Phase8.drift_history st = [] /\
  Phase8.ewma_delta_a st' = Some 1.0 /\ Phase8.drift_history st' = [(5.0, 1.0)].
Proof. cbv zeta. repeat split; vm_compute; reflexivity. Qed.

(** C4, amended. [evaluate_rules] prints nothing and leaves the live
    values, the frame counters and the throttle state unchanged, but it
    writes the statistical state: when the three live values are present it
    sets the EWMA to the first delta or blends it with the new delta, appends
    [(t_sec, delta_a)] to the history and drops the points older than
    [t_sec - DRIFT_WINDOW_SEC]; when one is missing it changes nothing. *)
Theorem evaluate_rules_effect (ts : Z) (st : Phase8.State) :
  let st' := final_state (Phase8.evaluate_rules ts st) in
  output (Phase8.evaluate_rules ts st) = [] /\
  Phase8.latest_voltages st' = Phase8.latest_voltages st /\
  Phase8.frames_seen_window st' = Phase8.frames_seen_window st /\
  Phase8.frames_decoded_window st' = Phase8.frames_decoded_window st /\
  Phase8.last_sheet_send st' = Phase8.last_sheet_send st /\
  match Phase8.ECU_A (Phase8.latest_voltages st),
        Phase8.ECU_B (Phase8.latest_voltages st),
        Phase8.DCDC (Phase8.latest_voltages st) with
  | Some a, Some b, Some d =>
      let t_sec := float_of_int ts / 1000.0 in
      let delta_a := d - a in
      Phase8.ewma_delta_a st' =
        Some match Phase8.ewma_delta_a st with
             | None => delta_a
             | Some e => Phase8.EWMA_ALPHA * delta_a
                         + (1.0 - Phase8.EWMA_ALPHA) * e
             end /\
      Phase8.drift_history st' =
        List.filter
          (fun p : float * float => p.1 >=? t_sec - Phase8.DRIFT_WINDOW_SEC)
          (Phase8.drift_history st ++ [(t_sec, delta_a)])
  | _, _, _ => st' = st
  end.
Proof.
  cbv zeta.
  destruct (Phase8.ECU_A (Phase8.latest_voltages st)) as [a|] eqn:HA;
    [|rewrite p8_evaluate_rules_missing by auto; repeat split].
  destruct (Phase8.ECU_B (Phase8.latest_voltages st)) as [b|] eqn:HB;
    [|rewrite p8_evaluate_rules_missing by auto; repeat split].
  destruct (Phase8.DCDC (Phase8.latest_voltages st)) as [d|] eqn:HD;
    [|rewrite p8_evaluate_rules_missing by auto; repeat split].
  rewrite (p8_evaluate_rules_run ts st a b d HA HB HD).
  repeat split.
Qed.

End RuleEngine.

(* ===================================================================== *)
(** * The statistics engine (C6, C7)                                      *)
(* ===================================================================== *)

Section Freshness.
Context `{Dbc}.
Local Open Scope float_scope.

(** C6, amended.  Sliding-window freshness.  Phase 8: the history [update_drift]
    leaves holds no point older than [t_sec - DRIFT_WINDOW_SEC], and every
    frame either leaves the history alone or appends its point and leaves
    the history fresh for its own timestamp.  Phase 7 stamps a sample with
    the clock reading [now_s()] taken when its frame is handled, and trims
    the deque from the left only: along any sequence of frames whose clock
    readings are non-decreasing, starting from the initial state, every
    frame either leaves the window alone or appends a sample stamped [now],
    trims, and leaves no sample older than [now - WINDOW_SECONDS]. *)
Theorem window_freshness :
  (forall ts a d st,
      Phase8.fresh ts
        (Phase8.drift_history (final_state (Phase8.update_drift ts a d st)))) /\
  (forall f world st,
      let st' := final_state (Phase8.can_frame_v0 f world st) in
      Phase8.drift_history st' = Phase8.drift_history st \/
      (exists delta_a,
          Phase8.drift_history st' =
            List.filter
              (fun p : float * float =>
                 p.1 >=? float_of_int (ts_mcu_ms f) / 1000.0
                         - Phase8.DRIFT_WINDOW_SEC)
              (Phase8.drift_history st
               ++ [(float_of_int (ts_mcu_ms f) / 1000.0, delta_a)])) /\
      Phase8.fresh (ts_mcu_ms f) (Phase8.drift_history st')) /\
  (forall inputs f now,
      nondecreasing (map snd inputs ++ [now]) = true ->
      let st := (Phase7.run inputs Phase7.initial).1 in
      let st' := final_state (Phase7.can_frame_v0 f now st) in
      Phase7.window st' = Phase7.window st \/
      (exists s : Phase7.Sample,
          s.1.1.1 = now /\
          Phase7.window st' =
            popleft_while
              (fun e : Phase7.Sample => e.1.1.1 <? now - Phase7.WINDOW_SECONDS)
              (Phase7.window st ++ [s])) /\
      Phase7.fresh now (Phase7.window st')).
Proof.
  split; [|split].
  - intros ts a d st. rewrite p8_update_drift_run. apply p8_drift_updated_fresh.
  - apply p8_frame_history.
  - apply p7_window_fresh.
Qed.

End Freshness.

Section FreshnessWitness.
Local Open Scope float_scope.

(** Three frames complete the live values at 100 s; a fourth arrives 120 s
    later and pushes the first sample out of the 60 s window. *)
Lemma window_freshness_witness :
  let inputs := [(Demo.frame 0%Z 0x111%Z 130%Z, 100.0);
                 (Demo.frame 0%Z 0x112%Z 130%Z, 100.0);
                 (Demo.frame 0%Z 0x113%Z 140%Z, 100.0)] in
  let st := (Phase7.run (H := Demo.demo_dbc) inputs Phase7.initial).1 in
  let st' := final_state
               (Phase7.can_frame_v0 (H := Demo.demo_dbc)
                  (Demo.frame 120000%Z 0x111%Z 120%Z) 220.0 st) in
  Phase7.window st = [(100.0, 1.0, 1.0, 14.0)] /\
  Phase7.window st' = [(220.0, 2.0, 1.0, 14.0)] /\
  (Phase7.window st' = Phase7.window st \/
   (exists s : Phase7.Sample,
       s.1.1.1 = 220.0 /\
       Phase7.window st' =
         popleft_while
           (fun e : Phase7.Sample => e.1.1.1 <? 220.0 - Phase7.WINDOW_SECONDS)
           (Phase7.window st ++ [s])) /\
   Phase7.fresh 220.0 (Phase7.window st')).
Proof.
  cbv zeta. split; [vm_compute; reflexivity|]. split; [vm_compute; reflexivity|].
  apply (proj2 (proj2 (window_freshness (H := Demo.demo_dbc)))
           [(Demo.frame 0%Z 0x111%Z 130%Z, 100.0);
            (Demo.frame 0%Z 0x112%Z 130%Z, 100.0);
            (Demo.frame 0%Z 0x113%Z 140%Z, 100.0)]
           (Demo.frame 120000%Z 0x111%Z 120%Z) 220.0).
  vm_compute. reflexivity.
Defined.

End FreshnessWitness.

Section FreshnessCounterexample.
Local Open Scope float_scope.

(** C6, as stated, fails in Phase 7, which never reads the timestamp of a
    frame: it stamps each sample with the clock reading [now_s()] taken
    while the frame is handled.  The five frames below carry the
    timestamps 0, 1, 2, 3, 4 ms; they are handled at the clock readings
    100, 100, 120, 50 and 170 s.  After the last frame the window holds the
    samples taken at 120, 50 and 170 s: the trimming at 170 s stops at the
    sample taken at 120 s, and the sample taken at 50 s, older than
    170 - 60, stays. *)
Lemma stale_sample_despite_ordered_frames :
  let frames := [Demo.frame 0%Z 0x111%Z 130%Z; Demo.frame 1%Z 0x112%Z 130%Z;
                 Demo.frame 2%Z 0x113%Z 140%Z; Demo.frame 3%Z 0x111%Z 130%Z;
                 Demo.frame 4%Z 0x111%Z 130%Z] in
  let clock := [100.0; 100.0; 120.0; 50.0; 170.0] in
  let st := (Phase7.run (H := Demo.demo_dbc) (zip frames clock)
               Phase7.initial).1 in
  map ts_mcu_ms frames = [0; 1; 2; 3; 4]%Z /\
  nondecreasing (map (fun f => float_of_int (ts_mcu_ms f)) frames) = true /\
  map (fun e : Phase7.Sample => e.1.1.1) (Phase7.window st)
  = [120.0; 50.0; 170.0] /\
  (50.0 <? 170.0 - Phase7.WINDOW_SECONDS) = true /\
  ~ Phase7.fresh 170.0 (Phase7.window st).
Proof.
  cbv zeta. split; [reflexivity|]. split; [vm_compute; reflexivity|].
  split; [vm_compute; reflexivity|]. split; [vm_compute; reflexivity|].
  intros Hf.
  assert (Hw : Phase7.window
                 (Phase7.run (H := Demo.demo_dbc)
                    (zip [Demo.frame 0%Z 0x111%Z 130%Z;
                          Demo.frame 1%Z 0x112%Z 130%Z;
                          Demo.frame 2%Z 0x113%Z 140%Z;
                          Demo.frame 3%Z 0x111%Z 130%Z;
                          Demo.frame 4%Z 0x111%Z 130%Z]
                         [100.0; 100.0; 120.0; 50.0; 170.0])
                    Phase7.initial).1
               = [(120.0, 14.0 - 13.0, 14.0 - 13.0, 14.0);
                  (50.0, 14.0 - 13.0, 14.0 - 13.0, 14.0);
                  (170.0, 14.0 - 13.0, 14.0 - 13.0, 14.0)])
    by (vm_compute; reflexivity).
  rewrite Hw in Hf.
  inversion Hf as [|? ? _ Hf']. inversion Hf' as [|? ? H50 _].
  vm_compute in H50. discriminate.
Qed.

End FreshnessCounterexample.

Section Ewma.
Local Open Scope float_scope.

(** C7, as stated, fails under binary64 arithmetic, in both phases.
    Phase 8 (alpha = 0.2): frames carrying ECU B = 14.0 V, DCDC = 14.0 V and
    ECU A = 13.3 V (raw 133) give the first sample and set the EWMA to
    v = 0.6999999999999993; the ECU A frame received once more feeds the
    same delta again and moves the EWMA to 0.6999999999999994.
    Phase 7 (alpha = 0.1): the same with ECU A = 13.7 V (raw 137), from
    0.29999999999999893 to 0.29999999999999899. *)
Lemma ewma_fixed_point_fails :
  (let w := Demo.always 1000.0 (Phase8.HTTPError 500%Z) in
   let first := [(Demo.frame 0%Z 0x112%Z 140%Z, w);
                 (Demo.frame 0%Z 0x113%Z 140%Z, w);
                 (Demo.frame 0%Z 0x111%Z 133%Z, w)] in
   let again := [(Demo.frame 100%Z 0x111%Z 133%Z, w)] in
   let st1 := (Phase8.run (H := Demo.demo_dbc) first Phase8.initial).1 in
   let st2 := (Phase8.run (H := Demo.demo_dbc) again st1).1 in
   Phase8.drift_history st2
     = [(0.0, 0.69999999999999929); (0.1, 0.69999999999999929)] /\
   Phase8.ewma_delta_a st1 = Some 0.69999999999999929 /\
   Phase8.ewma_delta_a st2 = Some 0.6999999999999994 /\
   (0.6999999999999994 =? 0.69999999999999929) = false) /\
  (let first := [(Demo.frame 0%Z 0x112%Z 140%Z, 100.0);
                 (Demo.frame 0%Z 0x113%Z 140%Z, 100.0);
                 (Demo.frame 0%Z 0x111%Z 137%Z, 100.0)] in
   let again := [(Demo.frame 100%Z 0x111%Z 137%Z, 100.1)] in
   let st1 := (Phase7.run (H := Demo.demo_dbc) first Phase7.initial).1 in
   let st2 := (Phase7.run (H := Demo.demo_dbc) again st1).1 in
   map (fun e : Phase7.Sample => e.1.1.2) (Phase7.window st2)
     = [0.29999999999999893; 0.29999999999999893] /\
   Phase7.ewma_deltaA st1 = Some 0.29999999999999893 /\
   Phase7.ewma_deltaA st2 = Some 0.29999999999999899 /\
   (0.29999999999999899 =? 0.29999999999999893) = false).
Proof. cbv zeta. repeat split; vm_compute; reflexivity. Qed.

(** C7, amended. After the first metric sample the EWMA equals that
    sample's value exactly.  When the EWMA is [e], the next sample [x] sets
    it to [EWMA_ALPHA * x + (1.0 - EWMA_ALPHA) * e] evaluated in binary64; for
    [x = e = v] this expression equals [v] in exact arithmetic (for any
    alpha, and hence after any number of identical samples), but in binary64
    it is [v] only up to rounding. *)
Theorem ewma_first_sample_and_blend :
  (forall ts a d st,
      Phase8.ewma_delta_a
        (final_state (Phase8.update_drift ts a d st)) =
      Some match Phase8.ewma_delta_a st with
           | None => d - a
           | Some e => Phase8.EWMA_ALPHA * (d - a)
                       + (1.0 - Phase8.EWMA_ALPHA) * e
           end) /\
  (forall t st v_d v_a v_b,
      Phase7.V_D st = Some v_d -> Phase7.V_A st = Some v_a ->
      Phase7.V_B st = Some v_b ->
      let st' := final_state (Phase7.update_stats_and_rules t st) in
      Phase7.ewma_deltaA st' =
        Some match Phase7.ewma_deltaA st with
             | None => v_d - v_a
             | Some e => Phase7.EWMA_ALPHA * (v_d - v_a)
                         + (1.0 - Phase7.EWMA_ALPHA) * e
             end /\
      (Phase7.ewma_deltaA st = None ->
       Phase7.ewma_deltaB st' = Some (v_d - v_b)) /\
      (forall e, Phase7.ewma_deltaA st <> None ->
                 Phase7.ewma_deltaB st = Some e ->
                 Phase7.ewma_deltaB st' =
                   Some (Phase7.EWMA_ALPHA * (v_d - v_b)
                         + (1.0 - Phase7.EWMA_ALPHA) * e))) /\
  (forall (alpha v : Q) (n : nat),
      (Nat.iter n (ewma_blend_exact alpha v) v == v)%Q).
Proof.
  split; [|split].
  - intros ts a d st. rewrite p8_update_drift_run. reflexivity.
  - intros t st v_d v_a v_b HD HA HB. cbv zeta.
    rewrite (p7_update_final_state t st v_d v_a v_b HD HA HB).
    unfold Phase7.updated. cbv zeta.
    cbn [Phase7.ewma_deltaA Phase7.ewma_deltaB].
    split; [reflexivity|]. split.
    + intros ->. reflexivity.
    + intros e Hne ->. destruct (Phase7.ewma_deltaA st); [reflexivity|].
      contradiction.
  - intros alpha v n. induction n as [|n IH]; [reflexivity|].
    simpl. unfold ewma_blend_exact in *. rewrite IH. ring.
Qed.

Lemma ewma_first_sample_and_blend_witness :
  let st0 := Phase7.mkState (Some 13.1) (Some 14.0) (Some 14.0) 3%Z 3%Z
                            [] None None in
  let st' := final_state (Phase7.update_stats_and_rules 100.0 st0) in
  Phase7.ewma_deltaA st' = Some (14.0 - 13.1) /\
  Phase7.ewma_deltaB st' = Some (14.0 - 14.0).
Proof.
  cbv zeta.
  destruct (proj1 (proj2 ewma_first_sample_and_blend) 100.0
              (Phase7.mkState (Some 13.1) (Some 14.0) (Some 14.0) 3%Z 3%Z
                              [] None None)
              14.0 13.1 14.0 eq_refl eq_refl eq_refl) as (HA & HB & _).
  split; [exact HA | exact (HB eq_refl)].
Defined.

End Ewma.

(* ===================================================================== *)
(** * Per-frame error containment (C10)                                   *)
(* ===================================================================== *)

Section Containment.
Context `{Dbc}.

(** C10. A frame (eight payload bytes) whose identifier is unknown to the
    catalog, or whose payload makes [decode] raise, does not raise out of
    the handler, produces no event, and leaves every global but the
    frames-seen counter as it was: live values, EWMA state, sliding window,
    counters of decoded frames and throttle state.  (Phase 8 prints
    nothing; Phase 7 prints its decode-error log line in the second case.) *)
Theorem frame_error_containment (f : Frame) :
  payload_ok f ->
  (Phase8.dropped f ->
   forall world st,
     Phase8.can_frame_v0 f world st =
     (Phase8.set_frames_seen_window (Phase8.frames_seen_window st + 1) st,
      [], Ok tt)) /\
  (Phase7.dropped f ->
   forall now st,
     result (Phase7.can_frame_v0 f now st) = Ok tt /\
     List.filter Phase7.is_event (output (Phase7.can_frame_v0 f now st)) = [] /\
     final_state (Phase7.can_frame_v0 f now st) =
       Phase7.set_frames_seen (Phase7.frames_seen st + 1) st).
Proof.
  intros Hp. split.
  - intros Hd world st. unfold Phase8.can_frame_v0.
    rewrite (py_bytes_ok f Hp). py_run.
    destruct Hd as [-> | (msg & -> & ->)]; reflexivity.
  - intros Hd now st. unfold Phase7.can_frame_v0.
    rewrite (py_bytes_ok f Hp). py_run.
    destruct Hd as [-> | (msg & -> & ->)]; repeat split; reflexivity.
Qed.

End Containment.

(** An unknown identifier (0x200) with the demo catalog, and a known one
    (0x111) with a decoder that rejects the payload. *)
Lemma frame_error_containment_witness :
  (forall world st,
      Phase8.can_frame_v0 (H := Demo.demo_dbc) (Demo.frame 0 0x200 130) world st =
      (Phase8.set_frames_seen_window (Phase8.frames_seen_window st + 1) st,
       [], Ok tt)) /\
  (forall now st,
      result (Phase7.can_frame_v0 (H := Demo.failing_dbc)
                (Demo.frame 0 0x111 130) now st) = Ok tt /\
      List.filter Phase7.is_event
        (output (Phase7.can_frame_v0 (H := Demo.failing_dbc)
                   (Demo.frame 0 0x111 130) now st)) = [] /\
      final_state (Phase7.can_frame_v0 (H := Demo.failing_dbc)
                     (Demo.frame 0 0x111 130) now st) =
        Phase7.set_frames_seen (Phase7.frames_seen st + 1) st).
Proof.
  split.
  - apply (proj1 (frame_error_containment (H := Demo.demo_dbc)
                    (Demo.frame 0 0x200 130)
                    ltac:(repeat constructor; vm_compute; discriminate))).
    left. vm_compute. reflexivity.
  - apply (proj2 (frame_error_containment (H := Demo.failing_dbc)
                    (Demo.frame 0 0x111 130)
                    ltac:(repeat constructor; vm_compute; discriminate))).
    right. exists Demo.ECU_A_STATUS. split; vm_compute; reflexivity.
Defined.

(* ===================================================================== *)
(** * Phase 8: a frame through the handler                                *)
(* ===================================================================== *)

Section Phase8Handler.
Context `{Dbc}.
Import Phase8 Phase8Views.
Local Open Scope float_scope.

Lemma py_bytes_bad {S O} (f : Frame) :
  ~ payload_ok f ->
  (py_bytes [b0 f; b1 f; b2 f; b3 f; b4 f; b5 f; b6 f; b7 f] : Py S O (list Z))
  = raise ValueError.
Proof.
  intros Hp. unfold py_bytes.
  destruct (forallb _ _) eqn:E; [|reflexivity].
  exfalso. apply Hp. unfold payload_ok. apply Forall_forall. intros b Hb.
  rewrite forallb_forall in E. apply list_elem_of_In in Hb.
  specialize (E b Hb). apply andb_true_iff in E as [E1 E2].
  apply Z.leb_le in E1. apply Z.ltb_lt in E2. lia.
Qed.

Lemma payload_ok_dec (f : Frame) : payload_ok f \/ ~ payload_ok f.
Proof.
  unfold payload_ok.
  destruct (decide (Forall (fun b => 0 <= b < 256)%Z (payload f))); tauto.
Qed.

(** The catalog holds the three messages only, each under its own id. *)
Lemma p8_lookup_cases k msg :
  id_to_msg !! k = Some msg ->
  frame_id msg = k /\ (msg = msg_a \/ msg = msg_b \/ msg = msg_dcdc).
Proof.
  unfold id_to_msg. intros Hl.
  apply lookup_insert_Some in Hl as [[<- <-] | [_ Hl]]; [tauto|].
  apply lookup_insert_Some in Hl as [[<- <-] | [_ Hl]]; [tauto|].
  apply lookup_singleton_Some in Hl as [<- <-]. tauto.
Qed.

Lemma p8_signal_of_known k msg :
  id_to_msg !! k = Some msg -> is_Some (signal_of msg).
Proof.
  intros Hl. destruct (p8_lookup_cases k msg Hl) as [_ Hm].
  unfold signal_of. repeat case_decide; eauto. tauto.
Qed.

(** What one call of the handler does, case by case. *)
Lemma p8_frame_cases f world st :
  (~ payload_ok f /\ can_frame_v0 f world st = (seen st, [], Raise ValueError))
  \/ (payload_ok f /\ dropped f /\ can_frame_v0 f world st = (seen st, [], Ok tt))
  \/ exists msg decoded name,
       payload_ok f /\ id_to_msg !! can_id f = Some msg /\
       decode msg (payload f) = Some decoded /\ signal_of msg = Some name /\
       match decoded !! name with
       | None => can_frame_v0 f world st = (counted st, [], Raise KeyError)
       | Some v =>
           can_frame_v0 f world st
           = evaluate_and_push (ts_mcu_ms f) world (stored msg v (counted st))
       end.
Proof.
  destruct (payload_ok_dec f) as [Hp|Hp].
  2:{ left. split; [exact Hp|]. unfold can_frame_v0. py_run.
      rewrite (py_bytes_bad f Hp). py_run. reflexivity. }
  right. unfold can_frame_v0. py_run. rewrite (py_bytes_ok f Hp). py_run.
  unfold dropped.
  destruct (id_to_msg !! can_id f) as [msg|] eqn:Hl;
    [|left; split; [exact Hp|]; split; [left|]; reflexivity].
  destruct (decode msg (payload f)) as [decoded|] eqn:Hd;
    [|left; split; [exact Hp|]; split; [right; eauto|reflexivity]].
  right. destruct (p8_signal_of_known _ _ Hl) as [name Hn].
  exists msg, decoded, name.
  repeat (split; [first [assumption | reflexivity]|]).
  py_run. cbv zeta. revert Hn. unfold signal_of, stored, subscript.
  repeat case_decide; intros [= <-];
    destruct (decoded !! _) as [v|]; py_run; reflexivity.
Qed.

(** Evaluation and push: nothing happens while a voltage is missing;
    otherwise the drift state is updated and the events are pushed. *)
Lemma p8_evaluate_and_push_missing ts world st :
  ECU_A (latest_voltages st) = None \/ ECU_B (latest_voltages st) = None \/
  DCDC (latest_voltages st) = None ->
  evaluate_and_push ts world st = (st, [], Ok tt).
Proof.
  intros Hm. unfold evaluate_and_push.
  rewrite (bind_returns _ _ _ _ _ (p8_evaluate_rules_missing ts st Hm)).
  reflexivity.
Qed.

Lemma p8_evaluate_and_push_run ts world st a b d :
  ECU_A (latest_voltages st) = Some a -> ECU_B (latest_voltages st) = Some b ->
  DCDC (latest_voltages st) = Some d ->
  evaluate_and_push ts world st
  = push_events 0
      (threshold_events a b d
       ++ drift_events
            (ewma_delta_a (drift_updated ts a d st),
             endpoint_trend (drift_history (drift_updated ts a d st)))
            a b d)
      world (drift_updated ts a d st).
Proof.
  intros HA HB HD. unfold evaluate_and_push.
  rewrite (bind_returns _ _ _ _ _ (p8_evaluate_rules_run ts st a b d HA HB HD)).
  reflexivity.
Qed.

(** One step of the push loop. *)
Lemma p8_push_events_cons i ev rest world st :
  push_events i (ev :: rest) world st
  = (print (EVENT ev) ;;
     send_event_to_sheets ev (world i).1 (world i).2 ;;
     push_events (S i) rest world) st.
Proof. reflexivity. Qed.

(** The push loop raises only where the handler of [HTTPError] does. *)
Lemma p8_send_result event now x st e :
  result (send_event_to_sheets event now x st) = Raise e ->
  e = OtherError /\ x = HTTPErrorUnreadable.
Proof.
  rewrite p8_send_run. destruct (_ <? _); [discriminate|].
  destruct x as [status|code| |]; try discriminate.
  - destruct (status =? 200)%Z; discriminate.
  - intros [= <-]. split; reflexivity.
Qed.

Lemma p8_push_events_result i events world st e :
  result (push_events i events world st) = Raise e ->
  e = OtherError /\ exists j, (world j).2 = HTTPErrorUnreadable.
Proof.
  revert i st. induction events as [|ev rest IH]; intros i st; [discriminate|].
  rewrite p8_push_events_cons, bind_print. unfold result at 1. cbn [snd].
  fold (result (bind
                  (send_event_to_sheets ev (world i).1 (world i).2)
                  (fun _ => push_events (S i) rest world) st)).
  rewrite result_bind.
  destruct (result (send_event_to_sheets ev (world i).1 (world i).2 st))
    as [[]|e'] eqn:Hs.
  - apply IH.
  - intros [= <-]. destruct (p8_send_result _ _ _ _ _ Hs) as [-> Hx].
    split; [reflexivity | exists i; exact Hx].
Qed.

(** Evaluation and push touch the drift state and the throttle map only. *)
Lemma p8_evaluate_and_push_frame ts world st :
  let st' := final_state (evaluate_and_push ts world st) in
  latest_voltages st' = latest_voltages st /\
  frames_seen_window st' = frames_seen_window st /\
  frames_decoded_window st' = frames_decoded_window st.
Proof.
  destruct (ECU_A (latest_voltages st)) as [a|] eqn:HA;
    [|rewrite p8_evaluate_and_push_missing by tauto; repeat split].
  destruct (ECU_B (latest_voltages st)) as [b|] eqn:HB;
    [|rewrite p8_evaluate_and_push_missing by tauto; repeat split].
  destruct (DCDC (latest_voltages st)) as [d|] eqn:HD;
    [|rewrite p8_evaluate_and_push_missing by tauto; repeat split].
  rewrite (p8_evaluate_and_push_run ts world st a b d HA HB HD). cbv zeta.
  match goal with
  | |- context [push_events 0 ?evs world ?s] =>
      destruct (p8_push_events_frame 0 evs world s) as (-> & -> & -> & _)
  end.
  repeat split.
Qed.

(** The voltages after a frame: as before, or with the entry of the frame's
    message assigned. *)
Lemma p8_frame_voltages f world st :
  let st' := final_state (can_frame_v0 f world st) in
  latest_voltages st' = latest_voltages st \/
  exists msg v, id_to_msg !! can_id f = Some msg /\
                latest_voltages st' = latest_voltages (stored msg v st).
Proof.
  cbv zeta.
  destruct (p8_frame_cases f world st)
    as [[_ ->] | [(_ & _ & ->) | (msg & decoded & name & _ & Hl & _ & _ & Hc)]];
    [left; reflexivity | left; reflexivity |].
  destruct (decoded !! name) as [v|]; rewrite Hc; [|left; reflexivity].
  right. exists msg, v. split; [exact Hl|].
  destruct (p8_evaluate_and_push_frame (ts_mcu_ms f) world
              (stored msg v (counted st))) as (-> & _).
  unfold stored. repeat case_decide; reflexivity.
Qed.

(** The counters after a frame: every call counts one frame seen, and one
    frame decoded exactly when the frame passed [msg.decode]. *)
Lemma p8_frame_counters f world st :
  let st' := final_state (can_frame_v0 f world st) in
  frames_seen_window st' = (frames_seen_window st + 1)%Z /\
  ((decodes f /\ frames_decoded_window st' = (frames_decoded_window st + 1)%Z)
   \/ (~ decodes f /\ frames_decoded_window st' = frames_decoded_window st)).
Proof.
  cbv zeta.
  destruct (p8_frame_cases f world st)
    as [[Hp ->] | [(Hp & Hdrop & ->)
                  | (msg & decoded & name & Hp & Hl & Hd & _ & Hc)]].
  - split; [reflexivity|]. right. split; [|reflexivity].
    intros [Hp' _]. exact (Hp Hp').
  - split; [reflexivity|]. right. split; [|reflexivity].
    intros (_ & msg & decoded & Hl & Hd).
    destruct Hdrop as [Hn | (msg' & Hl' & Hd')]; congruence.
  - assert (Hdec : decodes f) by (split; [exact Hp | eauto]).
    destruct (decoded !! name) as [v|]; rewrite Hc.
    + destruct (p8_evaluate_and_push_frame (ts_mcu_ms f) world
                  (stored msg v (counted st))) as (_ & -> & ->).
      unfold stored. repeat case_decide; (split; [reflexivity|left; split;
        [exact Hdec | reflexivity]]).
    + split; [reflexivity|]. left. split; [exact Hdec | reflexivity].
Qed.

Lemma p8_run_cons f world rest st :
  run ((f, world) :: rest) st
  = ((run rest (final_state (can_frame_v0 f world st))).1,
     output (can_frame_v0 f world st)
     ++ (run rest (final_state (can_frame_v0 f world st))).2).
Proof.
  simpl. unfold final_state, output.
  destruct (can_frame_v0 f world st) as [[st1 out1] r]. simpl.
  destruct (run rest st1) as [st2 out2]. reflexivity.
Qed.

(** What every frame preserves holds after every run. *)
Lemma p8_run_invariant (I : State -> Prop) :
  (forall f world st, I st -> I (final_state (can_frame_v0 f world st))) ->
  forall inputs st, I st -> I (run inputs st).1.
Proof.
  intros Hstep inputs. induction inputs as [|[f world] rest IH]; intros st Hst.
  - exact Hst.
  - rewrite p8_run_cons. apply IH, Hstep, Hst.
Qed.

End Phase8Handler.

(* ===================================================================== *)
(** * Phase 8: what the handler guarantees                                *)
(* ===================================================================== *)

Section Phase8Guarantees.
Context `{Dbc}.
Import Phase8 Phase8Views.
Local Open Scope float_scope.

Lemma p8_carries_signal_iff f msg decoded name :
  id_to_msg !! can_id f = Some msg ->
  decode msg (payload f) = Some decoded ->
  signal_of msg = Some name ->
  carries_signal f <-> is_Some (decoded !! name).
Proof.
  intros Hl Hd Hn. split.
  - intros Hc. exact (Hc msg decoded name Hl Hd Hn).
  - intros Hs msg' decoded' name' Hl' Hd' Hn'.
    assert (msg' = msg) as -> by congruence.
    assert (decoded' = decoded) as -> by congruence.
    assert (name' = name) as -> by congruence.
    exact Hs.
Qed.

Lemma p8_dropped_carries_signal f : dropped f -> carries_signal f.
Proof.
  intros [Hn | (msg & Hl & Hd)] msg' decoded' name' Hl' Hd' _; congruence.
Qed.

Lemma p8_evaluate_and_push_result ts world st e :
  result (evaluate_and_push ts world st) = Raise e ->
  e = OtherError /\ exists j, (world j).2 = HTTPErrorUnreadable.
Proof.
  destruct (ECU_A (latest_voltages st)) as [a|] eqn:HA;
    [|rewrite p8_evaluate_and_push_missing by tauto; discriminate].
  destruct (ECU_B (latest_voltages st)) as [b|] eqn:HB;
    [|rewrite p8_evaluate_and_push_missing by tauto; discriminate].
  destruct (DCDC (latest_voltages st)) as [d|] eqn:HD;
    [|rewrite p8_evaluate_and_push_missing by tauto; discriminate].
  rewrite (p8_evaluate_and_push_run ts world st a b d HA HB HD).
  apply p8_push_events_result.
Qed.

(** X1.  Bad frames in Phase 8.  A frame with a payload slot that is no
    byte raises [ValueError] at [bytes(..)]: it has been counted as seen,
    and nothing else is changed or printed.  A frame that passes the
    decoder but whose decoded message lacks the signal the handler
    subscripts raises [KeyError]: it has been counted as seen and as
    decoded, the voltages, the drift state and the throttle map are as they
    were, and nothing is printed. *)
Theorem phase8_bad_frame_raises (f : Frame)
    (world : nat -> float * Exchange) (st : State) :
  (~ payload_ok f ->
   can_frame_v0 f world st
   = (set_frames_seen_window (frames_seen_window st + 1) st,
      [], Raise ValueError)) /\
  (decodes f -> ~ carries_signal f ->
   can_frame_v0 f world st
   = (set_frames_decoded_window (frames_decoded_window st + 1)
        (set_frames_seen_window (frames_seen_window st + 1) st),
      [], Raise KeyError)).
Proof.
  destruct (p8_frame_cases f world st)
    as [[Hp E] | [(Hp & Hdrop & E)
                 | (msg & decoded & name & Hp & Hl & Hd & Hn & Hc)]].
  - split; [intros _; exact E|]. intros [Hp' _]. contradiction.
  - split; [contradiction|]. intros _ Hcs. exfalso.
    exact (Hcs (p8_dropped_carries_signal f Hdrop)).
  - split; [contradiction|]. intros _ Hcs.
    pose proof (p8_carries_signal_iff f msg decoded name Hl Hd Hn) as Hiff.
    destruct (decoded !! name) as [v|] eqn:Hv; [|exact Hc].
    exfalso. apply Hcs, Hiff. eauto.
Qed.

(** ** The throttle map *)

Lemma p8_send_keys event now x st k :
  is_Some (last_sheet_send (final_state (send_event_to_sheets event now x st)) !! k) ->
  is_Some (last_sheet_send st !! k) \/ k = key_of event.
Proof.
  rewrite p8_send_run. destruct (_ <? _); [tauto|].
  destruct x as [status|code| |]; try tauto.
  destruct (status =? 200)%Z; [|tauto].
  cbn [final_state fst last_sheet_send set_last_sheet_send].
  destruct (decide (k = key_of event)) as [->|Hne]; [tauto|].
  rewrite lookup_insert_ne by congruence. tauto.
Qed.

Lemma p8_push_events_keys i events world st k :
  is_Some (last_sheet_send (final_state (push_events i events world st)) !! k) ->
  is_Some (last_sheet_send st !! k) \/ k ∈ map key_of events.
Proof.
  revert i st. induction events as [|ev rest IH]; intros i st; [tauto|].
  rewrite p8_push_events_cons, bind_print. cbn [final_state fst].
  fold (final_state (bind
                  (send_event_to_sheets ev (world i).1 (world i).2)
                  (fun _ => push_events (S i) rest world) st)).
  rewrite final_state_bind. cbn [map].
  destruct (result (send_event_to_sheets ev (world i).1 (world i).2 st)).
  - intros Hk. apply IH in Hk as [Hk|Hk].
    + apply p8_send_keys in Hk as [Hk| ->]; [tauto|]. right. left.
    + right. right. exact Hk.
  - intros Hk. apply p8_send_keys in Hk as [Hk| ->]; [tauto|]. right. left.
Qed.

Lemma p8_events_keys a b d r :
  Forall (fun k => k ∈ rule_keys)
         (map key_of (threshold_events a b d ++ drift_events r a b d)).
Proof.
  rewrite map_app. apply Forall_app. split.
  - unfold threshold_events. cbv zeta.
    destruct ((DCDC_OK_MIN_V <=? d) && (d <=? DCDC_OK_MAX_V)); [|constructor].
    repeat match goal with |- context [if ?c then _ else _] => destruct c end;
      simpl; repeat constructor.
  - unfold drift_events. destruct r as [[ewma|] [trend|]]; try constructor.
    destruct (_ && _); repeat constructor.
Qed.

Lemma p8_frame_keys f world st :
  (forall k, is_Some (last_sheet_send st !! k) -> k ∈ rule_keys) ->
  forall k, is_Some (last_sheet_send (final_state (can_frame_v0 f world st)) !! k) ->
            k ∈ rule_keys.
Proof.
  intros Hst k.
  destruct (p8_frame_cases f world st)
    as [[_ ->] | [(_ & _ & ->) | (msg & decoded & name & _ & _ & _ & _ & Hc)]];
    [apply Hst | apply Hst |].
  destruct (decoded !! name) as [v|]; rewrite Hc; [|apply Hst].
  set (st1 := stored msg v (counted st)).
  assert (Hst1 : last_sheet_send st1 = last_sheet_send st)
    by (unfold st1, stored; repeat case_decide; reflexivity).
  destruct (ECU_A (latest_voltages st1)) as [a|] eqn:HA;
    [|rewrite p8_evaluate_and_push_missing by tauto;
      cbn [final_state fst]; rewrite Hst1; apply Hst].
  destruct (ECU_B (latest_voltages st1)) as [b|] eqn:HB;
    [|rewrite p8_evaluate_and_push_missing by tauto;
      cbn [final_state fst]; rewrite Hst1; apply Hst].
  destruct (DCDC (latest_voltages st1)) as [d|] eqn:HD;
    [|rewrite p8_evaluate_and_push_missing by tauto;
      cbn [final_state fst]; rewrite Hst1; apply Hst].
  rewrite (p8_evaluate_and_push_run _ world st1 a b d HA HB HD).
  intros Hk. apply p8_push_events_keys in Hk as [Hk|Hk].
  - apply Hst. rewrite <- Hst1. exact Hk.
  - pose proof (p8_events_keys a b d
      (ewma_delta_a (drift_updated (ts_mcu_ms f) a d st1),
       endpoint_trend (drift_history (drift_updated (ts_mcu_ms f) a d st1))))
      as Hall.
    rewrite Forall_forall in Hall. apply Hall, Hk.
Qed.

(** X2.  The throttle map stays small: whatever frames arrive and whatever
    the webhook answers, the only keys [last_sheet_send] ever holds are the
    four (level, harness, rule) triples of the rule set. *)
Theorem phase8_throttle_keys_bounded
    (inputs : list (Frame * (nat -> float * Exchange))) (k : Key) :
  is_Some (last_sheet_send (run inputs initial).1 !! k) -> k ∈ rule_keys.
Proof.
  revert k.
  apply (p8_run_invariant
           (fun st => forall k, is_Some (last_sheet_send st !! k) -> k ∈ rule_keys)).
  - intros f world st Hst. apply p8_frame_keys, Hst.
  - intros k [v Hv]. unfold initial in Hv. cbn [last_sheet_send] in Hv.
    rewrite lookup_empty in Hv. discriminate.
Qed.

End Phase8Guarantees.

(** Three frames (ECU A 13.0 V, ECU B 13.9 V, DCDC 14.0 V) whose alert the
    webhook accepts: the key of the alert is in the map. *)
Lemma phase8_throttle_keys_bounded_witness :
  Phase8.key_of Demo.alert_a ∈ Phase8Views.rule_keys.
Proof.
  apply (phase8_throttle_keys_bounded (H := Demo.demo_dbc)
           [(Demo.frame 1000 0x111 130, Demo.always 1000.0 (Phase8.Responds 200));
            (Demo.frame 1010 0x112 139, Demo.always 1000.0 (Phase8.Responds 200));
            (Demo.frame 1020 0x113 140, Demo.always 1000.0 (Phase8.Responds 200))]).
  vm_compute. eauto.
Defined.

Section Phase8Voltages.
Context `{Dbc}.
Import Phase8 Phase8Views.
Local Open Scope float_scope.

(** A frame whose id is not that of a message leaves the entry of that
    message alone. *)
Lemma p8_frame_other_message f world st :
  let st' := final_state (can_frame_v0 f world st) in
  (can_id f <> frame_id msg_a ->
   ECU_A (latest_voltages st') = ECU_A (latest_voltages st)) /\
  (can_id f <> frame_id msg_b ->
   ECU_B (latest_voltages st') = ECU_B (latest_voltages st)) /\
  (can_id f <> frame_id msg_dcdc ->
   DCDC (latest_voltages st') = DCDC (latest_voltages st)).
Proof.
  cbv zeta.
  destruct (p8_frame_voltages f world st) as [-> | (msg & v & Hl & ->)];
    [tauto|].
  destruct (p8_lookup_cases _ _ Hl) as [Hid _].
  unfold stored. repeat case_decide; subst; cbn; intuition congruence.
Qed.

(** An entry that holds a voltage keeps holding one. *)
Lemma p8_frame_keeps_known f world st :
  let st' := final_state (can_frame_v0 f world st) in
  (is_Some (ECU_A (latest_voltages st)) -> is_Some (ECU_A (latest_voltages st'))) /\
  (is_Some (ECU_B (latest_voltages st)) -> is_Some (ECU_B (latest_voltages st'))) /\
  (is_Some (DCDC (latest_voltages st)) -> is_Some (DCDC (latest_voltages st'))).
Proof.
  cbv zeta.
  destruct (p8_frame_voltages f world st) as [-> | (msg & v & Hl & ->)];
    [tauto|].
  unfold stored. repeat case_decide; cbn; eauto.
Qed.

(** X3.  Each entry of [latest_voltages] belongs to one message: a frame
    with another CAN id leaves it as it was, and no frame ever puts [None]
    back into an entry that holds a voltage. *)
Theorem phase8_voltage_written_by_own_message (f : Frame)
    (world : nat -> float * Exchange) (st : State) :
  let st' := final_state (can_frame_v0 f world st) in
  ((can_id f <> frame_id msg_a ->
    ECU_A (latest_voltages st') = ECU_A (latest_voltages st)) /\
   (can_id f <> frame_id msg_b ->
    ECU_B (latest_voltages st') = ECU_B (latest_voltages st)) /\
   (can_id f <> frame_id msg_dcdc ->
    DCDC (latest_voltages st') = DCDC (latest_voltages st))) /\
  ((is_Some (ECU_A (latest_voltages st)) ->
    is_Some (ECU_A (latest_voltages st'))) /\
   (is_Some (ECU_B (latest_voltages st)) ->
    is_Some (ECU_B (latest_voltages st'))) /\
   (is_Some (DCDC (latest_voltages st)) ->
    is_Some (DCDC (latest_voltages st')))).
Proof.
  split; [apply p8_frame_other_message | apply p8_frame_keeps_known].
Qed.

(** While an entry is empty the handler prints nothing. *)
Lemma p8_frame_quiet f world st :
  let st' := final_state (can_frame_v0 f world st) in
  ECU_A (latest_voltages st') = None \/ ECU_B (latest_voltages st') = None \/
  DCDC (latest_voltages st') = None ->
  output (can_frame_v0 f world st) = [].
Proof.
  cbv zeta.
  destruct (p8_frame_cases f world st)
    as [[_ ->] | [(_ & _ & ->) | (msg & decoded & name & _ & _ & _ & _ & Hc)]];
    [reflexivity | reflexivity |].
  destruct (decoded !! name) as [v|]; rewrite Hc; [|reflexivity].
  set (st1 := stored msg v (counted st)).
  destruct (p8_evaluate_and_push_frame (ts_mcu_ms f) world st1) as (-> & _).
  intros Hm. rewrite (p8_evaluate_and_push_missing _ _ _ Hm). reflexivity.
Qed.

Lemma p8_run_quiet inputs st :
  (ECU_A (latest_voltages st) = None /\
   Forall (fun i : Frame * (nat -> float * Exchange) =>
             can_id i.1 <> frame_id msg_a) inputs)
  \/ (ECU_B (latest_voltages st) = None /\
      Forall (fun i : Frame * (nat -> float * Exchange) =>
                can_id i.1 <> frame_id msg_b) inputs)
  \/ (DCDC (latest_voltages st) = None /\
      Forall (fun i : Frame * (nat -> float * Exchange) =>
                can_id i.1 <> frame_id msg_dcdc) inputs) ->
  (run inputs st).2 = [].
Proof.
  revert st. induction inputs as [|[f world] rest IH]; intros st Hq;
    [reflexivity|].
  rewrite p8_run_cons. cbn [snd].
  destruct (p8_frame_other_message f world st) as (HA & HB & HD).
  assert (Hq' :
    (ECU_A (latest_voltages (final_state (can_frame_v0 f world st))) = None /\
     Forall (fun i : Frame * (nat -> float * Exchange) =>
               can_id i.1 <> frame_id msg_a) rest)
    \/ (ECU_B (latest_voltages (final_state (can_frame_v0 f world st))) = None /\
        Forall (fun i : Frame * (nat -> float * Exchange) =>
                  can_id i.1 <> frame_id msg_b) rest)
    \/ (DCDC (latest_voltages (final_state (can_frame_v0 f world st))) = None /\
        Forall (fun i : Frame * (nat -> float * Exchange) =>
                  can_id i.1 <> frame_id msg_dcdc) rest)).
  { destruct Hq as [[Hn Hall] | [[Hn Hall] | [Hn Hall]]];
      apply Forall_cons in Hall as [Hf Hall]; cbn [fst] in Hf;
      [left | right; left | right; right]; (split; [|exact Hall]).
    - rewrite (HA Hf). exact Hn.
    - rewrite (HB Hf). exact Hn.
    - rewrite (HD Hf). exact Hn. }
  rewrite (IH _ Hq'), app_nil_r.
  apply p8_frame_quiet. tauto.
Qed.

(** X4.  Nothing is reported before every source has been heard: from the
    initial state, as long as the frames of one of the three messages are
    missing from the input, the handler prints no line at all (so it
    raises no event and pushes nothing). *)
Theorem phase8_silent_until_all_three
    (inputs : list (Frame * (nat -> float * Exchange))) :
  Forall (fun i => can_id i.1 <> frame_id msg_a) inputs
  \/ Forall (fun i => can_id i.1 <> frame_id msg_b) inputs
  \/ Forall (fun i => can_id i.1 <> frame_id msg_dcdc) inputs ->
  (run inputs initial).2 = [].
Proof.
  intros Hq. apply p8_run_quiet.
  destruct Hq as [Hq | [Hq | Hq]];
    [left | right; left | right; right]; (split; [reflexivity | exact Hq]).
Qed.

End Phase8Voltages.

(** ECU A and the DCDC report a 1.3 V gap again and again, ECU B is
    silent: nothing is printed. *)
Lemma phase8_silent_until_all_three_witness :
  (Phase8.run (H := Demo.demo_dbc)
     [(Demo.frame 1000 0x111 127, Demo.always 1000.0 (Phase8.Responds 200));
      (Demo.frame 1010 0x113 140, Demo.always 1000.0 (Phase8.Responds 200));
      (Demo.frame 1020 0x111 127, Demo.always 1000.0 (Phase8.Responds 200))]
     Phase8.initial).2 = [].
Proof.
  apply (phase8_silent_until_all_three (H := Demo.demo_dbc)).
  right. left. repeat constructor; vm_compute; discriminate.
Defined.

(* ===================================================================== *)
(** * Phase 7: a frame through the handler                                *)
(* ===================================================================== *)

Section Phase7Handler.
Context `{Dbc}.
Import Phase7 Phase7Views.
Local Open Scope float_scope.

(** A message found under an id carries that id. *)
Lemma p7_lookup_frame_id k msg :
  MESSAGE_BY_ID !! k = Some msg -> frame_id msg = k.
Proof.
  unfold MESSAGE_BY_ID.
  assert (Hgen : forall (l : list Message) (m : gmap Z Message),
            (forall k msg, m !! k = Some msg -> frame_id msg = k) ->
            forall k msg,
              foldl (fun m msg => <[frame_id msg := msg]> m) m l !! k = Some msg ->
              frame_id msg = k).
  { induction l as [|x l IH]; intros m Hm k' msg'; [apply Hm|].
    simpl. apply IH. intros k2 msg2 Hl.
    apply lookup_insert_Some in Hl as [[<- <-] | [_ Hl]];
      [reflexivity | exact (Hm _ _ Hl)]. }
  apply Hgen. intros k' msg' Hl. rewrite lookup_empty in Hl. discriminate.
Qed.

(** What one call of the handler does, case by case. *)
Lemma p7_frame_cases f now st :
  (~ payload_ok f /\ can_frame_v0 f now st = (seen st, [], Raise ValueError))
  \/ (payload_ok f /\ MESSAGE_BY_ID !! can_id f = None /\
      can_frame_v0 f now st = (seen st, [], Ok tt))
  \/ (exists msg,
        payload_ok f /\ MESSAGE_BY_ID !! can_id f = Some msg /\
        decode msg (payload f) = None /\
        can_frame_v0 f now st = (seen st, [DECODE_ERROR (can_id f)], Ok tt))
  \/ exists msg decoded,
       payload_ok f /\ MESSAGE_BY_ID !! can_id f = Some msg /\
       decode msg (payload f) = Some decoded /\
       match signal_of msg with
       | None => can_frame_v0 f now st = maybe_update now (counted st)
       | Some name =>
           match decoded !! name with
           | None => can_frame_v0 f now st = (counted st, [], Raise TypeError)
           | Some v =>
               can_frame_v0 f now st
               = maybe_update now (stored msg v (counted st))
           end
       end.
Proof.
  destruct (payload_ok_dec f) as [Hp|Hp].
  2:{ left. split; [exact Hp|]. unfold can_frame_v0. py_run.
      rewrite (py_bytes_bad f Hp). py_run. reflexivity. }
  right. unfold can_frame_v0. py_run. rewrite (py_bytes_ok f Hp). py_run.
  destruct (MESSAGE_BY_ID !! can_id f) as [msg|] eqn:Hl;
    [|left; repeat (split; [first [assumption | reflexivity]|]); reflexivity].
  right.
  destruct (decode msg (payload f)) as [decoded|] eqn:Hd.
  2:{ left. exists msg.
      repeat (split; [first [assumption | reflexivity]|]). reflexivity. }
  right. exists msg, decoded.
  repeat (split; [first [assumption | reflexivity]|]).
  py_run. unfold signal_of, stored, maybe_update.
  destruct (frame_id msg =? ID_ECU_A)%Z;
    [|destruct (frame_id msg =? ID_ECU_B)%Z;
      [|destruct (frame_id msg =? ID_DCDC)%Z]];
    try (destruct (decoded !! _) as [v|]); py_run; reflexivity.
Qed.

(** ** When the evaluation returns *)

Lemma p7_rule_checks_result dA dB st :
  is_Some (V_A st) -> is_Some (V_B st) -> is_Some (V_D st) ->
  result (run_rule_based_harness_checks dA dB st) = Ok tt.
Proof.
  intros [a HA] [b HB] [d HD]. unfold run_rule_based_harness_checks.
  rewrite bind_get, HD, HA, HB. py_run.
  destruct (negb _); [reflexivity|].
  repeat match goal with
         | |- context [if ?c then _ else _] => destruct c
         end; py_run; reflexivity.
Qed.

Lemma p7_paired_cases st :
  paired st ->
  (exists eA eB, ewma_deltaA st = Some eA /\ ewma_deltaB st = Some eB)
  \/ (ewma_deltaA st = None /\ ewma_deltaB st = None).
Proof.
  unfold paired.
  destruct (ewma_deltaA st) as [eA|], (ewma_deltaB st) as [eB|];
    intros [H1 H2]; eauto; exfalso.
  - destruct (H1 ltac:(eauto)) as [x Hx]. discriminate.
  - destruct (H2 ltac:(eauto)) as [x Hx]. discriminate.
Qed.

Lemma p7_stat_checks_result dA dB st :
  is_Some (V_A st) -> is_Some (V_B st) -> is_Some (V_D st) -> paired st ->
  result (run_statistical_checks dA dB st) = Ok tt.
Proof.
  intros [a HA] [b HB] [d HD] Hp. unfold run_statistical_checks.
  rewrite bind_get.
  destruct (_ <? 2)%nat; [reflexivity|].
  destruct (head (window st)) as [[[[t0 a0] b0] d0]|]; [|reflexivity].
  destruct (last (window st)) as [[[[t1 a1] b1] d1]|]; [|reflexivity].
  destruct (t1 - t0 <=? 0); [reflexivity|].
  rewrite HA, HB, HD.
  destruct (p7_paired_cases st Hp) as [(eA & eB & -> & ->) | [-> ->]].
  - destruct (abs (d1 - DCDC_NOMINAL_V) <=? DCDC_TOLERANCE);
      repeat match goal with
             | |- context [if ?c then _ else _] => destruct c
             end; py_run; reflexivity.
  - py_run. reflexivity.
Qed.

Lemma p7_updated_paired t v_d v_a v_b st :
  paired st -> paired (updated t v_d v_a v_b st).
Proof.
  intros Hp. unfold paired, updated. cbv zeta. cbn [ewma_deltaA ewma_deltaB].
  destruct (p7_paired_cases st Hp) as [(eA & eB & EA & EB) | [EA EB]];
    rewrite ?EA, ?EB; split; eauto.
Qed.

(** With the smoothed deltas paired, the update reaches its two checks. *)
Lemma p7_update_paired t st v_d v_a v_b :
  V_D st = Some v_d -> V_A st = Some v_a -> V_B st = Some v_b -> paired st ->
  update_stats_and_rules t st =
    (run_rule_based_harness_checks (v_d - v_a) (v_d - v_b) ;;
     run_statistical_checks (v_d - v_a) (v_d - v_b)) (updated t v_d v_a v_b st).
Proof.
  intros HD HA HB Hp. unfold update_stats_and_rules, updated.
  rewrite bind_get, HD, HA, HB. py_run.
  destruct (p7_paired_cases st Hp) as [(eA & eB & EA & EB) | [EA EB]];
    rewrite EA; py_run; rewrite ?EB; py_run;
    unfold set_ewma_deltaB, set_ewma_deltaA, set_window; simpl;
    rewrite ?HD, ?HA, ?HB, ?EA, ?EB; reflexivity.
Qed.

Lemma p7_update_result t st :
  is_Some (V_A st) -> is_Some (V_B st) -> is_Some (V_D st) -> paired st ->
  result (update_stats_and_rules t st) = Ok tt /\
  paired (final_state (update_stats_and_rules t st)).
Proof.
  intros [a HA] [b HB] [d HD] Hp.
  assert (Hup : paired (updated t d a b st)) by (apply p7_updated_paired, Hp).
  rewrite (p7_update_final_state t st d a b HD HA HB).
  split; [|exact Hup].
  rewrite (p7_update_paired t st d a b HD HA HB Hp).
  assert (HVA : is_Some (V_A (updated t d a b st))) by (cbn; eauto).
  assert (HVB : is_Some (V_B (updated t d a b st))) by (cbn; eauto).
  assert (HVD : is_Some (V_D (updated t d a b st))) by (cbn; eauto).
  rewrite result_bind, p7_rule_checks_result by assumption.
  rewrite (p7_rule_checks_reads_only (d - a) (d - b)).
  apply p7_stat_checks_result; assumption.
Qed.

Lemma p7_maybe_update_result now st :
  paired st ->
  result (maybe_update now st) = Ok tt /\
  paired (final_state (maybe_update now st)).
Proof.
  intros Hp. unfold maybe_update. rewrite bind_get.
  destruct (V_A st) as [a|] eqn:HA; [|split; [reflexivity | exact Hp]].
  destruct (V_B st) as [b|] eqn:HB; [|split; [reflexivity | exact Hp]].
  destruct (V_D st) as [d|] eqn:HD; [|split; [reflexivity | exact Hp]].
  apply p7_update_result; try exact Hp; rewrite ?HA, ?HB, ?HD; eauto.
Qed.

Lemma p7_stored_paired msg v st : paired st -> paired (stored msg v (counted st)).
Proof.
  unfold stored, paired.
  repeat match goal with |- context [if ?c then _ else _] => destruct c end;
    cbn; tauto.
Qed.

(** Every frame keeps the smoothed deltas paired. *)
Lemma p7_frame_paired f now st :
  paired st -> paired (final_state (can_frame_v0 f now st)).
Proof.
  intros Hp.
  destruct (p7_frame_cases f now st)
    as [[_ ->] | [(_ & _ & ->) | [(msg & _ & _ & _ & ->)
                                 | (msg & decoded & _ & _ & _ & Hc)]]];
    try exact Hp.
  destruct (signal_of msg) as [name|].
  - destruct (decoded !! name) as [v|]; rewrite Hc; [|exact Hp].
    apply p7_maybe_update_result, p7_stored_paired, Hp.
  - rewrite Hc. apply p7_maybe_update_result. exact Hp.
Qed.

Lemma p7_run_step f now rest st :
  run ((f, now) :: rest) st
  = ((run rest (final_state (can_frame_v0 f now st))).1,
     output (can_frame_v0 f now st)
     ++ (run rest (final_state (can_frame_v0 f now st))).2).
Proof.
  simpl. unfold final_state, output.
  destruct (can_frame_v0 f now st) as [[st1 out1] r]. simpl.
  destruct (run rest st1) as [st2 out2]. reflexivity.
Qed.

(** What every frame preserves holds after every run. *)
Lemma p7_run_invariant (I : State -> Prop) :
  (forall f now st, I st -> I (final_state (can_frame_v0 f now st))) ->
  forall inputs st, I st -> I (run inputs st).1.
Proof.
  intros Hstep inputs. induction inputs as [|[f now] rest IH]; intros st Hst.
  - exact Hst.
  - rewrite p7_run_step. apply IH, Hstep, Hst.
Qed.

Lemma p7_run_paired inputs : paired (run inputs initial).1.
Proof.
  apply (p7_run_invariant paired); [apply p7_frame_paired|].
  unfold paired, initial. cbn. tauto.
Qed.

End Phase7Handler.

(* ===================================================================== *)
(** * Phase 7: what the handler guarantees                                *)
(* ===================================================================== *)

Section Phase7Guarantees.
Context `{Dbc}.
Import Phase7 Phase7Views.
Local Open Scope float_scope.

Lemma p7_carries_signal_iff f msg decoded name :
  MESSAGE_BY_ID !! can_id f = Some msg ->
  decode msg (payload f) = Some decoded ->
  signal_of msg = Some name ->
  carries_signal f <-> is_Some (decoded !! name).
Proof.
  intros Hl Hd Hn. split.
  - intros Hc. exact (Hc msg decoded name Hl Hd Hn).
  - intros Hs msg' decoded' name' Hl' Hd' Hn'.
    assert (msg' = msg) as -> by congruence.
    assert (decoded' = decoded) as -> by congruence.
    assert (name' = name) as -> by congruence.
    exact Hs.
Qed.

(** X5.  Bad frames in Phase 7.  A frame with a payload slot that is no
    byte raises [ValueError] at [bytes(..)]: it has been counted as seen,
    and nothing else is changed or printed.  A frame that passes the
    decoder but whose decoded message lacks the signal read with
    [decoded.get] raises [TypeError] at [float(None)]: it has been counted
    as seen and as decoded, the voltages, the window and the smoothed deltas
    are as they were, and nothing is printed. *)
Theorem phase7_bad_frame_raises (f : Frame) (now : float) (st : State) :
  (~ payload_ok f ->
   can_frame_v0 f now st
   = (set_frames_seen (frames_seen st + 1) st, [], Raise ValueError)) /\
  (decodes f -> ~ carries_signal f ->
   can_frame_v0 f now st
   = (set_frames_decoded (frames_decoded st + 1)
        (set_frames_seen (frames_seen st + 1) st),
      [], Raise TypeError)).
Proof.
  destruct (p7_frame_cases f now st)
    as [[Hb E] | [(Hb & Hl & E) | [(msg & Hb & Hl & Hd & E)
                                  | (msg & decoded & Hb & Hl & Hd & Hc)]]].
  - split; [intros _; exact E|]. intros [Hb' _]. contradiction.
  - split; [contradiction|]. intros (_ & msg & decoded & Hl' & _). congruence.
  - split; [contradiction|].
    intros (_ & msg' & decoded & Hl' & Hd'). congruence.
  - split; [contradiction|]. intros _ Hcs.
    destruct (signal_of msg) as [name|] eqn:Hn.
    + pose proof (p7_carries_signal_iff f msg decoded name Hl Hd Hn) as Hiff.
      destruct (decoded !! name) as [v|] eqn:Hv; [|exact Hc].
      exfalso. apply Hcs, Hiff. eauto.
    + exfalso. apply Hcs. intros msg' decoded' name' Hl' _ Hn'.
      assert (msg' = msg) as -> by congruence. congruence.
Qed.

End Phase7Guarantees.

(* ===================================================================== *)
(** * Absolute value and order on binary64                                *)
(* ===================================================================== *)

Module FloatAbs.
Import FloatOrder.

Lemma SFleb_abs c s :
  SFltb c s = true -> SFleb s (SFabs s) = true.
Proof.
  unfold SFltb, SFleb.
  destruct c as [sc|sc| |sc mc ec], s as [ss|ss| |ss ms es];
    simpl; try discriminate; intros _;
    try (destruct ss; reflexivity);
    destruct ss; simpl; try reflexivity; by_spec_cases.
Qed.

Lemma SFltb_leb a b : SFltb a b = true -> SFleb a b = true.
Proof.
  unfold SFltb, SFleb.
  destruct (SFcompare a b) as [[]|]; try discriminate; reflexivity.
Qed.

Local Open Scope float_scope.

(** A float above something is not a NaN, so its absolute value is no
    smaller than itself. *)
Lemma gt_le_abs (c x : float) : (c <? x) = true -> (x <=? abs x) = true.
Proof.
  rewrite FloatAxioms.ltb_spec, FloatAxioms.leb_spec, FloatAxioms.abs_spec.
  apply SFleb_abs.
Qed.

Lemma ltb_leb (a b : float) : (a <? b) = true -> (a <=? b) = true.
Proof.
  rewrite FloatAxioms.ltb_spec, FloatAxioms.leb_spec. apply SFltb_leb.
Qed.

(** [x > c] and [abs(x) < c'] never hold together when [c' <= c]. *)
Lemma gt_abs_lt_excl (c c' x : float) :
  (c' <=? c) = true -> (c <? x) = true -> (abs x <? c') = true -> False.
Proof.
  intros Hcc Hgt Habs.
  pose proof (gt_le_abs c x Hgt) as Hx.
  pose proof (leb_ltb_trans _ _ _ Hx Habs) as H1.   (* x < c' *)
  pose proof (leb_ltb_trans _ _ _ Hcc Hgt) as H2.   (* c' < x *)
  exact (ltb_leb_excl _ _ H1 (ltb_leb _ _ H2)).
Qed.

End FloatAbs.

Section Phase7Drift.
Import Phase7.
Local Open Scope float_scope.

(** The "other trend is flat" guard of a single-metric drift rule excludes
    the "trend is rising" guard on the same trend. *)
Lemma p7_flat_not_rising (trend : float) :
  (trend >? TREND_MIN_VPS) = true ->
  (abs trend <? TREND_MIN_VPS * 0.5) = true -> False.
Proof.
  apply FloatAbs.gt_abs_lt_excl. vm_compute. reflexivity.
Qed.

(** The three drift rules are pairwise incompatible. *)
Lemma p7_stat_checks_one_line dA dB st :
  (length (output (run_statistical_checks dA dB st)) <= 1)%nat.
Proof.
  unfold run_statistical_checks. rewrite bind_get.
  destruct (_ <? 2)%nat; [simpl; lia|].
  destruct (head (window st)) as [[[[t0 a0] b0] d0]|]; [|simpl; lia].
  destruct (last (window st)) as [[[[t1 a1] b1] d1]|]; [|simpl; lia].
  destruct (t1 - t0 <=? 0); [simpl; lia|]. cbv zeta.
  set (trendA := (a1 - a0) / (t1 - t0)). set (trendB := (b1 - b0) / (t1 - t0)).
  destruct (abs (d1 - DCDC_NOMINAL_V) <=? DCDC_TOLERANCE).
  2:{ destruct (ewma_deltaA st), (ewma_deltaB st); py_run; simpl; lia. }
  destruct (trendA >? TREND_MIN_VPS) eqn:RA;
  destruct (abs trendA <? TREND_MIN_VPS * 0.5) eqn:FA;
    try (exfalso; exact (p7_flat_not_rising _ RA FA));
  destruct (trendB >? TREND_MIN_VPS) eqn:RB;
  destruct (abs trendB <? TREND_MIN_VPS * 0.5) eqn:FB;
    try (exfalso; exact (p7_flat_not_rising _ RB FB));
  destruct (ewma_deltaA st) as [eA|], (ewma_deltaB st) as [eB|];
    rewrite ?andb_false_r, ?andb_true_r; cbn [andb];
    repeat match goal with
           | |- context [if ?c then _ else _] => destruct c
           end;
    py_run;
    try (simpl; lia);
    destruct (V_A st), (V_B st), (V_D st); py_run; simpl; lia.
Qed.

End Phase7Drift.

Section Phase7Events.
Context `{Dbc}.
Import Phase7 Phase7Views.
Local Open Scope float_scope.

Lemma p7_checks_early dA dB st :
  (length (List.filter is_early
     (output ((run_rule_based_harness_checks dA dB ;;
               run_statistical_checks dA dB) st))) <= 1)%nat.
Proof.
  rewrite output_bind, List.filter_app, length_app.
  rewrite (filter_nil_of_Forall is_early
             (output (run_rule_based_harness_checks dA dB st))).
  2:{ eapply Forall_impl; [apply p7_rule_checks_print_alerts|].
      intros l Hl. apply p7_alert_not_early, Hl. }
  destruct (result _); [|simpl; lia].
  pose proof (p7_stat_checks_one_line dA dB
                (final_state (run_rule_based_harness_checks dA dB st))) as H1.
  pose proof (filter_length_le is_early
                (output (run_statistical_checks dA dB
                   (final_state (run_rule_based_harness_checks dA dB st)))))
    as H2.
  simpl. lia.
Qed.

Lemma p7_update_early t st :
  (length (List.filter is_early (output (update_stats_and_rules t st))) <= 1)%nat.
Proof.
  destruct (V_D st) as [v_d|] eqn:HD;
    [|rewrite p7_update_missing by auto; simpl; lia].
  destruct (V_A st) as [v_a|] eqn:HA;
    [|rewrite p7_update_missing by auto; simpl; lia].
  destruct (V_B st) as [v_b|] eqn:HB;
    [|rewrite p7_update_missing by auto; simpl; lia].
  destruct (p7_update_cases t st v_d v_a v_b HD HA HB) as [-> | ->];
    [simpl; lia | apply p7_checks_early].
Qed.

Lemma filter_orb_length {A} (p q : A -> bool) (l : list A) :
  (length (List.filter (fun x => p x || q x) l)
   <= length (List.filter p l) + length (List.filter q l))%nat.
Proof.
  induction l as [|x l IH]; simpl; [lia|].
  destruct (p x), (q x); simpl; lia.
Qed.

(** What a frame prints: nothing, the decode error, or what one update
    prints. *)
Lemma p7_frame_output f now st :
  output (can_frame_v0 f now st) = []
  \/ output (can_frame_v0 f now st) = [DECODE_ERROR (can_id f)]
  \/ exists st1, output (can_frame_v0 f now st)
                 = output (update_stats_and_rules now st1).
Proof.
  assert (Hm : forall st1,
            output (maybe_update now st1) = []
            \/ output (maybe_update now st1)
               = output (update_stats_and_rules now st1)).
  { intros st1. unfold maybe_update. rewrite bind_get.
    destruct (V_A st1), (V_B st1), (V_D st1); auto. }
  destruct (p7_frame_cases f now st)
    as [[_ ->] | [(_ & _ & ->) | [(msg & _ & _ & _ & ->)
                                 | (msg & decoded & _ & _ & _ & Hc)]]];
    [left; reflexivity | left; reflexivity | right; left; reflexivity |].
  destruct (signal_of msg) as [name|].
  - destruct (decoded !! name) as [v|]; rewrite Hc; [|left; reflexivity].
    destruct (Hm (stored msg v (counted st))) as [E|E]; rewrite E; eauto.
  - rewrite Hc. destruct (Hm (counted st)) as [E|E]; rewrite E; eauto.
Qed.

(** X6.  The three drift classifications of Phase 7 exclude each other: one
    evaluation prints at most one EARLY line (a single-metric rule needs the
    other trend below half the floor, the combined rule needs it above the
    floor).  With the one ALERT line at most, a frame prints at most two
    event lines. *)
Theorem phase7_drift_classifications_exclusive :
  (forall t st,
      (length (List.filter is_early (output (update_stats_and_rules t st)))
       <= 1)%nat) /\
  (forall f now st,
      (length (List.filter is_early (output (can_frame_v0 f now st))) <= 1)%nat /\
      (length (List.filter is_event (output (can_frame_v0 f now st))) <= 2)%nat).
Proof.
  split; [exact p7_update_early|]. intros f now st.
  assert (Hboth :
    (length (List.filter is_early (output (can_frame_v0 f now st))) <= 1)%nat /\
    (length (List.filter is_alert (output (can_frame_v0 f now st))) <= 1)%nat).
  { destruct (p7_frame_output f now st) as [-> | [-> | [st1 ->]]];
      [simpl; lia | simpl; lia |].
    split; [apply p7_update_early | apply p7_update_alerts]. }
  split; [tauto|].
  pose proof (filter_orb_length is_alert is_early
                (output (can_frame_v0 f now st))) as Hor.
  unfold is_event. lia.
Qed.

End Phase7Events.

Section Phase7Voltages.
Context `{Dbc}.
Import Phase7 Phase7Views.
Local Open Scope float_scope.

(** The update touches the window and the smoothed deltas only. *)
Lemma p7_maybe_update_frame now st :
  let st' := final_state (maybe_update now st) in
  V_A st' = V_A st /\ V_B st' = V_B st /\ V_D st' = V_D st /\
  frames_seen st' = frames_seen st /\ frames_decoded st' = frames_decoded st.
Proof.
  cbv zeta. unfold maybe_update. rewrite bind_get.
  destruct (V_A st) as [a|] eqn:HA;
    [|unfold ret, final_state; cbn [fst]; rewrite ?HA; repeat split].
  destruct (V_B st) as [b|] eqn:HB;
    [|unfold ret, final_state; cbn [fst]; rewrite ?HA, ?HB; repeat split].
  destruct (V_D st) as [d|] eqn:HD;
    [|unfold ret, final_state; cbn [fst]; rewrite ?HA, ?HB, ?HD; repeat split].
  rewrite (p7_update_final_state now st d a b HD HA HB).
  unfold updated. cbn. rewrite ?HA, ?HB, ?HD. repeat split.
Qed.

Lemma p7_maybe_update_missing now st :
  V_A st = None \/ V_B st = None \/ V_D st = None ->
  maybe_update now st = (st, [], Ok tt).
Proof.
  intros Hm. unfold maybe_update. rewrite bind_get.
  destruct (V_A st), (V_B st), (V_D st); try reflexivity.
  destruct Hm as [?|[?|?]]; discriminate.
Qed.

(** The state in which a frame reaches [maybe_update], if it does. *)
Lemma p7_frame_reaches f now st :
  (final_state (can_frame_v0 f now st) = seen st /\
   Forall (fun l => is_event l = false) (output (can_frame_v0 f now st)) /\
   ~ (decodes f /\ carries_signal f))
  \/ (final_state (can_frame_v0 f now st) = counted st /\
      output (can_frame_v0 f now st) = [] /\
      decodes f /\ ~ carries_signal f)
  \/ exists st1,
       can_frame_v0 f now st = maybe_update now st1 /\
       decodes f /\ carries_signal f /\
       (st1 = counted st \/
        exists msg v, MESSAGE_BY_ID !! can_id f = Some msg /\
                      st1 = stored msg v (counted st)).
Proof.
  destruct (p7_frame_cases f now st)
    as [[Hb ->] | [(Hb & Hl & ->) | [(msg & Hb & Hl & Hd & ->)
                                   | (msg & decoded & Hb & Hl & Hd & Hc)]]].
  - left. split; [reflexivity|]. split; [constructor|].
    intros [[Hb' _] _]. exact (Hb Hb').
  - left. split; [reflexivity|]. split; [constructor|].
    intros [(_ & msg & decoded & Hl' & _) _]. congruence.
  - left. split; [reflexivity|]. split; [repeat constructor|].
    intros [(_ & msg' & decoded & Hl' & Hd') _]. congruence.
  - right. assert (Hdec : decodes f) by (split; [exact Hb | eauto]).
    destruct (signal_of msg) as [name|] eqn:Hn.
    + pose proof (p7_carries_signal_iff f msg decoded name Hl Hd Hn) as Hiff.
      destruct (decoded !! name) as [v|] eqn:Hv; rewrite Hc.
      * right. exists (stored msg v (counted st)).
        split; [reflexivity|]. split; [exact Hdec|].
        split; [apply Hiff; eauto|]. right. eauto.
      * left. split; [reflexivity|]. split; [reflexivity|].
        split; [exact Hdec|]. intros Hcs. apply Hiff in Hcs.
        destruct Hcs as [? ?]. discriminate.
    + right. exists (counted st). rewrite Hc.
      split; [reflexivity|]. split; [exact Hdec|]. split; [|left; reflexivity].
      intros msg' decoded' name' Hl' _ Hn'.
      assert (msg' = msg) as -> by congruence. congruence.
Qed.

(** A frame whose id is not that of a message leaves the voltage of that
    message alone. *)
Lemma p7_frame_other_id f now st :
  let st' := final_state (can_frame_v0 f now st) in
  (can_id f <> ID_ECU_A -> V_A st' = V_A st) /\
  (can_id f <> ID_ECU_B -> V_B st' = V_B st) /\
  (can_id f <> ID_DCDC -> V_D st' = V_D st).
Proof.
  cbv zeta.
  destruct (p7_frame_reaches f now st)
    as [(-> & _) | [(-> & _) | (st1 & -> & _ & _ & Hst1)]];
    [repeat split | repeat split |].
  destruct (p7_maybe_update_frame now st1) as (-> & -> & -> & _).
  destruct Hst1 as [-> | (msg & v & Hl & ->)]; [repeat split|].
  apply p7_lookup_frame_id in Hl. unfold stored.
  destruct (frame_id msg =? ID_ECU_A)%Z eqn:EA;
    [apply Z.eqb_eq in EA; cbn; intuition congruence|].
  destruct (frame_id msg =? ID_ECU_B)%Z eqn:EB;
    [apply Z.eqb_eq in EB; cbn; intuition congruence|].
  destruct (frame_id msg =? ID_DCDC)%Z eqn:ED;
    [apply Z.eqb_eq in ED; cbn; intuition congruence|].
  repeat split.
Qed.

(** While a voltage is missing a frame prints no event line. *)
Lemma p7_frame_quiet f now st :
  let st' := final_state (can_frame_v0 f now st) in
  V_A st' = None \/ V_B st' = None \/ V_D st' = None ->
  Forall (fun l => is_event l = false) (output (can_frame_v0 f now st)).
Proof.
  cbv zeta.
  destruct (p7_frame_reaches f now st)
    as [(_ & Hq & _) | [(_ & -> & _) | (st1 & -> & _ & _ & _)]];
    [intros _; exact Hq | intros _; constructor |].
  destruct (p7_maybe_update_frame now st1) as (-> & -> & -> & _).
  intros Hm. rewrite (p7_maybe_update_missing now st1 Hm). constructor.
Qed.

Lemma p7_run_quiet inputs st :
  (V_A st = None /\
   Forall (fun i : Frame * float => can_id i.1 <> ID_ECU_A) inputs)
  \/ (V_B st = None /\
      Forall (fun i : Frame * float => can_id i.1 <> ID_ECU_B) inputs)
  \/ (V_D st = None /\
      Forall (fun i : Frame * float => can_id i.1 <> ID_DCDC) inputs) ->
  Forall (fun l => is_event l = false) (run inputs st).2.
Proof.
  revert st. induction inputs as [|[f now] rest IH]; intros st Hq;
    [constructor|].
  rewrite p7_run_step. cbn [snd].
  destruct (p7_frame_other_id f now st) as (HA & HB & HD).
  assert (Hq' :
    (V_A (final_state (can_frame_v0 f now st)) = None /\
     Forall (fun i : Frame * float => can_id i.1 <> ID_ECU_A) rest)
    \/ (V_B (final_state (can_frame_v0 f now st)) = None /\
        Forall (fun i : Frame * float => can_id i.1 <> ID_ECU_B) rest)
    \/ (V_D (final_state (can_frame_v0 f now st)) = None /\
        Forall (fun i : Frame * float => can_id i.1 <> ID_DCDC) rest)).
  { destruct Hq as [[Hn Hall] | [[Hn Hall] | [Hn Hall]]];
      apply Forall_cons in Hall as [Hf Hall]; cbn [fst] in Hf;
      [left | right; left | right; right]; (split; [|exact Hall]).
    - rewrite (HA Hf). exact Hn.
    - rewrite (HB Hf). exact Hn.
    - rewrite (HD Hf). exact Hn. }
  apply Forall_app. split; [|exact (IH _ Hq')].
  apply p7_frame_quiet. tauto.
Qed.

(** X7.  Nothing is diagnosed before every source has been heard: from the
    initial state, as long as the frames of one of the three messages are
    missing from the input, the Phase 7 handler prints no ALERT and no EARLY
    line (the only lines it can print are decode errors). *)
Theorem phase7_silent_until_all_three (inputs : list (Frame * float)) :
  Forall (fun i => can_id i.1 <> ID_ECU_A) inputs
  \/ Forall (fun i => can_id i.1 <> ID_ECU_B) inputs
  \/ Forall (fun i => can_id i.1 <> ID_DCDC) inputs ->
  Forall (fun l => is_event l = false) (run inputs initial).2.
Proof.
  intros Hq. apply p7_run_quiet.
  destruct Hq as [Hq | [Hq | Hq]];
    [left | right; left | right; right]; (split; [reflexivity | exact Hq]).
Qed.

End Phase7Voltages.

(** ECU B and the DCDC report a 1.3 V gap, ECU A is silent. *)
Lemma phase7_silent_until_all_three_witness :
  Forall (fun l => Phase7.is_event l = false)
    (Phase7.run (H := Demo.demo_dbc)
       [(Demo.frame 0 0x112 127, 100.0%float);
        (Demo.frame 0 0x113 140, 101.0%float);
        (Demo.frame 0 0x112 127, 102.0%float)]
       Phase7.initial).2.
Proof.
  apply (phase7_silent_until_all_three (H := Demo.demo_dbc)).
  left. repeat constructor; vm_compute; discriminate.
Defined.

(* ===================================================================== *)
(** * The demo database decodes what the handlers read                    *)
(* ===================================================================== *)

Section DemoFacts.




Lemma demo_frame_payload_ok ts id raw :
  (0 <= raw < 65536)%Z -> payload_ok (Demo.frame ts id raw).
Proof.
  intros Hr. unfold payload_ok, payload, Demo.frame. cbn.
  repeat constructor; try lia.
  - apply Z.mod_pos_bound. lia.
  - apply Z.mod_pos_bound. lia.
  - apply Z.div_pos; lia.
  - apply Z.div_lt_upper_bound; lia.
Qed.

End DemoFacts.

Section BadFrames.
Local Open Scope float_scope.

Lemma demo_frame_not_bytes ts id :
  ~ payload_ok (Demo.frame ts id 70000%Z).
Proof.
  unfold payload_ok. rewrite Forall_forall. intros Hp.
  assert (Hin : 273%Z ∈ payload (Demo.frame ts id 70000%Z))
    by (apply list_elem_of_In; right; left; reflexivity).
  specialize (Hp 273%Z Hin). lia.
Qed.

(** A frame whose second payload slot is 273; and a frame of ECU A handled
    with a catalog whose decoder returns an empty dictionary. *)
Lemma phase8_bad_frame_raises_witness :
  Phase8.can_frame_v0 (H := Demo.demo_dbc) (Demo.frame 0%Z 0x111%Z 70000%Z)
    (Demo.always 0.0 (Phase8.Responds 200)) Phase8.initial
  = (Phase8.set_frames_seen_window 1%Z Phase8.initial, [], Raise ValueError) /\
  Phase8.can_frame_v0 (H := signalless_dbc) (Demo.frame 0%Z 0x111%Z 130%Z)
    (Demo.always 0.0 (Phase8.Responds 200)) Phase8.initial
  = (Phase8.set_frames_decoded_window 1%Z
       (Phase8.set_frames_seen_window 1%Z Phase8.initial),
     [], Raise KeyError).
Proof.
  split.
  - apply (proj1 (phase8_bad_frame_raises (H := Demo.demo_dbc)
                    (Demo.frame 0%Z 0x111%Z 70000%Z)
                    (Demo.always 0.0 (Phase8.Responds 200)) Phase8.initial)).
    apply demo_frame_not_bytes.
  - apply (proj2 (phase8_bad_frame_raises (H := signalless_dbc)
                    (Demo.frame 0%Z 0x111%Z 130%Z)
                    (Demo.always 0.0 (Phase8.Responds 200)) Phase8.initial)).
    + split; [apply demo_frame_payload_ok; lia|].
      exists Demo.ECU_A_STATUS, ∅. split; vm_compute; reflexivity.
    + intros Hc.
      destruct (Hc Demo.ECU_A_STATUS ∅ "ECUA_Supply_Voltage"%string
                  ltac:(vm_compute; reflexivity) ltac:(vm_compute; reflexivity)
                  ltac:(vm_compute; reflexivity)) as [v Hv].
      rewrite lookup_empty in Hv. discriminate.
Defined.

Lemma phase7_bad_frame_raises_witness :
  Phase7.can_frame_v0 (H := Demo.demo_dbc) (Demo.frame 0%Z 0x111%Z 70000%Z)
    100.0 Phase7.initial
  = (Phase7.set_frames_seen 1%Z Phase7.initial, [], Raise ValueError) /\
  Phase7.can_frame_v0 (H := signalless_dbc) (Demo.frame 0%Z 0x111%Z 130%Z)
    100.0 Phase7.initial
  = (Phase7.set_frames_decoded 1%Z (Phase7.set_frames_seen 1%Z Phase7.initial),
     [], Raise TypeError).
Proof.
  split.
  - apply (proj1 (phase7_bad_frame_raises (H := Demo.demo_dbc)
                    (Demo.frame 0%Z 0x111%Z 70000%Z) 100.0 Phase7.initial)).
    apply demo_frame_not_bytes.
  - apply (proj2 (phase7_bad_frame_raises (H := signalless_dbc)
                    (Demo.frame 0%Z 0x111%Z 130%Z) 100.0 Phase7.initial)).
    + split; [apply demo_frame_payload_ok; lia|].
      exists Demo.ECU_A_STATUS, ∅. split; vm_compute; reflexivity.
    + intros Hc.
      destruct (Hc Demo.ECU_A_STATUS ∅ "ECUA_Supply_Voltage"%string
                  ltac:(vm_compute; reflexivity) ltac:(vm_compute; reflexivity)
                  ltac:(vm_compute; reflexivity)) as [v Hv].
      rewrite lookup_empty in Hv. discriminate.
Defined.

End BadFrames.

Section Phase7Sampling.
Context `{Dbc}.
Import Phase7 Phase7Views.
Local Open Scope float_scope.


End Phase7Sampling.


(* ===================================================================== *)
(** * The periodic loops: counters                                        *)
(* ===================================================================== *)

Lemma sumZ_app (l1 l2 : list Z) : sumZ (l1 ++ l2) = (sumZ l1 + sumZ l2)%Z.
Proof. unfold sumZ. induction l1 as [|x l1 IH]; simpl; lia. Qed.

Section Phase8Stats.
Context `{Dbc}.
Import Phase8 Phase8Views Phase8Loop.
Local Open Scope float_scope.

Lemma p8_decodesb_iff f : decodesb f = true <-> decodes f.
Proof.
  unfold decodesb, decodes, payload_ok. rewrite andb_true_iff. split.
  - intros [Hb Hm]. split.
    + apply Forall_forall. intros b Hin. rewrite forallb_forall in Hb.
      apply list_elem_of_In in Hin. specialize (Hb b Hin).
      apply andb_true_iff in Hb as [H1 H2].
      apply Z.leb_le in H1. apply Z.ltb_lt in H2. lia.
    + destruct (id_to_msg !! can_id f) as [msg|]; [|discriminate].
      destruct (decode msg (payload f)) as [decoded|] eqn:Hd; [|discriminate].
      exists msg, decoded. split; [reflexivity | exact Hd].
  - intros [Hb (msg & decoded & -> & ->)]. split; [|reflexivity].
    apply forallb_forall. intros b Hin. rewrite Forall_forall in Hb.
    apply list_elem_of_In in Hin. specialize (Hb b Hin).
    apply andb_true_iff. split; [apply Z.leb_le | apply Z.ltb_lt]; lia.
Qed.

Lemma p8_frame_counters_b f world st :
  let st' := final_state (can_frame_v0 f world st) in
  frames_seen_window st' = (frames_seen_window st + 1)%Z /\
  frames_decoded_window st'
  = (frames_decoded_window st + if decodesb f then 1 else 0)%Z.
Proof.
  cbv zeta. destruct (p8_frame_counters f world st) as [Hs [[Hd ->] | [Hd ->]]];
    (split; [exact Hs|]).
  - apply p8_decodesb_iff in Hd. rewrite Hd. reflexivity.
  - destruct (decodesb f) eqn:E; [|lia].
    apply p8_decodesb_iff in E. contradiction.
Qed.

Lemma p8_callback_run f world g :
  callback f world g
  = (mkGlobals (final_state (can_frame_v0 f world (rules g))) (last_stats_time g),
     map HANDLER (output (can_frame_v0 f world (rules g))),
     result (can_frame_v0 f world (rules g))).
Proof.
  unfold callback, final_state, output, result.
  destruct (can_frame_v0 f world (rules g)) as [[st out] r]. reflexivity.
Qed.

(** The loop does nothing, or prints the counters and the voltages, resets
    the counters and notes the time. *)
Lemma p8_user_loop_run now g :
  user_loop now g =
  if now - last_stats_time g >=? STATS_INTERVAL_SEC then
    (mkGlobals (set_frames_decoded_window 0
                  (set_frames_seen_window 0 (rules g))) now,
     [STATS (frames_seen_window (rules g)) (frames_decoded_window (rules g))
            (ECU_A (latest_voltages (rules g)))
            (ECU_B (latest_voltages (rules g)))
            (DCDC (latest_voltages (rules g)))],
     Ok tt)
  else (g, [], Ok tt).
Proof.
  unfold user_loop. rewrite bind_get.
  destruct (_ >=? _); [|reflexivity]. py_run. reflexivity.
Qed.

Lemma p8_app_cons c rest g :
  App_run (c :: rest) g
  = let r := match c with
             | Frame_arrives f world => callback f world g
             | Loop_runs now => user_loop now g
             end in
    ((App_run rest (final_state r)).1, output r ++ (App_run rest (final_state r)).2).
Proof.
  cbn [App_run]. cbv zeta. unfold final_state, output.
  destruct (match c with
            | Frame_arrives f world => callback f world g
            | Loop_runs now => user_loop now g
            end) as [[g1 out1] r1]. cbn [fst snd].
  destruct (App_run rest g1) as [g2 out2]. reflexivity.
Qed.

Lemma p8_frames_of_frame f world rest :
  frames_of (Frame_arrives f world :: rest) = (f, world) :: frames_of rest.
Proof. reflexivity. Qed.

Lemma p8_frames_of_loop now rest :
  frames_of (Loop_runs now :: rest) = frames_of rest.
Proof. reflexivity. Qed.

Lemma p8_handler_lines_report_nothing (out : list Line) :
  sumZ (map reported_seen (map HANDLER out)) = 0%Z /\
  sumZ (map reported_decoded (map HANDLER out)) = 0%Z.
Proof. induction out as [|x l IHl]; [split; reflexivity | exact IHl]. Qed.

Lemma p8_app_accounting calls g :
  (0 <= frames_decoded_window (rules g) <= frames_seen_window (rules g))%Z ->
  let g' := (App_run calls g).1 in
  let out := (App_run calls g).2 in
  (sumZ (map reported_seen out) + frames_seen_window (rules g')
   = frames_seen_window (rules g) + Z.of_nat (length (frames_of calls)))%Z /\
  (sumZ (map reported_decoded out) + frames_decoded_window (rules g')
   = frames_decoded_window (rules g)
     + Z.of_nat (length (List.filter (fun i => decodesb i.1) (frames_of calls))))%Z /\
  Forall (fun l => (0 <= reported_decoded l <= reported_seen l)%Z) out.
Proof.
  revert g. induction calls as [|c rest IH]; intros g Hg; cbv zeta.
  - cbn. repeat split; try lia. constructor.
  - rewrite p8_app_cons. cbv zeta. cbn [fst snd].
    destruct c as [f world | now].
    + rewrite p8_callback_run. cbn [final_state output fst snd].
      destruct (p8_frame_counters_b f world (rules g)) as [Hs Hd].
      set (st1 := final_state (can_frame_v0 f world (rules g))) in *.
      assert (Hg1 : (0 <= frames_decoded_window st1 <= frames_seen_window st1)%Z)
        by (rewrite Hs, Hd; destruct (decodesb f); lia).
      specialize (IH (mkGlobals st1 (last_stats_time g)) Hg1). cbv zeta in IH.
      cbn [rules] in IH. destruct IH as (I1 & I2 & I3).
      rewrite !map_app, !sumZ_app.
      destruct (p8_handler_lines_report_nothing
                  (output (can_frame_v0 f world (rules g)))) as [-> ->].
      rewrite p8_frames_of_frame.
      cbn [List.filter fst length].
      split; [|split].
      * cbn [length]. lia.
      * destruct (decodesb f); cbn [length]; lia.
      * apply Forall_app. split; [|exact I3].
        apply Forall_forall. intros l Hl. apply list_elem_of_fmap in Hl.
        destruct Hl as (x & -> & _). cbn. lia.
    + rewrite p8_user_loop_run.
      destruct (_ >=? _).
      * cbn [final_state output fst snd].
        specialize (IH (mkGlobals (set_frames_decoded_window 0
                                     (set_frames_seen_window 0 (rules g))) now)).
        cbv zeta in IH. cbn [rules] in IH.
        destruct IH as (I1 & I2 & I3); [cbn; lia|].
        rewrite p8_frames_of_loop, !map_app, !sumZ_app.
        cbn [map reported_seen reported_decoded]. unfold sumZ at 1 3.
        cbn [foldr].
        cbn [frames_seen_window frames_decoded_window set_frames_seen_window
             set_frames_decoded_window] in I1, I2.
        split; [lia|]. split; [lia|].
        constructor; [cbn; lia | exact I3].
      * cbn [final_state output fst snd]. rewrite p8_frames_of_loop.
        specialize (IH g Hg). cbv zeta in IH. exact IH.
Qed.

(** X9.  The [STATS] lines of Phase 8 account for every frame: whatever
    the order of callback and loop calls, from start-up, the frame counts
    reported so far plus the current counter equal the number of frames
    delivered, the decoded counts reported so far plus the current counter
    equal the number of frames that passed [msg.decode], and no line ever
    reports more decoded frames than frames seen.  (A frame is counted even
    when the callback goes on to raise.) *)
Theorem phase8_stats_account_for_every_frame (calls : list Call) (t0 : float) :
  let g' := (App_run calls (mkGlobals initial t0)).1 in
  let out := (App_run calls (mkGlobals initial t0)).2 in
  (sumZ (map reported_seen out) + frames_seen_window (rules g')
   = Z.of_nat (length (frames_of calls)))%Z /\
  (sumZ (map reported_decoded out) + frames_decoded_window (rules g')
   = Z.of_nat (length (List.filter (fun i => decodesb i.1) (frames_of calls))))%Z /\
  Forall (fun l => (0 <= reported_decoded l <= reported_seen l)%Z) out.
Proof.
  cbv zeta.
  destruct (p8_app_accounting calls (mkGlobals initial t0)) as (H1 & H2 & H3);
    [cbn; lia|].
  cbn [rules initial frames_seen_window frames_decoded_window] in H1, H2.
  repeat split; [lia | lia | exact H3].
Qed.

End Phase8Stats.

Section Phase7Stats.
Context `{Dbc}.
Import Phase7 Phase7Views Phase7Loop.
Local Open Scope float_scope.

Lemma p7_decodesb_iff f : decodesb f = true <-> decodes f.
Proof.
  unfold decodesb, decodes, payload_ok. rewrite andb_true_iff. split.
  - intros [Hb Hm]. split.
    + apply Forall_forall. intros b Hin. rewrite forallb_forall in Hb.
      apply list_elem_of_In in Hin. specialize (Hb b Hin).
      apply andb_true_iff in Hb as [H1 H2].
      apply Z.leb_le in H1. apply Z.ltb_lt in H2. lia.
    + destruct (MESSAGE_BY_ID !! can_id f) as [msg|]; [|discriminate].
      destruct (decode msg (payload f)) as [decoded|] eqn:Hd; [|discriminate].
      exists msg, decoded. split; [reflexivity | exact Hd].
  - intros [Hb (msg & decoded & -> & ->)]. split; [|reflexivity].
    apply forallb_forall. intros b Hin. rewrite Forall_forall in Hb.
    apply list_elem_of_In in Hin. specialize (Hb b Hin).
    apply andb_true_iff. split; [apply Z.leb_le | apply Z.ltb_lt]; lia.
Qed.

(** Every call counts one frame seen, and one frame decoded exactly when the
    frame passed [msg.decode]. *)
Lemma p7_frame_counters_b f now st :
  let st' := final_state (can_frame_v0 f now st) in
  frames_seen st' = (frames_seen st + 1)%Z /\
  frames_decoded st' = (frames_decoded st + if decodesb f then 1 else 0)%Z.
Proof.
  cbv zeta.
  assert (Hno : ~ decodes f -> decodesb f = false).
  { intros Hn. destruct (decodesb f) eqn:E; [|reflexivity].
    apply p7_decodesb_iff in E. contradiction. }
  destruct (p7_frame_cases f now st)
    as [[Hb ->] | [(Hb & Hl & ->) | [(msg & Hb & Hl & Hd & ->)
                                   | (msg & decoded & Hb & Hl & Hd & Hc)]]].
  - rewrite Hno; [cbn; lia|]. intros [Hb' _]. exact (Hb Hb').
  - rewrite Hno; [cbn; lia|]. intros (_ & msg & decoded & Hl' & _). congruence.
  - rewrite Hno; [cbn; lia|].
    intros (_ & msg' & decoded & Hl' & Hd'). congruence.
  - assert (Hdec : decodesb f = true).
    { apply p7_decodesb_iff. split; [exact Hb | eauto]. }
    rewrite Hdec.
    assert (Hm : forall st1,
              frames_seen st1 = (frames_seen st + 1)%Z ->
              frames_decoded st1 = (frames_decoded st + 1)%Z ->
              frames_seen (final_state (maybe_update now st1))
              = (frames_seen st + 1)%Z /\
              frames_decoded (final_state (maybe_update now st1))
              = (frames_decoded st + 1)%Z).
    { intros st1 H1 H2.
      destruct (p7_maybe_update_frame now st1) as (_ & _ & _ & -> & ->).
      split; assumption. }
    destruct (signal_of msg) as [name|].
    + destruct (decoded !! name) as [v|]; rewrite Hc; [|split; reflexivity].
      apply Hm; unfold stored;
        repeat match goal with |- context [if ?c then _ else _] => destruct c end;
        reflexivity.
    + rewrite Hc. apply Hm; reflexivity.
Qed.

Lemma p7_callback_run f now g :
  callback f now g
  = (mkGlobals (final_state (can_frame_v0 f now (rules g))) (last_stats_time g),
     map HANDLER (output (can_frame_v0 f now (rules g))),
     result (can_frame_v0 f now (rules g))).
Proof.
  unfold callback, final_state, output, result.
  destruct (can_frame_v0 f now (rules g)) as [[st out] r]. reflexivity.
Qed.

(** The loop does nothing, or notes the time, prints the counters and the
    voltages and resets the counters. *)
Lemma p7_loop_run now g :
  loop now g =
  if now - last_stats_time g >=? STATS_PERIOD then
    (mkGlobals (set_frames_decoded 0 (set_frames_seen 0 (rules g))) now,
     [STATS (frames_seen (rules g)) (frames_decoded (rules g))
            (V_A (rules g)) (V_B (rules g)) (V_D (rules g))],
     Ok tt)
  else (g, [], Ok tt).
Proof.
  unfold loop. rewrite bind_get.
  destruct (_ >=? _); [|reflexivity]. py_run. reflexivity.
Qed.

Lemma p7_app_cons c rest g :
  App_run (c :: rest) g
  = let r := match c with
             | Frame_arrives f now => callback f now g
             | Loop_runs now => loop now g
             end in
    ((App_run rest (final_state r)).1,
     output r ++ (App_run rest (final_state r)).2).
Proof.
  cbn [App_run]. cbv zeta. unfold final_state, output.
  destruct (match c with
            | Frame_arrives f now => callback f now g
            | Loop_runs now => loop now g
            end) as [[g1 out1] r1]. cbn [fst snd].
  destruct (App_run rest g1) as [g2 out2]. reflexivity.
Qed.

Lemma p7_frames_of_frame f now rest :
  frames_of (Frame_arrives f now :: rest) = (f, now) :: frames_of rest.
Proof. reflexivity. Qed.

Lemma p7_frames_of_loop now rest :
  frames_of (Loop_runs now :: rest) = frames_of rest.
Proof. reflexivity. Qed.

Lemma p7_handler_lines_report_nothing (out : list Line) :
  sumZ (map reported_seen (map HANDLER out)) = 0%Z /\
  sumZ (map reported_decoded (map HANDLER out)) = 0%Z.
Proof. induction out as [|x l IHl]; [split; reflexivity | exact IHl]. Qed.

Lemma p7_app_accounting calls g :
  (0 <= frames_decoded (rules g) <= frames_seen (rules g))%Z ->
  let g' := (App_run calls g).1 in
  let out := (App_run calls g).2 in
  (sumZ (map reported_seen out) + frames_seen (rules g')
   = frames_seen (rules g) + Z.of_nat (length (frames_of calls)))%Z /\
  (sumZ (map reported_decoded out) + frames_decoded (rules g')
   = frames_decoded (rules g)
     + Z.of_nat (length (List.filter (fun i => decodesb i.1) (frames_of calls))))%Z /\
  Forall (fun l => (0 <= reported_decoded l <= reported_seen l)%Z) out.
Proof.
  revert g. induction calls as [|c rest IH]; intros g Hg; cbv zeta.
  - cbn. repeat split; try lia. constructor.
  - rewrite p7_app_cons. cbv zeta. cbn [fst snd].
    destruct c as [f now | now].
    + rewrite p7_callback_run. cbn [final_state output fst snd].
      destruct (p7_frame_counters_b f now (rules g)) as [Hs Hd].
      set (st1 := final_state (can_frame_v0 f now (rules g))) in *.
      assert (Hg1 : (0 <= frames_decoded st1 <= frames_seen st1)%Z)
        by (rewrite Hs, Hd; destruct (decodesb f); lia).
      specialize (IH (mkGlobals st1 (last_stats_time g)) Hg1). cbv zeta in IH.
      cbn [rules] in IH. destruct IH as (I1 & I2 & I3).
      rewrite !map_app, !sumZ_app.
      destruct (p7_handler_lines_report_nothing
                  (output (can_frame_v0 f now (rules g)))) as [-> ->].
      rewrite p7_frames_of_frame.
      cbn [List.filter fst length].
      split; [|split].
      * cbn [length]. lia.
      * destruct (decodesb f); cbn [length]; lia.
      * apply Forall_app. split; [|exact I3].
        apply Forall_forall. intros l Hl. apply list_elem_of_fmap in Hl.
        destruct Hl as (x & -> & _). cbn. lia.
    + rewrite p7_loop_run.
      destruct (_ >=? _).
      * cbn [final_state output fst snd].
        specialize (IH (mkGlobals (set_frames_decoded 0
                                     (set_frames_seen 0 (rules g))) now)).
        cbv zeta in IH. cbn [rules] in IH.
        destruct IH as (I1 & I2 & I3); [cbn; lia|].
        rewrite p7_frames_of_loop, !map_app, !sumZ_app.
        cbn [map reported_seen reported_decoded]. unfold sumZ at 1 3.
        cbn [foldr].
        cbn [frames_seen frames_decoded set_frames_seen set_frames_decoded]
          in I1, I2.
        split; [lia|]. split; [lia|].
        constructor; [cbn; lia | exact I3].
      * cbn [final_state output fst snd]. rewrite p7_frames_of_loop.
        specialize (IH g Hg). cbv zeta in IH. exact IH.
Qed.

(** X10.  The [STATS] lines of Phase 7 account for every frame: whatever
    the order of callback and loop calls, from start-up, the frame counts
    reported so far plus the current counter equal the number of frames
    delivered, the decoded counts reported so far plus the current counter
    equal the number of frames that passed [msg.decode], and no line ever
    reports more decoded frames than frames seen. *)
Theorem phase7_stats_account_for_every_frame (calls : list Call) (t0 : float) :
  let g' := (App_run calls (mkGlobals initial t0)).1 in
  let out := (App_run calls (mkGlobals initial t0)).2 in
  (sumZ (map reported_seen out) + frames_seen (rules g')
   = Z.of_nat (length (frames_of calls)))%Z /\
  (sumZ (map reported_decoded out) + frames_decoded (rules g')
   = Z.of_nat (length (List.filter (fun i => decodesb i.1) (frames_of calls))))%Z /\
  Forall (fun l => (0 <= reported_decoded l <= reported_seen l)%Z) out.
Proof.
  cbv zeta.
  destruct (p7_app_accounting calls (mkGlobals initial t0)) as (H1 & H2 & H3);
    [cbn; lia|].
  cbn [rules initial frames_seen frames_decoded] in H1, H2.
  repeat split; [lia | lia | exact H3].
Qed.

End Phase7Stats.

(* ===================================================================== *)
(** * Computations that do not look at the globals                        *)
(* ===================================================================== *)

Section Stateless.
Context {S O : Type}.

Lemma stateless_ret {A} (a : A) : stateless (ret a : Py S O A).
Proof. intros s s'. split; reflexivity. Qed.

Lemma stateless_raise {A} (e : PyExc) : stateless (raise e : Py S O A).
Proof. intros s s'. split; reflexivity. Qed.

Lemma stateless_print (o : O) : stateless (print o : Py S O unit).
Proof. intros s s'. split; reflexivity. Qed.

Lemma stateless_not_none (v : option float) :
  stateless (not_none v : Py S O float).
Proof. destruct v; intros s s'; split; reflexivity. Qed.

Lemma stateless_bind {A B} (m : Py S O A) (k : A -> Py S O B) :
  stateless m -> (forall a, stateless (k a)) -> stateless (bind m k).
Proof.
  intros Hm Hk s s'. rewrite !output_bind, !result_bind.
  destruct (Hm s s') as [-> ->].
  destruct (result (m s')) as [a|e]; [|split; reflexivity].
  destruct (Hk a (final_state (m s)) (final_state (m s'))) as [-> ->].
  split; reflexivity.
Qed.

End Stateless.

#[global] Hint Resolve stateless_ret stateless_raise stateless_print
  stateless_not_none : py.

Ltac py_stateless :=
  repeat first
    [ progress intros
    | apply stateless_bind
    | solve [auto with py]
    | match goal with
      | |- stateless (if ?b then _ else _) => destruct b
      | |- stateless (match ?x with _ => _ end) => destruct x
      end ].

Section Phase7Recount.
Import Phase7 Phase7Views.
Local Open Scope float_scope.

Lemma p7_rule_checks_same dA dB st st' :
  same_but_counters st st' ->
  output (run_rule_based_harness_checks dA dB st')
  = output (run_rule_based_harness_checks dA dB st) /\
  result (run_rule_based_harness_checks dA dB st')
  = result (run_rule_based_harness_checks dA dB st).
Proof.
  intros (HA & HB & HD & _). unfold run_rule_based_harness_checks.
  rewrite !bind_get, HA, HB, HD.
  match goal with
  | |- output (?m st') = _ /\ _ => assert (Hs : stateless m) by py_stateless
  end.
  apply Hs.
Qed.

Lemma p7_stat_checks_same dA dB st st' :
  same_but_counters st st' ->
  output (run_statistical_checks dA dB st')
  = output (run_statistical_checks dA dB st) /\
  result (run_statistical_checks dA dB st')
  = result (run_statistical_checks dA dB st).
Proof.
  intros (HA & HB & HD & HW & HEA & HEB). unfold run_statistical_checks.
  rewrite !bind_get, HA, HB, HD, HW, HEA, HEB.
  match goal with
  | |- output (?m st') = _ /\ _ => assert (Hs : stateless m) by py_stateless
  end.
  apply Hs.
Qed.

Lemma p7_updated_same t d a b st st' :
  same_but_counters st st' ->
  same_but_counters (updated t d a b st) (updated t d a b st').
Proof.
  intros (HA & HB & HD & HW & HEA & HEB). unfold same_but_counters, updated.
  cbv zeta. cbn [V_A V_B V_D window ewma_deltaA ewma_deltaB].
  rewrite HA, HB, HD, HW, HEA, HEB. repeat split.
Qed.

Lemma p7_same_paired st st' :
  same_but_counters st st' -> paired st -> paired st'.
Proof.
  intros (_ & _ & _ & _ & HEA & HEB). unfold paired. rewrite HEA, HEB. tauto.
Qed.

Lemma p7_maybe_update_same now st st' :
  same_but_counters st st' -> paired st ->
  output (maybe_update now st') = output (maybe_update now st) /\
  result (maybe_update now st') = result (maybe_update now st) /\
  same_but_counters (final_state (maybe_update now st))
                    (final_state (maybe_update now st')).
Proof.
  intros Hsame Hp. pose proof (p7_same_paired st st' Hsame Hp) as Hp'.
  pose proof Hsame as (HA & HB & HD & _).
  unfold maybe_update. rewrite !bind_get, HA, HB, HD.
  destruct (V_A st) as [a|] eqn:EA;
    [|split; [reflexivity|split; [reflexivity|exact Hsame]]].
  destruct (V_B st) as [b|] eqn:EB;
    [|split; [reflexivity|split; [reflexivity|exact Hsame]]].
  destruct (V_D st) as [d|] eqn:ED;
    [|split; [reflexivity|split; [reflexivity|exact Hsame]]].
  rewrite (p7_update_final_state now st d a b ED EA EB).
  rewrite (p7_update_final_state now st' d a b) by congruence.
  rewrite (p7_update_paired now st d a b ED EA EB Hp).
  rewrite (p7_update_paired now st' d a b) by (congruence || exact Hp').
  pose proof (p7_updated_same now d a b st st' Hsame) as Hup.
  split; [|split; [|exact Hup]].
  - rewrite !output_bind.
    destruct (p7_rule_checks_same (d - a) (d - b) _ _ Hup) as [-> ->].
    rewrite !(p7_rule_checks_reads_only (d - a) (d - b)).
    destruct (p7_stat_checks_same (d - a) (d - b) _ _ Hup) as [-> _].
    reflexivity.
  - rewrite !result_bind.
    destruct (p7_rule_checks_same (d - a) (d - b) _ _ Hup) as [_ ->].
    rewrite !(p7_rule_checks_reads_only (d - a) (d - b)).
    destruct (p7_stat_checks_same (d - a) (d - b) _ _ Hup) as [_ ->].
    reflexivity.
Qed.

End Phase7Recount.

Section Phase7Interleaving.
Context `{Dbc}.
Import Phase7 Phase7Views Phase7Loop.
Local Open Scope float_scope.

(** The path of a frame through the handler does not depend on the
    globals. *)
Lemma p7_frame_uniform f now :
  (exists out r, forall st, can_frame_v0 f now st = (seen st, out, r))
  \/ (exists r, forall st, can_frame_v0 f now st = (counted st, [], r))
  \/ (forall st, can_frame_v0 f now st = maybe_update now (counted st))
  \/ (exists msg v, forall st,
        can_frame_v0 f now st = maybe_update now (stored msg v (counted st))).
Proof.
  destruct (payload_ok_dec f) as [Hp|Hp].
  2:{ left. exists [], (Raise ValueError). intros st.
      unfold can_frame_v0. py_run.
      rewrite (py_bytes_bad f Hp). py_run. reflexivity. }
  destruct (MESSAGE_BY_ID !! can_id f) as [msg|] eqn:Hl.
  2:{ left. exists [], (Ok tt). intros st. unfold can_frame_v0. py_run.
      rewrite (py_bytes_ok f Hp). py_run. rewrite Hl. reflexivity. }
  destruct (decode msg (payload f)) as [decoded|] eqn:Hd.
  2:{ left. exists [DECODE_ERROR (can_id f)], (Ok tt). intros st.
      unfold can_frame_v0. py_run.
      rewrite (py_bytes_ok f Hp). py_run. rewrite Hl, Hd. reflexivity. }
  right.
  assert (Hgo : forall st,
    can_frame_v0 f now st =
    match signal_of msg with
    | None => maybe_update now (counted st)
    | Some name =>
        match decoded !! name with
        | None => (counted st, [], Raise TypeError)
        | Some v => maybe_update now (stored msg v (counted st))
        end
    end).
  { intros st.
    destruct (p7_frame_cases f now st)
      as [[Hb _] | [(_ & Hl' & _) | [(msg' & _ & Hl' & Hd' & _)
                                   | (msg' & decoded' & _ & Hl' & Hd' & Hc)]]];
      try contradiction; try congruence.
    assert (msg' = msg) as -> by congruence.
    assert (decoded' = decoded) as -> by congruence.
    destruct (signal_of msg) as [name|]; [|exact Hc].
    destruct (decoded !! name); exact Hc. }
  destruct (signal_of msg) as [name|].
  - destruct (decoded !! name) as [v|].
    + right. right. exists msg, v. exact Hgo.
    + left. exists (Raise TypeError). exact Hgo.
  - right. left. exact Hgo.
Qed.

Lemma p7_stored_same msg v st st' :
  same_but_counters st st' ->
  same_but_counters (stored msg v (counted st)) (stored msg v (counted st')).
Proof.
  intros (HA & HB & HD & HW & HEA & HEB). unfold same_but_counters, stored.
  repeat match goal with |- context [if ?c then _ else _] => destruct c end;
    cbn; repeat split; assumption.
Qed.

(** The handler does not look at the counters. *)
Lemma p7_frame_same f now st st' :
  same_but_counters st st' -> paired st ->
  output (can_frame_v0 f now st') = output (can_frame_v0 f now st) /\
  result (can_frame_v0 f now st') = result (can_frame_v0 f now st) /\
  same_but_counters (final_state (can_frame_v0 f now st))
                    (final_state (can_frame_v0 f now st')).
Proof.
  intros Hsame Hp.
  destruct (p7_frame_uniform f now)
    as [(out & r & E) | [(r & E) | [E | (msg & v & E)]]]; rewrite !E.
  - split; [reflexivity|split; [reflexivity|exact Hsame]].
  - split; [reflexivity|split; [reflexivity|exact Hsame]].
  - apply p7_maybe_update_same; [|exact Hp]. exact Hsame.
  - apply p7_maybe_update_same.
    + apply p7_stored_same, Hsame.
    + apply p7_stored_paired, Hp.
Qed.

Lemma p7_handler_lines_app out1 out2 :
  handler_lines (out1 ++ out2) = handler_lines out1 ++ handler_lines out2.
Proof. apply omap_app. Qed.

Lemma p7_handler_lines_HANDLER (out : list Line) :
  handler_lines (map HANDLER out) = out.
Proof.
  induction out as [|l out IH]; [reflexivity|].
  change (handler_lines (map HANDLER (l :: out)))
    with (l :: handler_lines (map HANDLER out)).
  rewrite IH. reflexivity.
Qed.

Lemma p7_app_run_same calls g st :
  same_but_counters st (rules g) -> paired st ->
  handler_lines (App_run calls g).2 = (run (frames_of calls) st).2 /\
  same_but_counters (run (frames_of calls) st).1 (rules (App_run calls g).1).
Proof.
  revert g st. induction calls as [|c rest IH]; intros g st Hsame Hp.
  - split; [reflexivity | exact Hsame].
  - rewrite p7_app_cons. cbv zeta. cbn [fst snd].
    destruct c as [f now | now].
    + rewrite p7_callback_run, p7_frames_of_frame, p7_run_step.
      cbn [final_state output fst snd].
      destruct (p7_frame_same f now st (rules g) Hsame Hp) as (Ho & _ & Hs).
      destruct (IH (mkGlobals (final_state (can_frame_v0 f now (rules g)))
                              (last_stats_time g))
                   (final_state (can_frame_v0 f now st)) Hs
                   (p7_frame_paired f now st Hp)) as [I1 I2].
      split; [|exact I2].
      rewrite p7_handler_lines_app, p7_handler_lines_HANDLER, Ho, I1.
      reflexivity.
    + rewrite p7_loop_run, p7_frames_of_loop.
      destruct (_ >=? _); cbn [final_state output fst snd].
      * destruct (IH (mkGlobals (set_frames_decoded 0
                                   (set_frames_seen 0 (rules g))) now)
                     st Hsame Hp) as [I1 I2].
        split; [|exact I2].
        rewrite p7_handler_lines_app. exact I1.
      * exact (IH g st Hsame Hp).
Qed.

(** X12.  The stats loop of Phase 7 does not disturb detection: however
    the calls of [loop] fall between the frames, the callback prints exactly
    the lines it prints when the loop never runs, and leaves the voltages,
    the window and the smoothed deltas as it does then.  (The handler never
    reads the counters the loop resets.) *)
Theorem phase7_loop_does_not_disturb_detection (calls : list Call) (t0 : float) :
  handler_lines (App_run calls (mkGlobals initial t0)).2
  = (run (frames_of calls) initial).2 /\
  same_but_counters (run (frames_of calls) initial).1
                    (rules (App_run calls (mkGlobals initial t0)).1).
Proof.
  apply p7_app_run_same.
  - repeat split.
  - unfold paired, initial. cbn. tauto.
Qed.

End Phase7Interleaving.

Section Phase8Interleaving.
Context `{Dbc}.
Import Phase8 Phase8Views Phase8Loop.
Local Open Scope float_scope.

Lemma p8_send_same event now x st st' :
  same_but_counters st st' ->
  output (send_event_to_sheets event now x st')
  = output (send_event_to_sheets event now x st) /\
  result (send_event_to_sheets event now x st')
  = result (send_event_to_sheets event now x st) /\
  same_but_counters (final_state (send_event_to_sheets event now x st))
                    (final_state (send_event_to_sheets event now x st')).
Proof.
  intros Hsame. pose proof Hsame as (HV & HE & HH & HT).
  rewrite !p8_send_run, HT.
  destruct (_ <? _); [split; [reflexivity|split; [reflexivity|exact Hsame]]|].
  destruct x as [status|code| |];
    try (split; [reflexivity|split; [reflexivity|exact Hsame]]).
  destruct (status =? 200)%Z;
    [|split; [reflexivity|split; [reflexivity|exact Hsame]]].
  split; [reflexivity|]. split; [reflexivity|].
  unfold same_but_counters.
  cbn [final_state fst latest_voltages ewma_delta_a drift_history
       last_sheet_send set_last_sheet_send].
  rewrite ?HT. repeat split; assumption.
Qed.

Lemma p8_push_events_same i events world st st' :
  same_but_counters st st' ->
  output (push_events i events world st')
  = output (push_events i events world st) /\
  result (push_events i events world st')
  = result (push_events i events world st) /\
  same_but_counters (final_state (push_events i events world st))
                    (final_state (push_events i events world st')).
Proof.
  revert i st st'. induction events as [|ev rest IH]; intros i st st' Hsame.
  - split; [reflexivity|split; [reflexivity|exact Hsame]].
  - rewrite !p8_push_events_cons, !bind_print.
    cbn [output result final_state fst snd].
    fold (output (bind (send_event_to_sheets ev (world i).1 (world i).2)
                    (fun _ => push_events (S i) rest world) st)).
    fold (output (bind (send_event_to_sheets ev (world i).1 (world i).2)
                    (fun _ => push_events (S i) rest world) st')).
    fold (result (bind (send_event_to_sheets ev (world i).1 (world i).2)
                    (fun _ => push_events (S i) rest world) st)).
    fold (result (bind (send_event_to_sheets ev (world i).1 (world i).2)
                    (fun _ => push_events (S i) rest world) st')).
    fold (final_state (bind (send_event_to_sheets ev (world i).1 (world i).2)
                    (fun _ => push_events (S i) rest world) st)).
    fold (final_state (bind (send_event_to_sheets ev (world i).1 (world i).2)
                    (fun _ => push_events (S i) rest world) st')).
    rewrite !output_bind, !result_bind, !final_state_bind.
    destruct (p8_send_same ev (world i).1 (world i).2 st st' Hsame)
      as (-> & -> & Hs).
    destruct (result (send_event_to_sheets ev (world i).1 (world i).2 st));
      [|split; [reflexivity|split; [reflexivity|exact Hs]]].
    destruct (IH (S i) _ _ Hs) as (-> & -> & Hs').
    split; [reflexivity|split; [reflexivity|exact Hs']].
Qed.

Lemma p8_drift_updated_same ts a d st st' :
  same_but_counters st st' ->
  same_but_counters (drift_updated ts a d st) (drift_updated ts a d st').
Proof.
  intros (HV & HE & HH & HT). unfold same_but_counters, drift_updated.
  cbv zeta. cbn [latest_voltages ewma_delta_a drift_history last_sheet_send].
  rewrite HV, HE, HH, HT. repeat split.
Qed.

Lemma p8_evaluate_and_push_same ts world st st' :
  same_but_counters st st' ->
  output (evaluate_and_push ts world st')
  = output (evaluate_and_push ts world st) /\
  result (evaluate_and_push ts world st')
  = result (evaluate_and_push ts world st) /\
  same_but_counters (final_state (evaluate_and_push ts world st))
                    (final_state (evaluate_and_push ts world st')).
Proof.
  intros Hsame. pose proof Hsame as (HV & HE & HH & HT).
  destruct (ECU_A (latest_voltages st)) as [a|] eqn:EA;
    [|rewrite !p8_evaluate_and_push_missing by (rewrite ?HV; tauto);
      split; [reflexivity|split; [reflexivity|exact Hsame]]].
  destruct (ECU_B (latest_voltages st)) as [b|] eqn:EB;
    [|rewrite !p8_evaluate_and_push_missing by (rewrite ?HV; tauto);
      split; [reflexivity|split; [reflexivity|exact Hsame]]].
  destruct (DCDC (latest_voltages st)) as [d|] eqn:ED;
    [|rewrite !p8_evaluate_and_push_missing by (rewrite ?HV; tauto);
      split; [reflexivity|split; [reflexivity|exact Hsame]]].
  rewrite (p8_evaluate_and_push_run ts world st a b d EA EB ED).
  rewrite (p8_evaluate_and_push_run ts world st' a b d) by (rewrite HV; assumption).
  pose proof (p8_drift_updated_same ts a d st st' Hsame) as Hup.
  destruct Hup as (UV & UE & UH & UT). rewrite UE, UH.
  apply p8_push_events_same. repeat split; assumption.
Qed.

(** The path of a frame through the handler does not depend on the
    globals. *)
Lemma p8_frame_uniform f world :
  (exists r, forall st, can_frame_v0 f world st = (seen st, [], r))
  \/ (exists r, forall st, can_frame_v0 f world st = (counted st, [], r))
  \/ (exists msg v, forall st,
        can_frame_v0 f world st
        = evaluate_and_push (ts_mcu_ms f) world (stored msg v (counted st))).
Proof.
  destruct (p8_frame_cases f world initial)
    as [[Hp _] | [(Hp & Hdrop & _)
                 | (msg & decoded & name & Hp & Hl & Hd & Hn & _)]].
  - left. exists (Raise ValueError). intros st.
    destruct (p8_frame_cases f world st)
      as [[_ E] | [(Hp' & _) | (? & ? & ? & Hp' & _)]];
      [exact E | contradiction | contradiction].
  - left. exists (Ok tt). intros st.
    destruct (p8_frame_cases f world st)
      as [[Hp' _] | [(_ & _ & E) | (msg & decoded & ? & _ & Hl & Hd & _)]];
      [contradiction | exact E |].
    exfalso. destruct Hdrop as [Hn | (msg' & Hl' & Hd')]; congruence.
  - right.
    assert (Hgo : forall st,
      can_frame_v0 f world st =
      match decoded !! name with
      | None => (counted st, [], Raise KeyError)
      | Some v => evaluate_and_push (ts_mcu_ms f) world (stored msg v (counted st))
      end).
    { intros st.
      destruct (p8_frame_cases f world st)
        as [[Hp' _] | [(_ & Hdrop & _)
                      | (msg' & decoded' & name' & _ & Hl' & Hd' & Hn' & Hc)]];
        [contradiction | |].
      - exfalso. destruct Hdrop as [Hx | (msg' & Hl' & Hd')]; congruence.
      - assert (msg' = msg) as -> by congruence.
        assert (decoded' = decoded) as -> by congruence.
        assert (name' = name) as -> by congruence.
        destruct (decoded !! name); exact Hc. }
    destruct (decoded !! name) as [v|].
    + right. exists msg, v. exact Hgo.
    + left. exists (Raise KeyError). exact Hgo.
Qed.

Lemma p8_stored_same msg v st st' :
  same_but_counters st st' ->
  same_but_counters (stored msg v (counted st)) (stored msg v (counted st')).
Proof.
  intros (HV & HE & HH & HT). unfold same_but_counters, stored.
  repeat case_decide; cbn; rewrite ?HV; repeat split; assumption.
Qed.

(** The handler does not look at the counters. *)
Lemma p8_frame_same f world st st' :
  same_but_counters st st' ->
  output (can_frame_v0 f world st') = output (can_frame_v0 f world st) /\
  result (can_frame_v0 f world st') = result (can_frame_v0 f world st) /\
  same_but_counters (final_state (can_frame_v0 f world st))
                    (final_state (can_frame_v0 f world st')).
Proof.
  intros Hsame.
  destruct (p8_frame_uniform f world) as [(r & E) | [(r & E) | (msg & v & E)]];
    rewrite !E.
  - split; [reflexivity|split; [reflexivity|exact Hsame]].
  - split; [reflexivity|split; [reflexivity|exact Hsame]].
  - apply p8_evaluate_and_push_same, p8_stored_same, Hsame.
Qed.

Lemma p8_handler_lines_app out1 out2 :
  handler_lines (out1 ++ out2) = handler_lines out1 ++ handler_lines out2.
Proof. apply omap_app. Qed.

Lemma p8_handler_lines_HANDLER (out : list Line) :
  handler_lines (map HANDLER out) = out.
Proof.
  induction out as [|l out IH]; [reflexivity|].
  change (handler_lines (map HANDLER (l :: out)))
    with (l :: handler_lines (map HANDLER out)).
  rewrite IH. reflexivity.
Qed.

Lemma p8_app_run_same calls g st :
  same_but_counters st (rules g) ->
  handler_lines (App_run calls g).2 = (run (frames_of calls) st).2 /\
  same_but_counters (run (frames_of calls) st).1 (rules (App_run calls g).1).
Proof.
  revert g st. induction calls as [|c rest IH]; intros g st Hsame.
  - split; [reflexivity | exact Hsame].
  - rewrite p8_app_cons. cbv zeta. cbn [fst snd].
    destruct c as [f world | now].
    + rewrite p8_callback_run, p8_frames_of_frame, p8_run_cons.
      cbn [final_state output fst snd].
      destruct (p8_frame_same f world st (rules g) Hsame) as (Ho & _ & Hs).
      destruct (IH (mkGlobals (final_state (can_frame_v0 f world (rules g)))
                              (last_stats_time g))
                   (final_state (can_frame_v0 f world st)) Hs) as [I1 I2].
      split; [|exact I2].
      rewrite p8_handler_lines_app, p8_handler_lines_HANDLER, Ho, I1.
      reflexivity.
    + rewrite p8_user_loop_run, p8_frames_of_loop.
      destruct (_ >=? _); cbn [final_state output fst snd].
      * destruct (IH (mkGlobals (set_frames_decoded_window 0
                                   (set_frames_seen_window 0 (rules g))) now)
                     st Hsame) as [I1 I2].
        split; [|exact I2].
        rewrite p8_handler_lines_app. exact I1.
      * exact (IH g st Hsame).
Qed.

(** X11.  The stats loop of Phase 8 does not disturb detection: however
    the calls of [user_loop] fall between the frames, the callback prints
    exactly the lines it prints when the loop never runs (the same events,
    the same pushes to the sheet), and leaves the voltages, the drift state
    and the throttle map as it does then. *)
Theorem phase8_loop_does_not_disturb_detection (calls : list Call) (t0 : float) :
  handler_lines (App_run calls (mkGlobals initial t0)).2
  = (run (frames_of calls) initial).2 /\
  same_but_counters (run (frames_of calls) initial).1
                    (rules (App_run calls (mkGlobals initial t0)).1).
Proof.
  apply p8_app_run_same. repeat split.
Qed.

End Phase8Interleaving.

(* ===================================================================== *)
(** * Replay: reading a field                                             *)
(* ===================================================================== *)

Section Characters.
Import Stdlib.Strings.Ascii ReplayCsv.

(** A digit or a letter is no underscore and no white space, and [int]
    leaves it as it is. *)
Lemma digit_value_range c : 0 <= digit_value c.
Proof.
  unfold digit_value. cbv zeta.
  repeat match goal with |- context [if ?b then _ else _] => destruct b eqn:? end;
    lia.
Qed.

Lemma digit_code c :
  digit_value c < 36 ->
  48 <= code c <= 57 \/ 65 <= code c <= 90 \/ 97 <= code c <= 122.
Proof.
  unfold digit_value. cbv zeta.
  repeat match goal with |- context [if ?b then _ else _] => destruct b eqn:? end;
    lia.
Qed.

Lemma not_in_codes (n : Z) (l : list Z) :
  forallb (fun m => negb (n =? m)) l = true -> n ∉ l.
Proof.
  intros Hall Hin. apply list_elem_of_In in Hin.
  rewrite forallb_forall in Hall. specialize (Hall n Hin).
  rewrite Z.eqb_refl in Hall. discriminate.
Qed.

Lemma digit_not_underscore c : digit_value c < 36 -> c <> underscore.
Proof. intros Hd ->. vm_compute in Hd. discriminate. Qed.

Lemma digit_not_space c : digit_value c < 36 -> isspace c = false.
Proof.
  intros Hd. apply digit_code in Hd. unfold isspace.
  apply bool_decide_eq_false. intros Hin.
  repeat (apply elem_of_cons in Hin as [Hin|Hin]; [lia|]).
  inversion Hin.
Qed.

Lemma digit_not_Py_ISSPACE c : digit_value c < 36 -> Py_ISSPACE c = false.
Proof.
  intros Hd. apply digit_code in Hd. unfold Py_ISSPACE.
  apply bool_decide_eq_false. intros Hin.
  repeat (apply elem_of_cons in Hin as [Hin|Hin]; [lia|]).
  inversion Hin.
Qed.

Lemma digit_to_blank c : digit_value c < 36 -> to_blank c = c.
Proof.
  intros Hd. apply digit_code in Hd. unfold to_blank.
  replace (127 <=? code c) with false; [reflexivity|].
  symmetry. apply Z.leb_gt. lia.
Qed.

Lemma digits_to_blank l :
  Forall (fun c => digit_value c < 36) l -> map to_blank l = l.
Proof.
  induction 1 as [|c l Hc _ IH]; [reflexivity|].
  simpl. rewrite (digit_to_blank c Hc), IH. reflexivity.
Qed.

(** A run of digits is scanned to its end. *)
Lemma scan_digits_all base acc k l :
  Forall (fun c => digit_value c < base) l -> base <= 36 ->
  scan_digits base acc k false l
  = Some (fold_left (fun a c => a * base + digit_value c) l acc,
          (k + length l)%nat, []).
Proof.
  intros Hl Hb. revert acc k.
  induction Hl as [|c l Hc _ IH]; intros acc k.
  - simpl. rewrite Nat.add_0_r. reflexivity.
  - simpl. rewrite bool_decide_eq_false_2
      by (apply digit_not_underscore; lia).
    replace (digit_value c <? base) with true
      by (symmetry; apply Z.ltb_lt; exact Hc).
    rewrite IH.
    replace (S k + length l)%nat with (k + S (length l))%nat by lia.
    reflexivity.
Qed.

(** ... and the scan stops at the first character that is no digit of the
    base and no underscore. *)
Lemma scan_digits_stop base acc k l c rest :
  Forall (fun c => digit_value c < base) l -> base <= 36 ->
  base <= digit_value c -> c <> underscore ->
  scan_digits base acc k false (l ++ c :: rest)
  = Some (fold_left (fun a c => a * base + digit_value c) l acc,
          (k + length l)%nat, c :: rest).
Proof.
  intros Hl Hb Hc Hu. revert acc k.
  induction Hl as [|d l Hd _ IH]; intros acc k.
  - simpl. rewrite bool_decide_eq_false_2 by exact Hu.
    replace (digit_value c <? base) with false
      by (symmetry; apply Z.ltb_ge; exact Hc).
    rewrite Nat.add_0_r. reflexivity.
  - simpl. rewrite bool_decide_eq_false_2
      by (apply digit_not_underscore; lia).
    replace (digit_value d <? base) with true
      by (symmetry; apply Z.ltb_lt; exact Hd).
    rewrite IH.
    replace (S k + length l)%nat with (k + S (length l))%nat by lia.
    reflexivity.
Qed.

End Characters.

Section ParseInt.
Import Stdlib.Strings.Ascii ReplayCsv.
Variable limit : N.

Lemma lstrip_nospace l :
  Forall (fun c => isspace c = false) l -> lstrip l = l.
Proof. destruct 1 as [|c l Hc _]; [reflexivity|]. simpl. rewrite Hc. reflexivity. Qed.

Lemma rstrip_nospace l :
  Forall (fun c => isspace c = false) l -> rstrip l = l.
Proof.
  induction 1 as [|c l Hc _ IH]; [reflexivity|].
  simpl. rewrite IH, Hc. destruct l; reflexivity.
Qed.

Lemma strip_nospace l :
  Forall (fun c => isspace c = false) l -> strip l = l.
Proof.
  intros Hl. unfold strip. rewrite (lstrip_nospace l Hl). apply rstrip_nospace, Hl.
Qed.

Lemma digits_nospace l :
  Forall (fun c => digit_value c < 36) l ->
  Forall (fun c => isspace c = false) l.
Proof.
  intros Hl. eapply Forall_impl; [exact Hl|]. intros c Hc. apply digit_not_space, Hc.
Qed.

Lemma digits_below base l :
  base <= 36 -> Forall (fun c => digit_value c < base) l ->
  Forall (fun c => digit_value c < 36) l.
Proof.
  intros Hb Hl. eapply Forall_impl; [exact Hl|]. intros c Hc. simpl in *. lia.
Qed.

Lemma skip_space_digit c l :
  digit_value c < 36 -> skip_space (c :: l) = c :: l.
Proof. intros Hc. simpl. rewrite (digit_not_Py_ISSPACE c Hc). reflexivity. Qed.

Lemma digit_not_sign c :
  digit_value c < 36 -> c <> "+"%char /\ c <> "-"%char.
Proof. intros Hc. split; intros ->; vm_compute in Hc; discriminate. Qed.

Lemma digit_not_x c :
  digit_value c < 16 -> c <> "x"%char /\ c <> "X"%char.
Proof. intros Hc. split; intros ->; vm_compute in Hc; discriminate. Qed.

(** [int] of a run of digits of the base, with no sign and no prefix. *)
Lemma int_digits base c l :
  (base = 10 \/ base = 16) ->
  Forall (fun c => digit_value c < base) (c :: l) ->
  int limit (c :: l) base
  = if (base =? 10) && (0 <? limit)%N && (limit <? N.of_nat (S (length l)))%N
    then inl E_Value
    else inr (value base (c :: l)).
Proof.
  intros Hbase Hall.
  assert (Hall36 : Forall (fun c => digit_value c < 36) (c :: l))
    by (apply (digits_below base); [lia | exact Hall]).
  unfold int. rewrite (digits_to_blank _ Hall36).
  pose proof (Forall_inv Hall36) as Hc36.
  rewrite (skip_space_digit c l Hc36).
  destruct (digit_not_sign c Hc36) as [Hplus Hminus].
  rewrite !bool_decide_eq_false_2 by assumption.
  assert (Hpre :
    match c :: l with
    | c0 :: x :: l' =>
        if bool_decide (c0 = "0"%char) && (base =? 16)
           && (bool_decide (x = "x"%char) || bool_decide (x = "X"%char))
        then match l' with
             | u :: l'' => if bool_decide (u = underscore) then l'' else l'
             | [] => l'
             end
        else c :: l
    | _ => c :: l
    end = c :: l).
  { destruct l as [|x l']; [reflexivity|].
    assert (Hx : digit_value x < 16).
    { pose proof (Forall_inv (Forall_inv_tail Hall)). simpl in *. lia. }
    destruct (digit_not_x x Hx) as [H1 H2].
    rewrite (bool_decide_eq_false_2 (x = "x"%char)) by assumption.
    rewrite (bool_decide_eq_false_2 (x = "X"%char)) by assumption.
    rewrite andb_false_r. reflexivity. }
  rewrite Hpre. clear Hpre.
  cbn [startswith].
  rewrite (bool_decide_eq_false_2 (underscore = c))
    by (intros E; symmetry in E; revert E; apply digit_not_underscore, Hc36).
  cbn [andb].
  rewrite (scan_digits_all base 0 0 (c :: l) Hall) by lia.
  cbn [length Nat.add Nat.eqb].
  destruct ((base =? 10) && (0 <? limit)%N && (limit <? N.of_nat (S (length l)))%N);
    [reflexivity|].
  cbn [skip_space]. unfold value. f_equal. lia.
Qed.

(** [int] of hexadecimal digits behind the [0x] prefix. *)
Lemma int_prefixed (x : ascii) c l :
  x = "x"%char \/ x = "X"%char ->
  Forall (fun c => digit_value c < 16) (c :: l) ->
  int limit ("0"%char :: x :: c :: l) 16 = inr (value 16 (c :: l)).
Proof.
  intros Hx Hall.
  assert (Hall36 : Forall (fun c => digit_value c < 36) (c :: l))
    by (apply (digits_below 16); [lia | exact Hall]).
  assert (Hx36 : digit_value x < 36) by (destruct Hx as [-> | ->]; vm_compute; reflexivity).
  unfold int.
  change (map to_blank ("0"%char :: x :: c :: l))
    with (to_blank "0"%char :: to_blank x :: map to_blank (c :: l)).
  rewrite (digits_to_blank _ Hall36), (digit_to_blank x Hx36).
  change (to_blank "0"%char) with "0"%char.
  rewrite (skip_space_digit "0"%char) by (vm_compute; reflexivity).
  rewrite (bool_decide_eq_false_2 ("0"%char = "+"%char)) by discriminate.
  rewrite (bool_decide_eq_false_2 ("0"%char = "-"%char)) by discriminate.
  rewrite (bool_decide_eq_true_2 ("0"%char = "0"%char)) by reflexivity.
  change (16 =? 16) with true. cbn [andb].
  replace (bool_decide (x = "x"%char) || bool_decide (x = "X"%char)) with true.
  2:{ symmetry. destruct Hx as [-> | ->]; reflexivity. }
  pose proof (Forall_inv Hall36) as Hc36.
  rewrite (bool_decide_eq_false_2 (c = underscore))
    by (apply digit_not_underscore, Hc36).
  cbn [startswith].
  rewrite (bool_decide_eq_false_2 (underscore = c))
    by (intros E; symmetry in E; revert E; apply digit_not_underscore, Hc36).
  cbn [andb].
  rewrite (scan_digits_all 16 0 0 (c :: l) Hall) by lia.
  cbn [length Nat.add Nat.eqb]. change (16 =? 10) with false. cbn [andb].
  cbn [skip_space]. unfold value. f_equal. lia.
Qed.

(** In base 10 a letter ends the literal too early. *)
Lemma int_letter_fails l c rest :
  Forall (fun c => digit_value c < 10) l ->
  10 <= digit_value c < 36 ->
  int limit (l ++ c :: rest) 10 = inl E_Value.
Proof.
  intros Hl Hc.
  assert (Hl36 : Forall (fun c => digit_value c < 36) l)
    by (apply (digits_below 10); [lia | exact Hl]).
  assert (Hcu : c <> underscore) by (apply digit_not_underscore; lia).
  assert (Hstop := fun acc k => scan_digits_stop 10 acc k l c rest Hl ltac:(lia)
                                  ltac:(lia) Hcu).
  unfold int. rewrite map_app. cbn [map]. rewrite (digits_to_blank _ Hl36).
  rewrite (digit_to_blank c) by lia.
  set (rest' := map to_blank rest) in *.
  assert (Hstop' := fun acc k => scan_digits_stop 10 acc k l c rest' Hl ltac:(lia)
                                  ltac:(lia) Hcu).
  clear Hstop.
  destruct l as [|d l'].
  - cbn [app]. rewrite (skip_space_digit c) by lia.
    destruct (digit_not_sign c ltac:(lia)) as [Hplus Hminus].
    rewrite !bool_decide_eq_false_2 by assumption.
    change (10 =? 16) with false. rewrite andb_false_r. cbn [andb].
    assert (Hpre : match c :: rest' with
                   | c0 :: _ :: _ => c :: rest'
                   | _ => c :: rest'
                   end = c :: rest') by (destruct rest'; reflexivity).
    rewrite Hpre. cbn [startswith].
    rewrite (bool_decide_eq_false_2 (underscore = c)) by congruence.
    cbn [andb]. specialize (Hstop' 0 0%nat). cbn [app] in Hstop'.
    rewrite Hstop'. reflexivity.
  - cbn [app]. pose proof (Forall_inv Hl36) as Hd36.
    rewrite (skip_space_digit d) by exact Hd36.
    destruct (digit_not_sign d Hd36) as [Hplus Hminus].
    rewrite !bool_decide_eq_false_2 by assumption.
    change (10 =? 16) with false. rewrite andb_false_r. cbn [andb].
    assert (Hpre : match d :: l' ++ c :: rest' with
                   | c0 :: _ :: _ => d :: l' ++ c :: rest'
                   | _ => d :: l' ++ c :: rest'
                   end = d :: l' ++ c :: rest')
      by (destruct (l' ++ c :: rest'); reflexivity).
    rewrite Hpre. cbn [startswith].
    rewrite (bool_decide_eq_false_2 (underscore = d))
      by (intros E; symmetry in E; revert E; apply digit_not_underscore, Hd36).
    cbn [andb]. specialize (Hstop' 0 0%nat). cbn [app] in Hstop'.
    rewrite Hstop'. cbn [length Nat.add Nat.eqb].
    destruct (_ && _); [reflexivity|].
    rewrite (skip_space_digit c) by lia. reflexivity.
Qed.

Import Phase6Log.

Lemma hex_digit_value d : 0 <= d < 16 -> digit_value (hex_digit d) = d.
Proof.
  intros Hd.
  assert (Hc : d = 0 \/ d = 1 \/ d = 2 \/ d = 3 \/ d = 4 \/ d = 5 \/ d = 6 \/ d = 7
               \/ d = 8 \/ d = 9 \/ d = 10 \/ d = 11 \/ d = 12 \/ d = 13 \/ d = 14
               \/ d = 15) by lia.
  repeat (destruct Hc as [-> | Hc]; [reflexivity|]). subst. reflexivity.
Qed.

(** The digits [hex_digits] writes are hexadecimal digits and denote [n]. *)
Lemma hex_digits_spec fuel n :
  0 <= n < 16 ^ Z.of_nat fuel -> (0 < fuel)%nat ->
  hex_digits fuel n <> [] /\
  Forall (fun c => digit_value c < 16) (hex_digits fuel n) /\
  forall acc,
    fold_left (fun a c => a * 16 + digit_value c) (hex_digits fuel n) acc
    = acc * 16 ^ Z.of_nat (length (hex_digits fuel n)) + n.
Proof.
  revert n. induction fuel as [|fuel IH]; intros n Hn Hf; [lia|].
  cbn [hex_digits]. destruct (n <? 16) eqn:E.
  - apply Z.ltb_lt in E. split; [discriminate|]. split.
    + constructor; [|constructor]. rewrite hex_digit_value; lia.
    + intros acc. cbn [fold_left length]. rewrite hex_digit_value by lia.
      change (Z.of_nat 1) with 1. lia.
  - apply Z.ltb_ge in E.
    assert (Hfuel : (0 < fuel)%nat).
    { destruct fuel; [|lia]. cbn in Hn. lia. }
    assert (Hdiv : 0 <= n / 16 < 16 ^ Z.of_nat fuel).
    { split; [apply Z.div_pos; lia|].
      apply Z.div_lt_upper_bound; [lia|].
      replace (16 * 16 ^ Z.of_nat fuel) with (16 ^ Z.of_nat (S fuel)); [lia|].
      rewrite Nat2Z.inj_succ, Z.pow_succ_r by lia. reflexivity. }
    destruct (IH (n / 16) Hdiv Hfuel) as (Hne & Hall & Hval).
    assert (Hmod : 0 <= n mod 16 < 16) by (apply Z.mod_pos_bound; lia).
    split; [destruct (hex_digits fuel (n / 16)); discriminate|]. split.
    + apply Forall_app. split; [exact Hall|].
      constructor; [|constructor]. rewrite hex_digit_value; lia.
    + intros acc. rewrite fold_left_app, Hval. cbn [fold_left].
      rewrite hex_digit_value by lia.
      rewrite length_app. cbn [length].
      rewrite Nat2Z.inj_add, Z.pow_add_r by lia.
      change (Z.of_nat 1) with 1. rewrite Z.pow_1_r.
      pose proof (Z.div_mod n 16 ltac:(lia)). lia.
Qed.

Lemma hex_fuel n : 0 <= n -> n < 16 ^ Z.of_nat (S (Z.to_nat (Z.log2 n))).
Proof.
  intros Hn. rewrite Nat2Z.inj_succ, Z2Nat.id by apply Z.log2_nonneg.
  destruct (Z.eq_dec n 0) as [-> | Hne]; [reflexivity|].
  pose proof (Z.log2_spec n ltac:(lia)) as [_ Hlt].
  eapply Z.lt_le_trans; [exact Hlt|].
  apply Z.pow_le_mono_l. lia.
Qed.

Lemma zeros_value m acc :
  fold_left (fun a c => a * 16 + digit_value c) (replicate m "0"%char) acc
  = acc * 16 ^ Z.of_nat m.
Proof.
  revert acc. induction m as [|m IH]; intros acc; [cbn; lia|].
  cbn [replicate fold_left]. rewrite IH.
  change (digit_value "0"%char) with 0.
  rewrite Nat2Z.inj_succ, Z.pow_succ_r by lia. lia.
Qed.

(** [format(n, "0<width>X")] of a number that is not negative: hexadecimal
    digits, at least one, that denote [n]. *)
Lemma format_X_spec width n :
  0 <= n ->
  format_X width n <> [] /\
  Forall (fun c => digit_value c < 16) (format_X width n) /\
  value 16 (format_X width n) = n.
Proof.
  intros Hn. unfold format_X. cbv zeta.
  replace (n <? 0) with false by (symmetry; apply Z.ltb_ge; exact Hn).
  rewrite Z.abs_eq by exact Hn.
  destruct (hex_digits_spec (S (Z.to_nat (Z.log2 n))) n) as (Hne & Hall & Hval);
    [split; [exact Hn | apply hex_fuel, Hn] | lia |].
  set (digits := hex_digits _ n) in *.
  split; [|split].
  - destruct (replicate _ _); [exact Hne | discriminate].
  - apply Forall_app. split; [|exact Hall].
    apply Forall_forall. intros c Hc. apply elem_of_replicate in Hc as [-> _].
    vm_compute. reflexivity.
  - unfold value. rewrite fold_left_app, zeros_value, Hval. lia.
Qed.

(** X13.  The replay reads back what the logger writes: for every number
    that is not negative, [parse_int] of the field [f"0x{n:0<width>X}"]
    (the form in which Phase 6 logs the CAN id, width 0, and the payload
    bytes, width 2) is that number, whatever the digit limit of [int]. *)
Theorem parse_int_reads_logged_hex (width : nat) (n : Z) :
  0 <= n -> parse_int limit (hex_field width n) = inr n.
Proof.
  intros Hn. destruct (format_X_spec width n Hn) as (Hne & Hall & Hval).
  unfold parse_int, hex_field.
  rewrite String.list_ascii_of_string_of_list_ascii.
  change (String.list_ascii_of_string "0x" ++ format_X width n)
    with ("0"%char :: "x"%char :: format_X width n).
  destruct (format_X width n) as [|c l] eqn:E; [contradiction|].
  rewrite strip_nospace.
  2:{ apply digits_nospace. constructor; [vm_compute; reflexivity|].
      constructor; [vm_compute; reflexivity|].
      apply (digits_below 16); [lia | exact Hall]. }
  change (startswith (String.list_ascii_of_string "0x")
            ("0"%char :: "x"%char :: c :: l)) with true.
  cbn [orb]. rewrite int_prefixed by (auto || exact Hall).
  rewrite Hval. reflexivity.
Qed.

Lemma startswith_0x_digits (x : ascii) c l :
  digit_value x >= 16 -> Forall (fun c => digit_value c < 16) (c :: l) ->
  startswith ["0"%char; x] (c :: l) = false.
Proof.
  intros Hx Hall. cbn [startswith]. destruct l as [|d l'].
  - apply andb_false_r.
  - rewrite (bool_decide_eq_false_2 (x = d)); [rewrite andb_false_r; reflexivity|].
    intros <-. pose proof (Forall_inv (Forall_inv_tail Hall)). simpl in *. lia.
Qed.

(** X14.  Decimal first: a field made of decimal digits only is read in
    base 10, although it is a hexadecimal literal too; unless it has more
    digits than [int] accepts in base 10, in which case the [ValueError] is
    caught and the same digits are read in base 16. *)
Theorem parse_int_decimal_first (field : string) :
  let l := String.list_ascii_of_string field in
  l <> [] -> Forall (fun c => digit_value c < 10) l ->
  parse_int limit field
  = inr (if (0 <? limit)%N && (limit <? N.of_nat (length l))%N
         then value 16 l else value 10 l).
Proof.
  intros l Hne Hall. unfold parse_int. fold l.
  destruct l as [|c l'] eqn:E; [contradiction|]. clear Hne.
  assert (Hall16 : Forall (fun c => digit_value c < 16) (c :: l')).
  { eapply Forall_impl; [exact Hall|]. intros; simpl in *; lia. }
  rewrite strip_nospace
    by (apply digits_nospace, (digits_below 10); [lia | exact Hall]).
  change (String.list_ascii_of_string "0x") with ["0"%char; "x"%char].
  change (String.list_ascii_of_string "0X") with ["0"%char; "X"%char].
  rewrite !startswith_0x_digits by (exact Hall16 || (vm_compute; discriminate)).
  cbn [orb]. rewrite (int_digits 10) by (auto || exact Hall).
  change (10 =? 10) with true. cbn [andb length].
  destruct ((0 <? limit)%N && (limit <? N.of_nat (S (length l')))%N);
    [|reflexivity].
  rewrite (int_digits 16) by (auto || exact Hall16). reflexivity.
Qed.

Lemma first_letter l :
  Exists (fun c => 10 <= digit_value c) l ->
  exists pre c rest,
    l = pre ++ c :: rest /\ Forall (fun c => digit_value c < 10) pre /\
    10 <= digit_value c.
Proof.
  induction l as [|d l IH]; intros Hex; [inversion Hex|].
  destruct (Z_lt_dec (digit_value d) 10) as [Hd|Hd].
  - apply Exists_cons in Hex as [Hex|Hex]; [lia|].
    destruct (IH Hex) as (pre & c & rest & -> & Hpre & Hc).
    exists (d :: pre), c, rest. split; [reflexivity|].
    split; [constructor; assumption | exact Hc].
  - exists [], d, l. split; [reflexivity|]. split; [constructor | lia].
Qed.

(** X15.  Hexadecimal as the fallback: a field of hexadecimal digits with
    at least one letter among them, and no [0x] prefix, is read in base 16
    ([int(field, 10)] raises [ValueError], which [parse_int] catches). *)
Theorem parse_int_hex_fallback (field : string) :
  let l := String.list_ascii_of_string field in
  Forall (fun c => digit_value c < 16) l ->
  Exists (fun c => 10 <= digit_value c) l ->
  parse_int limit field = inr (value 16 l).
Proof.
  intros l Hall Hex. unfold parse_int. fold l.
  destruct (first_letter l Hex) as (pre & c & rest & Hl & Hpre & Hc).
  destruct l as [|c0 l'] eqn:E; [inversion Hex|].
  rewrite strip_nospace
    by (apply digits_nospace, (digits_below 16); [lia | exact Hall]).
  change (String.list_ascii_of_string "0x") with ["0"%char; "x"%char].
  change (String.list_ascii_of_string "0X") with ["0"%char; "X"%char].
  rewrite !startswith_0x_digits by (exact Hall || (vm_compute; discriminate)).
  cbn [orb].
  assert (Hc16 : digit_value c < 16).
  { rewrite Hl in Hall. apply Forall_app in Hall as [_ Hall].
    exact (Forall_inv Hall). }
  rewrite Hl at 1. rewrite (int_letter_fails pre c rest Hpre) by lia.
  rewrite (int_digits 16) by (auto || exact Hall). reflexivity.
Qed.

Lemma lstrip_spaces ws l :
  Forall (fun c => isspace c = true) ws -> lstrip (ws ++ l) = lstrip l.
Proof.
  induction 1 as [|c ws Hc _ IH]; [reflexivity|]. simpl. rewrite Hc. exact IH.
Qed.

Lemma rstrip_spaces l ws :
  Forall (fun c => isspace c = true) ws -> rstrip (l ++ ws) = rstrip l.
Proof.
  intros Hws.
  assert (Hnil : rstrip ws = []).
  { induction Hws as [|c ws Hc _ IH]; [reflexivity|]. simpl. rewrite IH, Hc.
    reflexivity. }
  induction l as [|c l IH]; [exact Hnil|]. simpl. rewrite IH. reflexivity.
Qed.

Lemma lstrip_cases l :
  (lstrip l = [] /\ Forall (fun c => isspace c = true) l)
  \/ exists ws c l', l = ws ++ c :: l' /\ Forall (fun c => isspace c = true) ws
                      /\ isspace c = false /\ lstrip l = c :: l'.
Proof.
  induction l as [|c l IH]; [left; split; [reflexivity|constructor]|].
  simpl. destruct (isspace c) eqn:Hc.
  - destruct IH as [[E Hall] | (ws & d & l' & -> & Hws & Hd & E)].
    + left. split; [exact E | constructor; assumption].
    + right. exists (c :: ws), d, l'. repeat split; try assumption.
      constructor; assumption.
  - right. exists [], c, l. repeat split; try assumption. constructor.
Qed.

Lemma strip_spaces ws l ws' :
  Forall (fun c => isspace c = true) ws ->
  Forall (fun c => isspace c = true) ws' ->
  strip (ws ++ l ++ ws') = strip l.
Proof.
  intros Hws Hws'. unfold strip. rewrite (lstrip_spaces ws) by exact Hws.
  destruct (lstrip_cases l) as [[E Hall] | (sp & c & l' & -> & Hsp & Hc & E)].
  - rewrite E.
    assert (Hall' : Forall (fun c => isspace c = true) (l ++ ws'))
      by (apply Forall_app; split; assumption).
    destruct (lstrip_cases (l ++ ws')) as [[E' _] | (sp & c & l' & E' & Hsp & Hc & _)];
      [rewrite E'; reflexivity|].
    exfalso. rewrite E' in Hall'. apply Forall_app in Hall' as [_ Hall'].
    pose proof (Forall_inv Hall'). simpl in *. congruence.
  - rewrite E. rewrite <- app_assoc. rewrite (lstrip_spaces sp) by exact Hsp.
    cbn [app lstrip]. rewrite Hc.
    change (c :: l' ++ ws') with ((c :: l') ++ ws').
    apply rstrip_spaces, Hws'.
Qed.

(** X16.  White space around a field does not matter: [parse_int] strips
    every character for which [str.isspace] holds (a wider set than the one
    [int] skips by itself) before it looks at the field. *)
Theorem parse_int_ignores_white_space (ws l ws' : list ascii) :
  Forall (fun c => isspace c = true) ws ->
  Forall (fun c => isspace c = true) ws' ->
  parse_int limit (String.string_of_list_ascii (ws ++ l ++ ws'))
  = parse_int limit (String.string_of_list_ascii l).
Proof.
  intros Hws Hws'. unfold parse_int.
  rewrite !String.list_ascii_of_string_of_list_ascii.
  rewrite (strip_spaces ws l ws' Hws Hws'). reflexivity.
Qed.
End ParseInt.

Lemma parse_int_reads_logged_hex_witness :
  ReplayCsv.parse_int 4300 (Phase6Log.byte_field 5) = inr 5.
Proof.
  apply (parse_int_reads_logged_hex 4300 2 5). lia.
Defined.

Lemma parse_int_decimal_first_witness :
  ReplayCsv.parse_int 4300 "274" = inr 274.
Proof.
  exact (parse_int_decimal_first 4300 "274" ltac:(discriminate)
           ltac:(repeat constructor)).
Defined.

Lemma parse_int_hex_fallback_witness :
  ReplayCsv.parse_int 4300 "1A" = inr 26.
Proof.
  exact (parse_int_hex_fallback 4300 "1A" ltac:(repeat constructor)
           ltac:(right; left; vm_compute; discriminate)).
Defined.

Lemma parse_int_ignores_white_space_witness :
  ReplayCsv.parse_int 4300 (" " ++ "0x1A" ++ " ")%string
  = ReplayCsv.parse_int 4300 "0x1A".
Proof.
  exact (parse_int_ignores_white_space 4300
           (String.list_ascii_of_string " ")
           (String.list_ascii_of_string "0x1A")
           (String.list_ascii_of_string " ")
           ltac:(repeat constructor) ltac:(repeat constructor)).
Defined.

(* ===================================================================== *)
(** * Replay: the loop over the rows                                      *)
(* ===================================================================== *)

Section ReplayLoop.
Import ReplayCsv.
Variable limit : N.
Variable DateTime : Type.
Variable fromtimestamp : float -> option DateTime.

Local Abbreviation replay_row := (ReplayCsv.replay_row limit DateTime fromtimestamp).
Local Abbreviation replay_rows := (ReplayCsv.replay_rows limit DateTime fromtimestamp).
Local Abbreviation replay := (ReplayCsv.replay limit DateTime fromtimestamp).
Local Abbreviation lines_of := (ReplayCsv.lines_of limit DateTime fromtimestamp).
Local Abbreviation row_ok := (ReplayCsv.row_ok limit DateTime fromtimestamp).
Local Abbreviation reads_id := (ReplayCsv.reads_id limit DateTime fromtimestamp).
Local Abbreviation reads := (ReplayCsv.reads limit DateTime fromtimestamp).
Local Abbreviation line_of := (ReplayCsv.line_of DateTime).

Lemma lines_of_cons row rows :
  lines_of (row :: rows)
  = match replay_row row with
    | inr (Some line) => line :: lines_of rows
    | _ => lines_of rows
    end.
Proof.
  unfold ReplayCsv.lines_of. cbn [omap list_omap].
  destruct (replay_row row) as [e|[line|]]; reflexivity.
Qed.

Lemma lines_of_app rows1 rows2 :
  lines_of (rows1 ++ rows2) = lines_of rows1 ++ lines_of rows2.
Proof. apply omap_app. Qed.

(** The loop over rows that raise nothing. *)
Lemma replay_rows_ok rows total decoded :
  Forall row_ok rows ->
  replay_rows rows total decoded
  = (lines_of rows,
     inr (total + Z.of_nat (length rows),
          decoded + Z.of_nat (length (lines_of rows)))).
Proof.
  intros Hok. revert total decoded.
  induction Hok as [|row rows Hrow _ IH]; intros total decoded.
  - cbn. rewrite !Z.add_0_r. reflexivity.
  - cbn [ReplayCsv.replay_rows]. rewrite lines_of_cons.
    assert (E1 : forall n k, n + 1 + Z.of_nat k = n + Z.of_nat (S k))
      by (intros; lia).
    destruct (replay_row row) as [e|[line|]] eqn:E.
    + exfalso. exact (Hrow e E).
    + rewrite IH, !E1. reflexivity.
    + rewrite IH, E1. reflexivity.
Qed.

(** The loop up to the first row that raises. *)
Lemma replay_rows_abort pre row post e total decoded :
  Forall row_ok pre -> replay_row row = inl e ->
  replay_rows (pre ++ row :: post) total decoded = (lines_of pre, inl e).
Proof.
  intros Hok Hrow. revert total decoded.
  induction Hok as [|r pre Hr _ IH]; intros total decoded.
  - cbn [app ReplayCsv.replay_rows]. rewrite Hrow. reflexivity.
  - cbn [app ReplayCsv.replay_rows]. rewrite lines_of_cons.
    destruct (replay_row r) as [e'|[line|]] eqn:E.
    + exfalso. exact (Hr e' E).
    + rewrite IH. reflexivity.
    + rewrite IH. reflexivity.
Qed.

(** A row that holds a reading yields the line of the reading. *)
Lemma replay_row_reads (row : Row) (r : Reading DateTime) :
  reads row r -> replay_row row = inr (line_of r).
Proof.
  assert (Hid : forall ts can_id,
            reads_id row ts can_id ->
            replay_row row =
            match Replay.MESSAGES !! can_id with
            | None => inr None
            | Some (msg_name, sig_name) =>
                match parse_column limit row "b0" with
                | inl e => inl e
                | inr b0 =>
                    match parse_column limit row "b1" with
                    | inl e => inl e
                    | inr b1 =>
                        match to_float (Z.lor (Z.shiftl b1 8) b0) with
                        | inl e => inl e
                        | inr _ =>
                            inr (Some (DECODE DateTime ts can_id msg_name sig_name
                                         (Replay.decode_voltage_from_bytes b0 b1)))
                        end
                    end
                end
            end).
  { intros ts can_id (field & ms & x & Hf & Hint & Hx & Hts & Hcid).
    unfold ReplayCsv.replay_row, column.
    rewrite Hf, Hint, Hx, Hts, Hcid. reflexivity. }
  destruct r as [ts can_id msg_name sig_name b0 b1 | ts can_id]; cbn [reads line_of].
  - intros (Hr & Hm & Hb0 & Hb1 & Hfin).
    rewrite (Hid ts can_id Hr), Hm, Hb0, Hb1. unfold to_float. rewrite Hfin.
    reflexivity.
  - intros (Hr & Hm). rewrite (Hid ts can_id Hr), Hm. reflexivity.
Qed.

Lemma replay_rows_reads rows (readings : list (Reading DateTime)) total decoded :
  Forall2 reads rows readings ->
  replay_rows rows total decoded
  = (omap line_of readings,
     inr (total + Z.of_nat (length rows),
          decoded + Z.of_nat (length (omap line_of readings)))).
Proof.
  intros Hall. revert total decoded.
  induction Hall as [|row r rows readings Hr _ IH]; intros total decoded.
  - cbn. rewrite !Z.add_0_r. reflexivity.
  - cbn [ReplayCsv.replay_rows]. rewrite (replay_row_reads row r Hr).
    assert (E1 : forall n k, n + 1 + Z.of_nat k = n + Z.of_nat (S k))
      by (intros; lia).
    change (omap line_of (r :: readings))
      with (match line_of r with
            | Some l => l :: omap line_of readings
            | None => omap line_of readings
            end).
    destruct (line_of r) as [line|].
    + rewrite IH, !E1. reflexivity.
    + rewrite IH, E1. reflexivity.
Qed.

Lemma MESSAGES_keys (can_id : Z) :
  is_Some (Replay.MESSAGES !! can_id)
  <-> can_id = 0x111 \/ can_id = 0x112 \/ can_id = 0x113.
Proof.
  unfold Replay.MESSAGES. split.
  - intros [v Hv].
    apply lookup_insert_Some in Hv as [[<- _] | [_ Hv]]; [tauto|].
    apply lookup_insert_Some in Hv as [[<- _] | [_ Hv]]; [tauto|].
    apply lookup_singleton_Some in Hv as [<- _]. tauto.
  - intros [-> | [-> | ->]]; vm_compute; eauto.
Qed.

(** X17.  When every row can be read, the replay prints one DECODE line
    for each row whose CAN id is one of the three messages of [MESSAGES]
    (0x111, 0x112, 0x113), in the order of the file, with the name of the
    message, the name of its signal and the voltage decoded from the [b0]
    and [b1] columns, and no line for a row with another id; then the
    summary, in which [total_rows] is the number of rows read and
    [decoded_rows] the number of DECODE lines printed. *)
Theorem replay_reports_every_row (csv_path : string) (rows : list Row)
    (readings : list (Reading DateTime)) :
  Forall2 reads rows readings ->
  replay csv_path rows
  = (OPENING DateTime csv_path
       :: omap line_of readings
       ++ [BLANK DateTime;
           DONE DateTime (Z.of_nat (length rows))
                         (Z.of_nat (length (omap line_of readings)))],
     inr tt) /\
  Forall (fun r : Reading DateTime =>
            match r with
            | Known _ _ can_id msg_name sig_name _ _ =>
                (can_id = 0x111 /\ msg_name = "ECU_A_STATUS"%string /\
                 sig_name = "ECUA_Supply_Voltage"%string)
                \/ (can_id = 0x112 /\ msg_name = "ECU_B_STATUS"%string /\
                    sig_name = "ECUB_Supply_Voltage"%string)
                \/ (can_id = 0x113 /\ msg_name = "DCDC_STATUS"%string /\
                    sig_name = "DCDC_Output_Voltage"%string)
            | Other _ _ can_id =>
                can_id <> 0x111 /\ can_id <> 0x112 /\ can_id <> 0x113
            end) readings.
Proof.
  intros Hall. split.
  - unfold ReplayCsv.replay. rewrite (replay_rows_reads rows readings 0 0 Hall).
    reflexivity.
  - induction Hall as [|row r rows readings Hr _ IH]; constructor; [|exact IH].
    destruct r as [ts can_id msg_name sig_name b0 b1 | ts can_id];
      cbn [reads] in Hr.
    + destruct Hr as (_ & Hm & _). unfold Replay.MESSAGES in Hm.
      apply lookup_insert_Some in Hm as [[<- [= <- <-]] | [_ Hm]]; [tauto|].
      apply lookup_insert_Some in Hm as [[<- [= <- <-]] | [_ Hm]]; [tauto|].
      apply lookup_singleton_Some in Hm as [<- [= <- <-]]. tauto.
    + destruct Hr as (_ & Hm).
      repeat split; intros ->; vm_compute in Hm; discriminate.
Qed.

(** X18.  The first row that raises ends the replay: the lines of the rows
    before it have been printed, the exception leaves [replay], and neither
    a later row nor the summary is printed. *)
Theorem replay_stops_at_first_bad_row (csv_path : string)
    (pre : list Row) (row : Row) (post : list Row) (e : Exc) :
  Forall row_ok pre -> replay_row row = inl e ->
  replay csv_path (pre ++ row :: post)
  = (OPENING DateTime csv_path :: lines_of pre, inl e).
Proof.
  intros Hok Hrow. unfold ReplayCsv.replay.
  rewrite (replay_rows_abort pre row post e 0 0 Hok Hrow). reflexivity.
Qed.

(** [DictReader] gives a row no column that the header does not name. *)
Lemma dict_of_missing (fieldnames record : list string) (k : string) :
  k ∉ fieldnames -> dict_of fieldnames record !! k = None.
Proof.
  intros Hk. unfold dict_of.
  generalize (map Some record
              ++ replicate (length fieldnames - length record) None).
  intros vals.
  assert (Hgen : forall (pairs : list (string * option string))
                        (m : gmap string (option string)),
            m !! k = None -> k ∉ pairs.*1 ->
            foldl (fun d kv => <[kv.1 := kv.2]> d) m pairs !! k = None).
  { induction pairs as [|[k' v] pairs IH]; intros m Hm Hp; [exact Hm|].
    cbn [foldl]. apply IH.
    - cbn [fst snd]. rewrite lookup_insert_ne; [exact Hm|].
      intros ->. apply Hp. cbn. left.
    - intros Hin. apply Hp. cbn. right. exact Hin. }
  apply Hgen; [apply lookup_empty|].
  intros Hin. apply Hk. apply list_elem_of_fmap in Hin as ([k' v] & -> & Hin).
  cbn [fst]. revert vals Hin. clear. induction fieldnames as [|f fs IH];
    intros [|v0 vals] Hin; cbn in Hin; try (inversion Hin; fail).
  apply elem_of_cons in Hin as [[= -> ->]|Hin]; [left|right; eapply IH, Hin].
Qed.

Lemma replay_row_no_ts (row : Row) :
  row !! "ts_host_ms"%string = None -> replay_row row = inl E_Key.
Proof.
  intros Hr. unfold ReplayCsv.replay_row, column. rewrite Hr. reflexivity.
Qed.

(** X19.  [replay] cannot read the log that Phase 6 [main.py] writes: the
    header of that log has no [ts_host_ms] column, so the first record
    raises [KeyError]; nothing is decoded and no summary is printed. *)
Theorem replay_rejects_logger_header (csv_path : string)
    (records : list (list string)) :
  DictReader (Phase6Log.HEADER :: records) <> [] ->
  replay csv_path (DictReader (Phase6Log.HEADER :: records))
  = ([OPENING DateTime csv_path], inl E_Key).
Proof.
  cbn [DictReader].
  destruct (List.filter _ records) as [|record rest]; [contradiction|].
  intros _. cbn [map].
  assert (Hrow : replay_row (dict_of Phase6Log.HEADER record) = inl E_Key).
  { apply replay_row_no_ts, dict_of_missing.
    unfold Phase6Log.HEADER. intros Hin.
    repeat (apply elem_of_cons in Hin as [Hin|Hin]; [discriminate|]).
    inversion Hin. }
  pose proof (replay_rows_abort [] _ (map (dict_of Phase6Log.HEADER) rest)
                E_Key 0 0 ltac:(constructor) Hrow) as Habort.
  cbn [app] in Habort. unfold ReplayCsv.replay. rewrite Habort. reflexivity.
Qed.

End ReplayLoop.

Section ReplayWitnesses.
Import ReplayCsv.

(** A log with the columns [replay] reads: a frame of ECU A, then a frame
    with an unknown id whose payload columns cannot be read. *)
Lemma replay_reports_every_row_witness :
  let rows := DictReader [["ts_host_ms"; "can_id"; "b0"; "b1"];
                          ["1000"; "0x111"; "0x82"; "0x00"];
                          ["2000"; "0x200"; "zz"]]%string in
  replay 4300 float Some "log.csv" rows
  = ([OPENING float "log.csv";
      DECODE float 1.0%float 0x111 "ECU_A_STATUS" "ECUA_Supply_Voltage"
             (Replay.decode_voltage_from_bytes 0x82 0);
      BLANK float; DONE float 2 1],
     inr tt).
Proof.
  cbv zeta.
  assert (Hreads :
            Forall2 (ReplayCsv.reads 4300 float Some)
              (DictReader [["ts_host_ms"; "can_id"; "b0"; "b1"];
                           ["1000"; "0x111"; "0x82"; "0x00"];
                           ["2000"; "0x200"; "zz"]]%string)
              [Known float 1.0%float 0x111 "ECU_A_STATUS"
                     "ECUA_Supply_Voltage" 0x82 0;
               Other float 2.0%float 0x200]).
  { cbn [DictReader List.filter negb bool_decide map].
    constructor; [|constructor; [|constructor]].
    - cbn [ReplayCsv.reads].
      split; [|split; [|split; [|split]]]; [|vm_compute; reflexivity..].
      exists "1000"%string, 1000%Z, 1000.0%float.
      split; [|split; [|split; [|split]]]; vm_compute; reflexivity.
    - cbn [ReplayCsv.reads]. split; [|vm_compute; reflexivity].
      exists "2000"%string, 2000%Z, 2000.0%float.
      split; [|split; [|split; [|split]]]; vm_compute; reflexivity. }
  exact (proj1 (replay_reports_every_row 4300 float Some "log.csv" _ _ Hreads)).
Defined.

(** The second record has no hexadecimal or decimal CAN id. *)
Lemma replay_stops_at_first_bad_row_witness :
  let hdr := ["ts_host_ms"; "can_id"; "b0"; "b1"]%string in
  let pre := [dict_of hdr ["1000"; "0x111"; "0x82"; "0x00"]%string] in
  let row := dict_of hdr ["2000"; "id"; "0x82"; "0x00"]%string in
  let post := [dict_of hdr ["3000"; "0x112"; "0x8B"; "0x00"]%string] in
  replay 4300 float Some "log.csv" (pre ++ row :: post)
  = (OPENING float "log.csv" :: lines_of 4300 float Some pre, inl E_Value).
Proof.
  cbv zeta. apply (replay_stops_at_first_bad_row 4300 float Some).
  - constructor; [intros e; vm_compute; discriminate | constructor].
  - vm_compute. reflexivity.
Defined.

(** One frame as Phase 6 logs it. *)
Lemma replay_rejects_logger_header_witness :
  let records :=
    [["2025-01-01T00:00:00.000Z"; "1000"; "0x111"; "0"; "8";
      "0x82"; "0x00"; "0x00"; "0x00"; "0x00"; "0x00"; "0x00"; "0x00";
      "ECU_A_STATUS"; "13.000"; ""; ""; ""]]%string in
  replay 4300 float Some "log.csv" (DictReader (Phase6Log.HEADER :: records))
  = ([OPENING float "log.csv"], inl E_Key).
Proof.
  cbv zeta. apply (replay_rejects_logger_header 4300 float Some).
  cbn [DictReader List.filter negb bool_decide]. discriminate.
Defined.

End ReplayWitnesses.

(* ===================================================================== *)
(** * Replay: the decoded voltage follows the raw value                   *)
(* ===================================================================== *)

Section DecodeOrder.
Local Open Scope float_scope.

Lemma steps_increase_all : steps_increase 65535 0 = true.
Proof. vm_compute. reflexivity. Qed.

Lemma steps_increase_spec (p : positive) (lo k : Z) :
  steps_increase p lo = true -> (lo <= k < lo + Zpos p)%Z ->
  (voltage_of_raw k <? voltage_of_raw (k + 1)) = true.
Proof.
  revert lo. induction p as [p IH | p IH |]; intros lo Hall Hk;
    cbn [steps_increase] in Hall.
  - apply andb_true_iff in Hall as [Hall H3].
    apply andb_true_iff in Hall as [H1 H2].
    destruct (Z_lt_dec k (lo + Zpos p)) as [Hlt|Hge]; [apply (IH lo H1); lia|].
    destruct (Z_lt_dec k (lo + Zpos p + Zpos p)) as [Hlt|Hge'];
      [apply (IH (lo + Zpos p)%Z H2); lia|].
    replace k with (lo + Zpos p + Zpos p)%Z by lia. exact H3.
  - apply andb_true_iff in Hall as [H1 H2].
    destruct (Z_lt_dec k (lo + Zpos p)) as [Hlt|Hge]; [apply (IH lo H1); lia|].
    apply (IH (lo + Zpos p)%Z H2). lia.
  - replace k with lo by lia. exact Hall.
Qed.

Lemma voltage_step (k : Z) :
  (0 <= k < 65535)%Z ->
  (voltage_of_raw k <? voltage_of_raw (k + 1)) = true.
Proof.
  intros Hk. apply (steps_increase_spec 65535 0 k steps_increase_all). lia.
Qed.

Lemma ltb_trans (a b c : float) :
  (a <? b) = true -> (b <? c) = true -> (a <? c) = true.
Proof.
  intros Hab Hbc.
  exact (FloatOrder.leb_ltb_trans _ _ _ (FloatAbs.ltb_leb _ _ Hab) Hbc).
Qed.

Lemma ltb_irrefl (a : float) : (a <? a) = true -> False.
Proof.
  intros H. exact (FloatOrder.ltb_leb_excl _ _ H (FloatAbs.ltb_leb _ _ H)).
Qed.

Lemma voltage_increasing (i j : Z) :
  (0 <= i < j)%Z -> (j <= 65535)%Z ->
  (voltage_of_raw i <? voltage_of_raw j) = true.
Proof.
  intros Hij Hj.
  assert (Hgen : forall n : nat,
            (i + Z.of_nat (S n) <= 65535)%Z ->
            (voltage_of_raw i <? voltage_of_raw (i + Z.of_nat (S n))) = true).
  { induction n as [|n IH]; intros Hn.
    - change (Z.of_nat 1) with 1%Z. apply voltage_step. lia.
    - apply (ltb_trans _ (voltage_of_raw (i + Z.of_nat (S n)))).
      + apply IH. lia.
      + replace (i + Z.of_nat (S (S n)))%Z with (i + Z.of_nat (S n) + 1)%Z by lia.
        apply voltage_step. lia. }
  replace j with (i + Z.of_nat (S (Z.to_nat (j - i - 1))))%Z by lia.
  apply Hgen. lia.
Qed.

Lemma decode_voltage_of_raw (b0 b1 : Z) :
  (0 <= b0 < 256)%Z -> (0 <= b1 < 256)%Z ->
  Replay.decode_voltage_from_bytes b0 b1 = voltage_of_raw (256 * b1 + b0).
Proof.
  intros H0 H1.
  pose proof (raw_of_bytes (256 * b1 + b0) ltac:(lia)) as Hraw.
  replace ((256 * b1 + b0) / 256)%Z with b1 in Hraw
    by (apply (Z.div_unique _ _ _ b0); lia).
  replace ((256 * b1 + b0) mod 256)%Z with b0 in Hraw
    by (apply (Z.mod_unique _ _ b1); lia).
  unfold Replay.decode_voltage_from_bytes, voltage_of_raw. cbv zeta.
  rewrite Hraw. reflexivity.
Qed.

(** X20.  The decoded voltage follows the raw value: on payload bytes, a
    larger 16-bit raw value decodes to a strictly larger voltage (the
    rounding of [raw * 0.1] never merges two raw values), so different byte
    pairs never decode to the same voltage, and every voltage lies between
    0 and 6553.5. *)
Theorem decode_voltage_order_preserving (b0 b1 c0 c1 : Z) :
  (0 <= b0 < 256)%Z -> (0 <= b1 < 256)%Z ->
  (0 <= c0 < 256)%Z -> (0 <= c1 < 256)%Z ->
  ((256 * b1 + b0 < 256 * c1 + c0)%Z ->
   (Replay.decode_voltage_from_bytes b0 b1
    <? Replay.decode_voltage_from_bytes c0 c1) = true) /\
  (Replay.decode_voltage_from_bytes b0 b1
   = Replay.decode_voltage_from_bytes c0 c1 -> b0 = c0 /\ b1 = c1) /\
  (0 <=? Replay.decode_voltage_from_bytes b0 b1) = true /\
  (Replay.decode_voltage_from_bytes b0 b1 <=? 6553.5) = true.
Proof.
  intros Hb0 Hb1 Hc0 Hc1.
  rewrite (decode_voltage_of_raw b0 b1 Hb0 Hb1),
          (decode_voltage_of_raw c0 c1 Hc0 Hc1).
  set (i := (256 * b1 + b0)%Z). set (j := (256 * c1 + c0)%Z).
  assert (Hi : (0 <= i <= 65535)%Z) by (unfold i; lia).
  assert (Hj : (0 <= j <= 65535)%Z) by (unfold j; lia).
  split; [|split; [|split]].
  - intros Hlt. apply voltage_increasing; lia.
  - intros Heq.
    assert (Hij : i = j).
    { destruct (Z.lt_trichotomy i j) as [Hlt | [E | Hgt]]; [|exact E|].
      - exfalso. pose proof (voltage_increasing i j ltac:(lia) ltac:(lia)) as H.
        rewrite Heq in H. exact (ltb_irrefl _ H).
      - exfalso. pose proof (voltage_increasing j i ltac:(lia) ltac:(lia)) as H.
        rewrite Heq in H. exact (ltb_irrefl _ H). }
    unfold i, j in Hij. lia.
  - destruct (Z.eq_dec i 0%Z) as [->|Hne]; [vm_compute; reflexivity|].
    apply FloatAbs.ltb_leb.
    apply (FloatOrder.leb_ltb_trans _ (voltage_of_raw 0%Z));
      [vm_compute; reflexivity | apply voltage_increasing; lia].
  - destruct (Z.eq_dec i 65535%Z) as [->|Hne]; [vm_compute; reflexivity|].
    apply (FloatOrder.leb_trans _ (voltage_of_raw 65535%Z));
      [|vm_compute; reflexivity].
    apply FloatAbs.ltb_leb, voltage_increasing; lia.
Qed.

End DecodeOrder.

(** Raw 130 (13.0 V) against raw 139 (13.9 V). *)
Lemma decode_voltage_order_preserving_witness :
  ((256 * 0 + 130 < 256 * 0 + 139)%Z ->
   (Replay.decode_voltage_from_bytes 130 0
    <? Replay.decode_voltage_from_bytes 139 0)%float = true) /\
  (Replay.decode_voltage_from_bytes 130 0
   = Replay.decode_voltage_from_bytes 139 0 -> 130 = 139 /\ 0 = 0) /\
  (0 <=? Replay.decode_voltage_from_bytes 130 0)%float = true /\
  (Replay.decode_voltage_from_bytes 130 0 <=? 6553.5)%float = true.
Proof.
  apply (decode_voltage_order_preserving 130 0 139 0); lia.
Defined.

(* ===================================================================== *)
(** * Phase 8: one evaluation per decoded frame                           *)
(* ===================================================================== *)

Section Phase8Sampling.
Context `{Dbc}.
Import Phase8 Phase8Views.
Local Open Scope float_scope.


Lemma p8_send_one_line event now x st :
  (length (output (send_event_to_sheets event now x st)) <= 1)%nat /\
  List.filter is_EVENT (output (send_event_to_sheets event now x st)) = [].
Proof.
  rewrite p8_send_run. destruct (_ <? _); [cbn; split; [lia|reflexivity]|].
  destruct x as [status|code| |]; try (cbn; split; [lia|reflexivity]).
  destruct (status =? 200)%Z; cbn; split; (lia || reflexivity).
Qed.

Lemma p8_push_events_lines i events world st :
  (length (List.filter is_EVENT (output (push_events i events world st)))
   <= length events)%nat /\
  (length (output (push_events i events world st)) <= 2 * length events)%nat.
Proof.
  revert i st. induction events as [|ev rest IH]; intros i st;
    [cbn; split; lia|].
  rewrite p8_push_events_cons, bind_print. cbn [output fst snd].
  fold (output (bind (send_event_to_sheets ev (world i).1 (world i).2)
                  (fun _ => push_events (S i) rest world) st)).
  rewrite output_bind.
  destruct (p8_send_one_line ev (world i).1 (world i).2 st) as [H1 H2].
  cbn [app List.filter is_EVENT length].
  rewrite List.filter_app, !length_app, H2. cbn [length Nat.add].
  destruct (result _) as [[]|e]; [|cbn [length List.filter]; split; lia].
  destruct (IH (S i) (final_state
                        (send_event_to_sheets ev (world i).1 (world i).2 st)))
    as [I1 I2].
  split; lia.
Qed.

Lemma p8_events_at_most_two a b d r :
  (length (threshold_events a b d ++ drift_events r a b d) <= 2)%nat.
Proof.
  rewrite length_app. pose proof (p8_threshold_events_exclusive a b d).
  assert (length (drift_events r a b d) <= 1)%nat; [|lia].
  unfold drift_events. destruct r as [[ewma|] [trend|]]; try (cbn; lia).
  destruct (_ && _); cbn; lia.
Qed.

(** X22.  One frame raises at most two events in Phase 8 (one threshold
    alert and one drift warning) and each event is pushed at most once: the
    handler prints at most two event lines and at most four lines in all. *)
Theorem phase8_at_most_two_events (f : Frame)
    (world : nat -> float * Exchange) (st : State) :
  (length (List.filter is_EVENT (output (can_frame_v0 f world st))) <= 2)%nat /\
  (length (output (can_frame_v0 f world st)) <= 4)%nat.
Proof.
  destruct (p8_frame_cases f world st)
    as [[_ ->] | [(_ & _ & ->) | (msg & decoded & name & _ & _ & _ & _ & Hc)]];
    [cbn; split; lia | cbn; split; lia |].
  destruct (decoded !! name) as [v|]; rewrite Hc; [|cbn; split; lia].
  set (st1 := stored msg v (counted st)).
  destruct (ECU_A (latest_voltages st1)) as [a|] eqn:HA;
    [|rewrite p8_evaluate_and_push_missing by tauto; cbn; split; lia].
  destruct (ECU_B (latest_voltages st1)) as [b|] eqn:HB;
    [|rewrite p8_evaluate_and_push_missing by tauto; cbn; split; lia].
  destruct (DCDC (latest_voltages st1)) as [d|] eqn:HD;
    [|rewrite p8_evaluate_and_push_missing by tauto; cbn; split; lia].
  rewrite (p8_evaluate_and_push_run _ world st1 a b d HA HB HD).
  match goal with
  | |- context [push_events 0 ?evs world ?s] =>
      destruct (p8_push_events_lines 0 evs world s) as [L1 L2];
      pose proof (p8_events_at_most_two a b d
                    (ewma_delta_a s, endpoint_trend (drift_history s))) as L3
  end.
  split; lia.
Qed.

End Phase8Sampling.


(* ===================================================================== *)
(** * The trend (C5)                                                      *)
(* ===================================================================== *)

Section FloatQuotient.
Local Open Scope float_scope.

(** A float that is neither [<= 0] nor [> 0] is a NaN. *)
Lemma SF_nan_of_unordered (s : spec_float) :
  SFleb s (Prim2SF 0) = false -> SFltb (Prim2SF 0) s = false -> s = S754_nan.
Proof.
  change (Prim2SF 0) with (S754_zero false). unfold SFleb, SFltb.
  destruct s as [sg|sg| |sg m e]; simpl; try discriminate; try reflexivity;
    destruct sg; simpl; discriminate.
Qed.

(** A quotient by such a float is above nothing. *)
Lemma quotient_by_unordered (dt x c : float) :
  (dt <=? 0) = false -> (0 <? dt) = false -> (c <? x / dt) = false.
Proof.
  rewrite FloatAxioms.leb_spec, !FloatAxioms.ltb_spec, FloatAxioms.div_spec.
  intros H1 H2. rewrite (SF_nan_of_unordered _ H1 H2).
  unfold SF64div, SFdiv, SFltb. destruct (Prim2SF x), (Prim2SF c); reflexivity.
Qed.

End FloatQuotient.

Section Phase7DriftLines.
Import Phase7 Phase7Views.
Local Open Scope float_scope.

(** With the live values and the smoothed deltas set, the statistical check
    prints the drift lines the globals owe.  The source returns when
    [dt <= 0]; an elapsed time that is neither [<= 0] nor [> 0] is a NaN,
    which makes both trends NaN and every guard false. *)
Lemma p7_stat_checks_output dA dB s a b d eA eB :
  V_A s = Some a -> V_B s = Some b -> V_D s = Some d ->
  ewma_deltaA s = Some eA -> ewma_deltaB s = Some eB ->
  output (run_statistical_checks dA dB s) = drift_lines s.
Proof.
  intros HA HB HD HEA HEB. unfold run_statistical_checks, drift_lines, trends.
  rewrite bind_get, HA, HB, HD, HEA, HEB. rewrite (Nat.leb_antisym _ 2).
  destruct (length (window s) <? 2)%nat; [reflexivity|]. cbn [negb].
  destruct (head (window s)) as [[[[t0 a0] b0] d0]|]; [|reflexivity].
  destruct (last (window s)) as [[[[t1 a1] b1] d1]|]; [|reflexivity].
  cbn [fst snd]. cbv zeta.
  destruct (t1 - t0 <=? 0) eqn:Hle, (0 <? t1 - t0) eqn:Hlt.
  - exfalso. exact (FloatOrder.ltb_leb_excl _ _ Hlt Hle).
  - reflexivity.
  - destruct (abs (d1 - DCDC_NOMINAL_V) <=? DCDC_TOLERANCE);
      repeat match goal with
             | |- context [if ?c then _ else _] => destruct c
             end; py_run; reflexivity.
  - rewrite !(quotient_by_unordered (t1 - t0) _ _ Hle Hlt).
    rewrite !andb_false_r. cbn [andb].
    destruct (abs (d1 - DCDC_NOMINAL_V) <=? DCDC_TOLERANCE); py_run; reflexivity.
Qed.

(** No drift line is owed while a live value or a smoothed delta is unset. *)
Lemma p7_drift_lines_missing st :
  V_D st = None \/ V_A st = None \/ V_B st = None \/
  ewma_deltaA st = None \/ ewma_deltaB st = None ->
  drift_lines st = [].
Proof.
  intros Hm. unfold drift_lines.
  destruct (trends (window st)) as [[tA tB]|]; [|reflexivity].
  destruct (last (window st)); [|reflexivity].
  destruct (V_A st), (V_B st), (V_D st), (ewma_deltaA st), (ewma_deltaB st);
    try reflexivity.
  destruct Hm as [Hm|[Hm|[Hm|[Hm|Hm]]]]; discriminate.
Qed.

(** With [ewma_deltaA] set and [ewma_deltaB] unset the blend of the second
    EWMA raises, before the checks. *)
Lemma p7_update_unpaired t st v_d v_a v_b eA :
  V_D st = Some v_d -> V_A st = Some v_a -> V_B st = Some v_b ->
  ewma_deltaA st = Some eA -> ewma_deltaB st = None ->
  update_stats_and_rules t st = (updated t v_d v_a v_b st, [], Raise TypeError).
Proof.
  intros HD HA HB EA EB. unfold update_stats_and_rules, updated.
  rewrite bind_get, HD, HA, HB. py_run. rewrite EA. py_run. rewrite EB. py_run.
  unfold set_ewma_deltaB, set_ewma_deltaA, set_window; simpl.
  rewrite ?HD, ?HA, ?HB, ?EB. reflexivity.
Qed.

(** In every other case the update reaches its two checks, with both
    smoothed deltas set. *)
Lemma p7_update_reaches_checks t st v_d v_a v_b :
  V_D st = Some v_d -> V_A st = Some v_a -> V_B st = Some v_b ->
  ewma_deltaA st = None \/ is_Some (ewma_deltaB st) ->
  update_stats_and_rules t st =
    (run_rule_based_harness_checks (v_d - v_a) (v_d - v_b) ;;
     run_statistical_checks (v_d - v_a) (v_d - v_b)) (updated t v_d v_a v_b st)
  /\ is_Some (ewma_deltaA (updated t v_d v_a v_b st))
  /\ is_Some (ewma_deltaB (updated t v_d v_a v_b st)).
Proof.
  intros HD HA HB Hp.
  assert (Hs : is_Some (ewma_deltaA (updated t v_d v_a v_b st))
               /\ is_Some (ewma_deltaB (updated t v_d v_a v_b st))).
  { unfold updated. cbv zeta. cbn [ewma_deltaA ewma_deltaB].
    split; [eauto|].
    destruct (ewma_deltaA st) as [eA|]; [|eauto].
    destruct Hp as [Hp | [eB ->]]; [discriminate | eauto]. }
  split; [|exact Hs].
  destruct (p7_update_cases t st v_d v_a v_b HD HA HB) as [E | E]; [|exact E].
  exfalso.
  destruct (ewma_deltaA st) as [eA|] eqn:EA.
  - destruct Hp as [Hp | [eB EB]]; [discriminate|].
    revert E. unfold update_stats_and_rules.
    rewrite bind_get, HD, HA, HB. py_run. rewrite EA. py_run. rewrite EB. py_run.
    intros E.
    assert (Hr := f_equal result E). revert Hr.
    rewrite !result_bind.
    rewrite p7_rule_checks_result by (cbn; eauto).
    rewrite (p7_rule_checks_reads_only _ _ _).
    rewrite p7_stat_checks_result; [discriminate| | | |]; try (cbn; eauto).
    split; cbn; eauto.
  - revert E. unfold update_stats_and_rules.
    rewrite bind_get, HD, HA, HB. py_run. rewrite EA. py_run.
    intros E.
    assert (Hr := f_equal result E). revert Hr.
    rewrite !result_bind.
    rewrite p7_rule_checks_result by (cbn; eauto).
    rewrite (p7_rule_checks_reads_only _ _ _).
    rewrite p7_stat_checks_result; [discriminate| | | |]; try (cbn; eauto).
    split; cbn; eauto.
Qed.

(** The drift lines an evaluation prints are those the globals it leaves
    owe. *)
Lemma p7_update_drift_lines t st :
  List.filter is_early (output (update_stats_and_rules t st))
  = drift_lines (final_state (update_stats_and_rules t st)).
Proof.
  destruct (V_D st) as [v_d|] eqn:HD;
    [|rewrite p7_update_missing by auto; cbn [output final_state fst snd];
      rewrite p7_drift_lines_missing by auto; reflexivity].
  destruct (V_A st) as [v_a|] eqn:HA;
    [|rewrite p7_update_missing by auto; cbn [output final_state fst snd];
      rewrite p7_drift_lines_missing by auto; reflexivity].
  destruct (V_B st) as [v_b|] eqn:HB;
    [|rewrite p7_update_missing by auto; cbn [output final_state fst snd];
      rewrite p7_drift_lines_missing by auto; reflexivity].
  rewrite (p7_update_final_state t st v_d v_a v_b HD HA HB).
  assert (Hcase : (exists eA, ewma_deltaA st = Some eA /\ ewma_deltaB st = None)
                  \/ ewma_deltaA st = None \/ is_Some (ewma_deltaB st)).
  { destruct (ewma_deltaA st) as [eA|], (ewma_deltaB st) as [eB|]; eauto. }
  destruct Hcase as [(eA & EA & EB) | Hp].
  - rewrite (p7_update_unpaired t st v_d v_a v_b eA HD HA HB EA EB).
    cbn [output fst snd List.filter].
    rewrite p7_drift_lines_missing; [reflexivity|].
    do 4 right. unfold updated. cbv zeta. cbn [ewma_deltaB].
    rewrite EA, EB. reflexivity.
  - destruct (p7_update_reaches_checks t st v_d v_a v_b HD HA HB Hp)
      as (E & [eA' EA'] & [eB' EB']).
    rewrite E, output_bind, List.filter_app.
    rewrite (filter_nil_of_Forall is_early
               (output (run_rule_based_harness_checks _ _ _))).
    2:{ eapply Forall_impl; [apply p7_rule_checks_print_alerts|].
        intros l Hl. apply p7_alert_not_early, Hl. }
    rewrite p7_rule_checks_result by (cbn; eauto).
    rewrite (p7_rule_checks_reads_only _ _ _).
    cbn [app].
    rewrite filter_id_of_Forall by apply p7_stat_checks_print_early.
    apply (p7_stat_checks_output _ _ _ v_a v_b v_d eA' eB');
      first [reflexivity | assumption].
Qed.

End Phase7DriftLines.

Section Statistics.
Local Open Scope float_scope.

Lemma p8_endpoint_trend_slope h t0 d0 t1 d1 :
  (2 <= length h)%nat -> head h = Some (t0, d0) -> last h = Some (t1, d1) ->
  (t1 - t0 >? 0) = true ->
  Phase8.endpoint_trend h = Some ((d1 - d0) / (t1 - t0)).
Proof.
  intros Hlen Hh Hl Hdt. unfold Phase8.endpoint_trend.
  rewrite (proj2 (Nat.leb_le _ _) Hlen), Hh, Hl, Hdt. reflexivity.
Qed.

Lemma p8_endpoint_trend_none h :
  Phase8.no_slope h -> Phase8.endpoint_trend h = None.
Proof.
  intros [Hlen | (t0 & d0 & t1 & d1 & Hh & Hl & Hdt)]; unfold Phase8.endpoint_trend.
  - rewrite (proj2 (Nat.leb_gt _ _) Hlen). reflexivity.
  - rewrite Hh, Hl, (FloatOrder.eqb_not_gtb _ _ Hdt).
    destruct (2 <=? length h)%nat; reflexivity.
Qed.

(** C5. Trend is the endpoint slope of the sliding window and nothing else.
    Phase 8: when the history left by [update_drift] holds two points or
    more and the elapsed time between its oldest and newest point is
    positive, the trend returned is (newest - oldest value) / elapsed time;
    when it holds fewer than two points or the elapsed time is zero, the
    trend returned is None, and [evaluate_rules] returns no drift event.
    Phase 7: the trend is a local of [run_statistical_checks]; every drift
    line an evaluation prints reports this endpoint slope of the window the
    evaluation leaves, and with fewer than two samples or zero elapsed time
    no drift line is printed.  More: the drift lines an evaluation prints
    are exactly [drift_lines] of the globals it leaves, that is, the lines
    of the three drift rules with their guards read on [trends] of the
    window: (newest - oldest value) / elapsed time of each metric when the
    window holds two samples or more and the elapsed time is positive, and
    no trend, hence no line, otherwise. *)
Theorem trend_is_endpoint_slope :
  (forall ts a d st,
      let r := Phase8.update_drift ts a d st in
      let h := Phase8.drift_history (final_state r) in
      exists ewma trend,
        result r = Ok (ewma, trend) /\
        (forall t0 d0 t1 d1,
            (2 <= length h)%nat ->
            head h = Some (t0, d0) -> last h = Some (t1, d1) ->
            (t1 - t0 >? 0) = true ->
            trend = Some ((d1 - d0) / (t1 - t0))) /\
        (Phase8.no_slope h -> trend = None)) /\
  (forall ts st,
      let r := Phase8.evaluate_rules ts st in
      Phase8.no_slope (Phase8.drift_history (final_state r)) ->
      exists events,
        result r = Ok events /\ List.filter Phase8.is_early events = []) /\
  (forall t st,
      let r := Phase7.update_stats_and_rules t st in
      let w := Phase7.window (final_state r) in
      Forall (fun l => Phase7.is_early l = true -> Phase7.endpoint_slopes w l)
             (output r) /\
      (Phase7.no_slope w -> List.filter Phase7.is_early (output r) = [])) /\
  (forall t st,
      let r := Phase7.update_stats_and_rules t st in
      List.filter Phase7.is_early (output r)
      = Phase7Views.drift_lines (final_state r)).
Proof.
  split; [|split; [|split]].
  - intros ts a d st. cbv zeta. rewrite p8_update_drift_run.
    eexists _, _. split; [reflexivity|]. split.
    + intros t0 d0 t1 d1. apply p8_endpoint_trend_slope.
    + apply p8_endpoint_trend_none.
  - intros ts st. cbv zeta.
    destruct (Phase8.ECU_A (Phase8.latest_voltages st)) as [a|] eqn:HA;
      [|rewrite p8_evaluate_rules_missing by auto; exists []; split; reflexivity].
    destruct (Phase8.ECU_B (Phase8.latest_voltages st)) as [b|] eqn:HB;
      [|rewrite p8_evaluate_rules_missing by auto; exists []; split; reflexivity].
    destruct (Phase8.DCDC (Phase8.latest_voltages st)) as [d|] eqn:HD;
      [|rewrite p8_evaluate_rules_missing by auto; exists []; split; reflexivity].
    rewrite (p8_evaluate_rules_run ts st a b d HA HB HD).
    cbn [final_state fst]. intros Hns.
    eexists. split; [reflexivity|].
    rewrite p8_filter_early, (p8_endpoint_trend_none _ Hns).
    unfold Phase8.drift_events. destruct (Phase8.ewma_delta_a _); reflexivity.
  - intros t st. cbv zeta. split.
    + apply Forall_forall. intros l Hl Hearly. apply list_elem_of_In in Hl.
      destruct (p7_update_early_lines t st l Hl Hearly) as (dA & dB & Hin).
      pose proof (p7_stat_checks_slopes dA dB
                    (final_state (Phase7.update_stats_and_rules t st))) as Hs.
      rewrite Forall_forall in Hs. apply Hs, list_elem_of_In, Hin.
    + intros Hns. apply filter_nil_of_Forall, Forall_forall.
      intros l Hl. apply list_elem_of_In in Hl.
      destruct (Phase7.is_early l) eqn:Hearly; [|reflexivity].
      destruct (p7_update_early_lines t st l Hl Hearly) as (dA & dB & Hin).
      rewrite (p7_stat_checks_silent dA dB _ Hns) in Hin. destruct Hin.
  - intros t st. cbv zeta. apply p7_update_drift_lines.
Qed.

(** Phase 8 with two points ten seconds apart and with an empty history;
    Phase 7 with an empty window, and with a sample taken ten seconds
    before the evaluation: metric A has risen from 0.5 V to 14.0 - 13.4 V,
    metric B is flat, and the one line printed shows the slope of A. *)
Lemma trend_is_endpoint_slope_witness :
  (exists ewma trend,
      result (Phase8.update_drift 10000%Z 12.0 15.0
                (Phase8.mkState
                   (Phase8.mkVoltages (Some 12.0) (Some 13.0) (Some 15.0))
                   4%Z 4%Z (Some 2.0) [(0.0, 2.0)] ∅))
      = Ok (ewma, trend) /\
      trend = Some ((3.0 - 2.0) / (10.0 - 0.0))) /\
  (exists events,
      result (Phase8.evaluate_rules 0%Z
                (Phase8.mkState
                   (Phase8.mkVoltages (Some 12.0) (Some 13.0) (Some 15.0))
                   3%Z 3%Z None [] ∅)) = Ok events /\
      List.filter Phase8.is_early events = []) /\
  List.filter Phase7.is_early
    (output (Phase7.update_stats_and_rules 100.0
               (Phase7.mkState (Some 12.0) (Some 13.0) (Some 14.0) 3%Z 3%Z
                  [] None None))) = [] /\
  List.filter Phase7.is_early
    (output (Phase7.update_stats_and_rules 110.0
               (Phase7.mkState (Some 13.4) (Some 14.0) (Some 14.0) 4%Z 4%Z
                  [(100.0, 0.5, 0.0, 14.0)] (Some 0.5) (Some 0.0))))
  = [Phase7.EARLY_A 13.4 14.0 14.0
       (Phase7.EWMA_ALPHA * (14.0 - 13.4) + (1.0 - Phase7.EWMA_ALPHA) * 0.5)
       ((14.0 - 13.4 - 0.5) / (110.0 - 100.0))
       (Phase7.EWMA_ALPHA * (14.0 - 14.0) + (1.0 - Phase7.EWMA_ALPHA) * 0.0)].
Proof.
  destruct trend_is_endpoint_slope as (H8 & H8e & H7 & H7d).
  split; [|split; [|split]].
  - destruct (H8 10000%Z 12.0 15.0
                (Phase8.mkState
                   (Phase8.mkVoltages (Some 12.0) (Some 13.0) (Some 15.0))
                   4%Z 4%Z (Some 2.0) [(0.0, 2.0)] ∅))
      as (ewma & trend & Hr & Hslope & _).
    exists ewma, trend. split; [exact Hr|].
    apply (Hslope 0.0 2.0 10.0 3.0); vm_compute; try reflexivity; lia.
  - apply (H8e 0%Z). left. vm_compute. lia.
  - apply (proj2 (H7 100.0 _)). left. vm_compute. lia.
  - rewrite (H7d 110.0). vm_compute. reflexivity.
Defined.

End Statistics.
